(** * ai-streaming-module.js: streaming AI responses, verified

    A shallow embedding of the provider module ([AIProvider],
    [OpenAIProvider], [SelfHostedProvider]): the line parsers, the NDJSON
    stream reducer, the message adapter of the self-hosted provider and the
    retry of a request the backend refuses for its [think] flag.

    JavaScript strings are sequences of UTF-16 code units, buffers are
    sequences of bytes, values parsed from JSON are a tagged union, and the
    effects of the module (logger calls, callback calls, requests sent, the
    caller's own state, thrown errors) are threaded through a state and
    exception monad that records a trace. *)

From Stdlib Require Import List NArith Bool Ascii String Lia.
From Stdlib Require Import Strings.Byte.
Import ListNotations.
Local Open Scope list_scope.
Local Open Scope N_scope.
Set Warnings "-register-all".

(* ================================================================== *)
(** * JavaScript strings *)
(* ================================================================== *)

Module JsString.

(** A string is its sequence of UTF-16 code units. *)
Definition code_unit := N.
Definition jsstring := list code_unit.

(** A literal of the source, written in ASCII. *)
Definition lit (s : string) : jsstring :=
  map N_of_ascii (list_ascii_of_string s).

(** A literal that contains double quotes, written with [']: every
    apostrophe of [s] stands for the code unit 34. *)
Definition qlit (s : string) : jsstring :=
  map (fun c => if c =? 39 then 34 else c) (lit s).

Fixpoint eqb (s t : jsstring) : bool :=
  match s, t with
  | [], [] => true
  | c :: s', d :: t' => (c =? d) && eqb s' t'
  | _, _ => false
  end.

(** [s.startsWith(p)] *)
Fixpoint startsWith (s p : jsstring) : bool :=
  match p, s with
  | [], _ => true
  | d :: p', c :: s' => (c =? d) && startsWith s' p'
  | _ :: _, [] => false
  end.

(** [s.substring(n)] for [0 <= n]: the code units from position [n] on. *)
Definition substring (s : jsstring) (n : nat) : jsstring := skipn n s.

(** [s.indexOf(c)] for a one-unit pattern: [None] stands for -1. *)
Fixpoint indexOf (s : jsstring) (c : code_unit) : option nat :=
  match s with
  | [] => None
  | d :: s' => if d =? c then Some O else option_map S (indexOf s' c)
  end.

(** [re.test(s)] for a regular expression that is a plain word:
    [s] has [p] as a substring. *)
Fixpoint includes (s p : jsstring) : bool :=
  startsWith s p ||
  match s with
  | [] => false
  | _ :: s' => includes s' p
  end.

(** WhiteSpace and LineTerminator of ECMAScript, the code units that
    [trim] removes. *)
Definition is_space (c : code_unit) : bool :=
  ((9 <=? c) && (c <=? 13)) || (c =? 32) || (c =? 160) || (c =? 5760)
  || ((8192 <=? c) && (c <=? 8202)) || (c =? 8232) || (c =? 8233)
  || (c =? 8239) || (c =? 8287) || (c =? 12288) || (c =? 65279).

Fixpoint trimStart (s : jsstring) : jsstring :=
  match s with
  | [] => []
  | c :: s' => if is_space c then trimStart s' else s
  end.

Definition trimEnd (s : jsstring) : jsstring := rev (trimStart (rev s)).

(** [s.trim()] *)
Definition trim (s : jsstring) : jsstring := trimEnd (trimStart s).

(** [s.split(sep)] for a separator of one code unit: never empty, and a
    string that ends in the separator has the empty string as its last
    segment. *)
Fixpoint split (sep : code_unit) (s : jsstring) : list jsstring :=
  match s with
  | [] => [[]]
  | c :: s' =>
      if c =? sep then [] :: split sep s'
      else match split sep s' with
           | [] => [[c]]
           | l :: ls => (c :: l) :: ls
           end
  end.

Definition NL : code_unit := 10.

(** [a.join(sep)] on an array of strings. *)
Fixpoint join (sep : jsstring) (l : list jsstring) : jsstring :=
  match l with
  | [] => []
  | [s] => s
  | s :: l' => s ++ sep ++ join sep l'
  end.

End JsString.
Import JsString.

(* ================================================================== *)
(** * TextDecoder *)
(* ================================================================== *)

Module TextDecoder.

(** The UTF-8 decoder of the Encoding Standard, which [new TextDecoder()]
    runs: the code point under construction, the bytes seen and needed,
    and the bounds of the next continuation byte. *)
Record utf8 := {
  code_point : N;
  bytes_seen : N;
  bytes_needed : N;
  lower : N;
  upper : N;
}.

Definition utf8_init : utf8 :=
  {| code_point := 0; bytes_seen := 0; bytes_needed := 0;
     lower := 128; upper := 191 |}.

Definition REPLACEMENT : N := 65533.

(** A byte read while no sequence is open. *)
Definition utf8_lead (b : N) : utf8 * list N :=
  if b <=? 127 then (utf8_init, [b])
  else if (194 <=? b) && (b <=? 223) then
    ({| code_point := N.land b 31; bytes_seen := 0; bytes_needed := 1;
        lower := 128; upper := 191 |}, [])
  else if (224 <=? b) && (b <=? 239) then
    ({| code_point := N.land b 15; bytes_seen := 0; bytes_needed := 2;
        lower := if b =? 224 then 160 else 128;
        upper := if b =? 237 then 159 else 191 |}, [])
  else if (240 <=? b) && (b <=? 244) then
    ({| code_point := N.land b 7; bytes_seen := 0; bytes_needed := 3;
        lower := if b =? 240 then 144 else 128;
        upper := if b =? 244 then 143 else 191 |}, [])
  else (utf8_init, [REPLACEMENT]).

(** The handler on one byte: the next state and the code points emitted.
    A byte that cannot continue the open sequence ends it with U+FFFD
    and is read again as a lead byte. *)
Definition utf8_handler (st : utf8) (b : N) : utf8 * list N :=
  if bytes_needed st =? 0 then utf8_lead b
  else if negb ((lower st <=? b) && (b <=? upper st)) then
    let (st', out) := utf8_lead b in (st', REPLACEMENT :: out)
  else
    let cp := N.lor (N.shiftl (code_point st) 6) (N.land b 63) in
    let seen := bytes_seen st + 1 in
    if negb (seen =? bytes_needed st) then
      ({| code_point := cp; bytes_seen := seen;
          bytes_needed := bytes_needed st; lower := 128; upper := 191 |}, [])
    else (utf8_init, [cp]).

(** A code point as UTF-16 code units. *)
Definition utf16 (cp : N) : jsstring :=
  if cp <=? 65535 then [cp]
  else let c := cp - 65536 in
       [55296 + N.shiftr c 10; 56320 + N.land c 1023].

(** The decoder object: the UTF-8 state and the "BOM seen" flag (the
    decoder is made with the default [ignoreBOM: false], so a leading
    U+FEFF is dropped). *)
Record t := {
  decoder : utf8;
  bom_seen : bool;
}.

(** [new TextDecoder()] *)
Definition create : t := {| decoder := utf8_init; bom_seen := false |}.

(** Serialising the emitted code points, the first of the stream apart
    when it is the byte order mark. *)
Fixpoint serialize (seen : bool) (cps : list N) : bool * jsstring :=
  match cps with
  | [] => (seen, [])
  | cp :: cps' =>
      if negb seen && (cp =? 65279) then serialize true cps'
      else let (seen', out) := serialize true cps' in (seen', utf16 cp ++ out)
  end.

Definition push (d : t) (b : byte) : t * jsstring :=
  let (st, cps) := utf8_handler (decoder d) (Byte.to_N b) in
  let (seen, out) := serialize (bom_seen d) cps in
  ({| decoder := st; bom_seen := seen |}, out).

(** [decoder.decode(chunk, { stream: true })]: the bytes of the chunk are
    pushed one after the other and the end of the chunk flushes nothing,
    an open sequence waits for the next call. *)
Fixpoint decode (d : t) (chunk : list byte) : t * jsstring :=
  match chunk with
  | [] => (d, [])
  | b :: chunk' =>
      let (d1, out1) := push d b in
      let (d2, out2) := decode d1 chunk' in
      (d2, out1 ++ out2)
  end.

End TextDecoder.

(* ================================================================== *)
(** * JavaScript values *)
(* ================================================================== *)

Module JsValue.

(** The values the module handles: what [JSON.parse] returns, the object
    literals the parsers build, and [undefined]. A number is kept as the
    string [String(n)] renders it: its truth value and its rendering are
    all the module ever asks of a number. An object is the list of its own
    properties. *)
Inductive jsval :=
  | Undefined
  | Null
  | Bool (b : bool)
  | Num (repr : jsstring)
  | Str (s : jsstring)
  | Arr (items : list jsval)
  | Obj (props : list (jsstring * jsval)).

Definition nullish (v : jsval) : bool :=
  match v with Undefined | Null => true | _ => false end.

(** ToBoolean *)
Definition truthy (v : jsval) : bool :=
  match v with
  | Undefined | Null => false
  | Bool b => b
  | Num r => negb (JsString.eqb r (lit "0") || JsString.eqb r (lit "NaN"))
  | Str s => match s with [] => false | _ => true end
  | Arr _ | Obj _ => true
  end.

(** [typeof v === 'string'] *)
Definition is_string (v : jsval) : option jsstring :=
  match v with Str s => Some s | _ => None end.

(** [v === true] *)
Definition is_true (v : jsval) : bool :=
  match v with Bool true => true | _ => false end.

Fixpoint assoc (k : jsstring) (props : list (jsstring * jsval))
  : option jsval :=
  match props with
  | [] => None
  | (k', v) :: props' => if JsString.eqb k k' then Some v else assoc k props'
  end.

(** A property key that is an array index: decimal digits with no
    leading zero. *)
Fixpoint digits (k : jsstring) (acc : nat) : option nat :=
  match k with
  | [] => Some acc
  | c :: k' =>
      if (48 <=? c) && (c <=? 57)
      then digits k' (10 * acc + N.to_nat (c - 48))%nat
      else None
  end.

Definition array_index (k : jsstring) : option nat :=
  match k with
  | [] => None
  | [48] => Some O
  | 48 :: _ => None
  | _ => digits k O
  end.

(** The own property [k] of a value that is neither [null] nor
    [undefined]; the inherited ones ([length], the methods) are left out,
    the module reads none of them. *)
Definition own (v : jsval) (k : jsstring) : option jsval :=
  match v with
  | Obj props => assoc k props
  | Arr items =>
      match array_index k with
      | Some i => nth_error items i
      | None => None
      end
  | Str s =>
      match array_index k with
      | Some i => option_map (fun c => Str [c]) (nth_error s i)
      | None => None
      end
  | _ => None
  end.

(** [v[k]] for such a value. *)
Definition member (v : jsval) (k : jsstring) : jsval :=
  match own v k with Some x => x | None => Undefined end.

(** [v?.[k]] *)
Definition opt (v : jsval) (k : jsstring) : jsval :=
  if nullish v then Undefined else member v k.

(** [v ?? d] *)
Definition nullish_or (v d : jsval) : jsval := if nullish v then d else v.

(** [v || d] *)
Definition or_else (v d : jsval) : jsval := if truthy v then v else d.

(** ToString, as [RegExp.prototype.test] applies it to its argument. *)
Fixpoint to_string (v : jsval) : jsstring :=
  match v with
  | Undefined => lit "undefined"
  | Null => lit "null"
  | Bool true => lit "true"
  | Bool false => lit "false"
  | Num r => r
  | Str s => s
  | Arr items =>
      join (lit ",")
        (map (fun x => if nullish x then [] else to_string x) items)
  | Obj _ => lit "[object Object]"
  end.

(** What a [throw] carries: the object [{ status, body }] of a failed
    HTTP call, or an [Error] object (a [TypeError], a [SyntaxError], a
    network failure), which has no [body]. *)
Inductive exn :=
  | HttpError (status : N) (body : jsval)
  | JsError (name message : jsstring).

(** [err.body] *)
Definition exn_body (e : exn) : jsval :=
  match e with
  | HttpError _ body => body
  | JsError _ _ => Undefined
  end.

Inductive completion (A : Type) :=
  | Normal (a : A)
  | Throw (e : exn).
Arguments Normal {A} a.
Arguments Throw {A} e.

End JsValue.
Import JsValue.

(* ================================================================== *)
(** * Requests, responses and the platform *)
(* ================================================================== *)

Module Wire.

(** One part of a multi-part message content: [{ type: 'text', text }],
    [{ type: 'image_url', image_url: { url } }], or a part of another
    type. *)
Inductive part :=
  | TextPart (text : jsstring)
  | ImagePart (url : jsstring)
  | OtherPart (type : jsstring).

(** [msg.content]: a string, or an array of parts. *)
Inductive message_content :=
  | Text (s : jsstring)
  | Parts (parts : list part).

Record message := {
  role : jsstring;
  content : message_content;
}.

(** A message of the payload sent to the self-hosted backend: a message of
    the caller pushed as it is, the object [{ role, content }], or the
    object [{ role, content, images }]. *)
Inductive ollama_message :=
  | Passed (msg : message)
  | Plain (role content : jsstring)
  | WithImages (role content : jsstring) (images : list jsstring).

(** The keys of the object pushed. *)
Definition keys (m : ollama_message) : list jsstring :=
  match m with
  | Passed _ | Plain _ _ => [lit "role"; lit "content"]
  | WithImages _ _ _ => [lit "role"; lit "content"; lit "images"]
  end.

Inductive payload :=
  | OpenAIPayload (model : jsstring) (messages : list message)
      (temperature : jsval) (stream : bool) (max_tokens : jsval)
  | OllamaPayload (model : jsstring) (messages : list ollama_message)
      (stream : bool) (temperature num_predict : jsval) (think : bool).

Definition payload_think (p : payload) : option bool :=
  match p with
  | OpenAIPayload _ _ _ _ _ => None
  | OllamaPayload _ _ _ _ _ think => Some think
  end.

Definition payload_stream (p : payload) : bool :=
  match p with
  | OpenAIPayload _ _ _ stream _ => stream
  | OllamaPayload _ _ stream _ _ _ => stream
  end.

(** What [fetch(url, { method: 'POST', headers, body })] is given; the
    body is kept as the payload that [JSON.stringify] renders. *)
Module Request.
Record t := {
  url : jsstring;
  headers : list (jsstring * jsstring);
  body : payload;
}.
End Request.
Definition request : Type := Request.t.

(** [resp.body], the readable the reducer iterates: the buffers it
    yields, and the error it ends with when the transfer breaks. *)
Record readable := {
  chunks : list (list byte);
  failure : option exn;
}.

(** The response of the transport: [resp.ok], [resp.status], what
    [resp.text()] resolves to, and [resp.body]. *)
Record response := {
  ok : bool;
  status : N;
  text : completion jsstring;
  body : readable;
}.

(** The bytes of an ASCII text, every apostrophe of [s] standing for a
    double quote as in [qlit]. *)
Definition qbytes (s : string) : list byte :=
  map (fun b => if Byte.eqb b x27 then x22 else b) (list_byte_of_string s).

End Wire.
Import Wire.

(** What the module takes from outside: the state of the world around it
    (the caller's and the backend's), [JSON.parse], and [fetch]. *)
Class Platform := {
  world : Type;
  JSON_parse : jsstring -> completion jsval;
  fetch : request -> world -> completion response * world;
}.

(* ================================================================== *)
(** * Effects *)
(* ================================================================== *)

Module Effects.

Inductive level := INFO | DEBUG | ERROR | WARN.

(** The calls of the logger, one constructor for each message of the
    source. *)
Inductive entry :=
  | StreamStart
  | StreamEnd (reason : jsstring)
  | StreamError (error : exn)
  | InvalidJsonLine (line : jsstring) (e : exn)
  | Post (stream : bool) (url : jsstring)
  | RequestBody (p : payload)
  | BuiltOllamaPayload
  | ErrorBody (body : jsval)
  | ThinkingNotSupported.

Inductive event :=
  | Log (lvl : level) (msg : entry)
  | OnContent (chunk : jsstring)
  | OnThinking (thought : jsstring)
  | OnDone
  | Fetch (req : request).

Definition TypeError : exn :=
  JsError (lit "TypeError") (lit "Cannot read properties").

Section Monad.
Context {P : Platform}.

(** The world and the trace of what the module did so far, oldest
    first. *)
Record state := {
  env : world;
  trace : list event;
}.

Definition M (A : Type) : Type := state -> completion A * state.

Definition ret {A} (a : A) : M A := fun st => (Normal a, st).

Definition bind {A B} (m : M A) (k : A -> M B) : M B :=
  fun st =>
    match m st with
    | (Normal a, st') => k a st'
    | (Throw e, st') => (Throw e, st')
    end.

Definition throw {A} (e : exn) : M A := fun st => (Throw e, st).

(** [try { m } catch (e) { h e }] *)
Definition try_catch {A} (m : M A) (h : exn -> M A) : M A :=
  fun st =>
    match m st with
    | (Normal a, st') => (Normal a, st')
    | (Throw e, st') => h e st'
    end.

(** The state with one more event recorded. *)
Definition record (e : event) (st : state) : state :=
  {| env := env st; trace := trace st ++ [e] |}.

Definition emit (e : event) : M unit :=
  fun st => (Normal tt, record e st).

(** A call that acts on the world. *)
Definition perform {A} (f : world -> completion A * world) : M A :=
  fun st =>
    let (r, w) := f (env st) in (r, {| env := w; trace := trace st |}).

Definition lift {A} (c : completion A) : M A :=
  fun st => (c, st).

(** [this.logger.info(..)] and the like; the logger is taken to return,
    as [console] does. *)
Definition log (lvl : level) (msg : entry) : M unit := emit (Log lvl msg).

(** [v.k], a [TypeError] on [null] and [undefined]. *)
Definition get (v : jsval) (k : jsstring) : M jsval :=
  if nullish v then throw TypeError else ret (member v k).

End Monad.

End Effects.
Import Effects.

Declare Scope js_scope.
Delimit Scope js_scope with js.
Notation "x <- m ;; k" := (bind m (fun x => k))
  (at level 61, m at next level, right associativity) : js_scope.
Notation "m ;; k" := (bind m (fun _ => k))
  (at level 61, right associativity) : js_scope.
Local Open Scope js_scope.

(* ================================================================== *)
(** * AIProvider: the stream reducer *)
(* ================================================================== *)

Module AIProvider.

(** How a loop body is left: it falls through to the next round, or the
    function returns. *)
Inductive flow (A : Type) :=
  | Next (a : A)
  | Return.
Arguments Next {A} a.
Arguments Return {A}.

Section Base.
Context {P : Platform}.

(** The [config] object of a request. The callbacks of the caller are
    fields of it; each acts on the world and may throw. *)
Record config := {
  model : jsstring;
  messages : list message;
  temperature : jsval;
  maxTokens : jsval;
  think : bool;
  stream : bool;
  onContent : jsstring -> world -> completion unit * world;
  onThinking : jsstring -> world -> completion unit * world;
  onDone : world -> completion unit * world;
}.

(** [{ ...config, stream: s, think: t }] *)
Definition with_flags (c : config) (s t : bool) : config :=
  {| model := model c; messages := messages c;
     temperature := temperature c; maxTokens := maxTokens c;
     think := t; stream := s;
     onContent := onContent c; onThinking := onThinking c;
     onDone := onDone c |}.

(** [{ ...config, stream: s }] *)
Definition with_stream (c : config) (s : bool) : config :=
  with_flags c s (think c).

(** The calls of the callbacks, each recorded when it is made. *)
Definition call_onContent (cb : config) (s : jsstring) : M unit :=
  emit (OnContent s) ;; perform (onContent cb s).

Definition call_onThinking (cb : config) (s : jsstring) : M unit :=
  emit (OnThinking s) ;; perform (onThinking cb s).

Definition call_onDone (cb : config) : M unit :=
  emit OnDone ;; perform (onDone cb).

(** The two lines [if (typeof result.content === 'string') ...] and
    [if (typeof result.thinking === 'string') ...]. *)
Definition deliver (cb : config) (result : jsval) : M unit :=
  content <- get result (lit "content") ;;
  match is_string content with
  | Some s => call_onContent cb s
  | None => ret tt
  end ;;
  thinking <- get result (lit "thinking") ;;
  match is_string thinking with
  | Some s => call_onThinking cb s
  | None => ret tt
  end.

Section Reducer.
(** [this._parseStreamLine], which the subclass provides. *)
Variable parseStreamLine : jsstring -> M jsval.
Variable callbacks : config.

(** [for (const raw of lines) { ... }] *)
Fixpoint for_lines (lines : list jsstring) : M (flow unit) :=
  match lines with
  | [] => ret (Next tt)
  | raw :: rest =>
      let line := trim raw in
      match line with
      | [] => for_lines rest
      | _ =>
          result <- parseStreamLine line ;;
          isDone <- get result (lit "isDone") ;;
          if truthy isDone then
            call_onDone callbacks ;;
            reason <- get result (lit "reason") ;;
            log DEBUG (StreamEnd (to_string reason)) ;;
            ret Return
          else
            deliver callbacks result ;;
            for_lines rest
      end
  end.

(** [for await (const chunk of resp.body) { ... }], from the decoder and
    the leftover the rounds before left; the result is the leftover after
    the last chunk. *)
Fixpoint for_await (chunks : list (list byte)) (failure : option exn)
    (decoder : TextDecoder.t) (leftover : jsstring) : M (flow jsstring) :=
  match chunks with
  | [] =>
      match failure with
      | Some e => throw e
      | None => ret (Next leftover)
      end
  | chunk :: rest =>
      let (decoder', text) := TextDecoder.decode decoder chunk in
      let lines := split NL (leftover ++ text) in
      let leftover' := last lines [] in
      r <- for_lines (removelast lines) ;;
      match r with
      | Return => ret Return
      | Next _ => for_await rest failure decoder' leftover'
      end
  end.

Definition _streamNDJSON (resp : response) : M unit :=
  try_catch
    (log DEBUG StreamStart ;;
     r <- for_await (chunks (body resp)) (failure (body resp))
            TextDecoder.create [] ;;
     match r with
     | Return => ret tt
     | Next leftover =>
         match trim leftover with
         | [] => ret tt
         | line =>
             result <- parseStreamLine line ;;
             isDone <- get result (lit "isDone") ;;
             if negb (truthy isDone) then deliver callbacks result
             else ret tt
         end ;;
         call_onDone callbacks ;;
         log DEBUG (StreamEnd (lit "normal close"))
     end)
    (fun error =>
       log ERROR (StreamError error) ;;
       call_onDone callbacks).

End Reducer.

(** [_parseStreamLine] of the base class. *)
Definition _parseStreamLine (line : jsstring) : M jsval :=
  throw (JsError (lit "Error")
           (lit "Method '_parseStreamLine()' must be implemented.")).

End Base.
End AIProvider.
Import AIProvider.

(* ================================================================== *)
(** * OpenAIProvider *)
(* ================================================================== *)

Module OpenAIProvider.
Section Provider.
Context {P : Platform}.
Variable apiKey : jsstring.

Definition baseUrl : jsstring := lit "https://api.openai.com/v1".

Definition _getUrlAndHeaders : jsstring * list (jsstring * jsstring) :=
  (baseUrl ++ lit "/chat/completions",
   [(lit "Content-Type", lit "application/json");
    (lit "Authorization", lit "Bearer " ++ apiKey)]).

Definition _buildPayload (c : config) : payload :=
  OpenAIPayload (model c) (messages c) (temperature c) (stream c)
    (maxTokens c).

(** The request [_sendRequestInternal] gives to [fetch]. *)
Definition request_sent (c : config) : request :=
  {| Request.url := fst _getUrlAndHeaders;
     Request.headers := snd _getUrlAndHeaders;
     Request.body := _buildPayload c |}.

Definition _parseStreamLine (line : jsstring) : M jsval :=
  if JsString.eqb line (lit "data: [DONE]") then
    ret (Obj [(lit "isDone", Bool true);
              (lit "reason", Str (lit "DONE sentinel"))])
  else if negb (startsWith line (lit "data: ")) then
    ret (Obj [])
  else
    let jsonStr := substring line (List.length (lit "data: ")) in
    try_catch
      (obj <- lift (JSON_parse jsonStr) ;;
       choices <- get obj (lit "choices") ;;
       let msg :=
         nullish_or (opt (opt choices (lit "0")) (lit "delta")) (Obj []) in
       content <- get msg (lit "content") ;;
       ret (Obj [(lit "content", content)]))
      (fun e =>
         log ERROR (InvalidJsonLine jsonStr e) ;;
         ret (Obj [])).

Definition _sendRequestInternal (c : config) : M response :=
  let (url, headers) := _getUrlAndHeaders in
  let payload := _buildPayload c in
  log INFO (Post (stream c) url) ;;
  log DEBUG (RequestBody payload) ;;
  let req :=
    {| Request.url := url; Request.headers := headers;
       Request.body := payload |} in
  emit (Fetch req) ;;
  resp <- perform (fetch req) ;;
  if negb (ok resp) then
    txt <- lift (text resp) ;;
    throw (HttpError (status resp) (Str txt))
  else ret resp.

(** [resp.json()] *)
Definition json (resp : response) : M jsval :=
  txt <- lift (text resp) ;;
  lift (JSON_parse txt).

Definition generateResponse (c : config) : M jsval :=
  resp <- _sendRequestInternal (with_stream c false) ;;
  data <- json resp ;;
  ret (or_else
         (opt (opt (opt (opt data (lit "choices")) (lit "0")) (lit "message"))
            (lit "content"))
         (Str [])).

Definition streamResponse (c : config) : M unit :=
  resp <- _sendRequestInternal (with_stream c true) ;;
  _streamNDJSON _parseStreamLine c resp.

End Provider.
End OpenAIProvider.

(* ================================================================== *)
(** * SelfHostedProvider *)
(* ================================================================== *)

Module SelfHostedProvider.
Section Provider.
Context {P : Platform}.
Variable baseUrl : jsstring.

Definition _getUrlAndHeaders : jsstring * list (jsstring * jsstring) :=
  (baseUrl ++ lit "/api/chat",
   [(lit "Content-Type", lit "application/json")]).

(** The loop over the parts of one message: the text gathered so far and
    the images pushed so far. *)
Fixpoint for_parts (parts : list part) (textContent : jsstring)
    (images : list jsstring) : jsstring * list jsstring :=
  match parts with
  | [] => (textContent, images)
  | TextPart text :: rest =>
      for_parts rest (textContent ++ text ++ lit " ") images
  | ImagePart dataUrl :: rest =>
      match dataUrl with
      | [] => for_parts rest textContent images
      | _ =>
          let base64Data :=
            substring dataUrl
              match indexOf dataUrl 44 with
              | Some i => S i
              | None => O
              end in
          for_parts rest textContent (images ++ [base64Data])
      end
  | OtherPart _ :: rest => for_parts rest textContent images
  end.

Definition process_message (msg : message) : ollama_message :=
  match content msg with
  | Parts parts =>
      if JsString.eqb (role msg) (lit "user") then
        let (textContent, images) := for_parts parts [] [] in
        let content := trim textContent in
        match images with
        | [] => Plain (lit "user") content
        | _ => WithImages (lit "user") content images
        end
      else Passed msg
  | Text _ => Passed msg
  end.

Definition _processMessagesForOllama (messages : list message)
  : list ollama_message :=
  map process_message messages.

Definition _buildPayload (c : config) : M payload :=
  let processedMessages := _processMessagesForOllama (messages c) in
  let payload :=
    OllamaPayload (model c) processedMessages (stream c) (temperature c)
      (maxTokens c) (think c) in
  log DEBUG BuiltOllamaPayload ;;
  ret payload.

(** The request [_sendRequestInternal] gives to [fetch]. *)
Definition request_sent (c : config) : request :=
  {| Request.url := fst _getUrlAndHeaders;
     Request.headers := snd _getUrlAndHeaders;
     Request.body :=
       OllamaPayload (model c) (_processMessagesForOllama (messages c))
         (stream c) (temperature c) (maxTokens c) (think c) |}.

Definition _parseStreamLine (line : jsstring) : M jsval :=
  try_catch
    (obj <- lift (JSON_parse line) ;;
     done <- get obj (lit "done") ;;
     if is_true done then
       ret (Obj [(lit "isDone", Bool true);
                 (lit "reason", Str (lit "self-hosted DONE"))])
     else
       message <- get obj (lit "message") ;;
       let msg := nullish_or message (Obj []) in
       content <- get msg (lit "content") ;;
       thinking <- get msg (lit "thinking") ;;
       ret (Obj [(lit "content", content); (lit "thinking", thinking)]))
    (fun e =>
       log ERROR (InvalidJsonLine line e) ;;
       ret (Obj [])).

Definition _sendRequestInternal (c : config) : M response :=
  let (url, headers) := _getUrlAndHeaders in
  payload <- _buildPayload c ;;
  log INFO (Post (stream c) url) ;;
  log DEBUG (RequestBody payload) ;;
  let req :=
    {| Request.url := url; Request.headers := headers;
       Request.body := payload |} in
  emit (Fetch req) ;;
  resp <- perform (fetch req) ;;
  if negb (ok resp) then
    txt <- lift (text resp) ;;
    body <- try_catch (lift (JSON_parse txt)) (fun _ => ret (Str txt)) ;;
    log ERROR (ErrorBody body) ;;
    throw (HttpError (status resp) body)
  else ret resp.

(** [resp.json()] *)
Definition json (resp : response) : M jsval :=
  txt <- lift (text resp) ;;
  lift (JSON_parse txt).

(** [/does not support thinking/.test(err.body?.error || '')] *)
Definition thinking_unsupported (err : exn) : bool :=
  let errorMsg := or_else (opt (exn_body err) (lit "error")) (Str []) in
  includes (to_string errorMsg) (lit "does not support thinking").

Definition generateResponse (c : config) : M jsval :=
  returned <-
    (if think c then
       try_catch
         (resp <- _sendRequestInternal (with_flags c false true) ;;
          data <- json resp ;;
          ret (Some (or_else (opt (opt data (lit "message")) (lit "content"))
                       (Str []))))
         (fun err =>
            if thinking_unsupported err then
              log WARN ThinkingNotSupported ;;
              ret None
            else throw err)
     else ret None) ;;
  match returned with
  | Some v => ret v
  | None =>
      resp <- _sendRequestInternal (with_flags c false false) ;;
      data <- json resp ;;
      ret (or_else (opt (opt data (lit "message")) (lit "content")) (Str []))
  end.

Definition streamResponse (c : config) : M unit :=
  returned <-
    (if think c then
       try_catch
         (resp <- _sendRequestInternal (with_flags c true true) ;;
          _streamNDJSON _parseStreamLine c resp ;;
          ret true)
         (fun err =>
            if thinking_unsupported err then
              log WARN ThinkingNotSupported ;;
              ret false
            else throw err)
     else ret false) ;;
  if returned : bool then ret tt
  else
    resp <- _sendRequestInternal (with_flags c true false) ;;
    _streamNDJSON _parseStreamLine c resp.

End Provider.
End SelfHostedProvider.

(* ================================================================== *)
(** * The outcomes of the line parsers *)
(* ================================================================== *)

Module Cases.
Section Cases.
Context {P : Platform}.

(** The state after the logger was told of an invalid line. *)
Definition invalid (line : jsstring) (e : exn) (st : state) : state :=
  record (Log ERROR (InvalidJsonLine line e)) st.

(** The increment [{ isDone: true, reason }]. *)
Definition done_increment (reason : jsstring) : jsval :=
  Obj [(lit "isDone", Bool true); (lit "reason", Str reason)].

(** The outcomes of the cloud parser on a line: the sentinel; a line
    without the prefix; a line whose JSON does not parse; a line whose
    JSON is [null], on which the read of [choices] throws into the
    [catch]; a line whose JSON is any other value. *)
Inductive cloud_line (line : jsstring) (st : state)
  : completion jsval * state -> Prop :=
  | cloud_sentinel :
      line = lit "data: [DONE]" ->
      cloud_line line st (Normal (done_increment (lit "DONE sentinel")), st)
  | cloud_unprefixed :
      line <> lit "data: [DONE]" ->
      startsWith line (lit "data: ") = false ->
      cloud_line line st (Normal (Obj []), st)
  | cloud_invalid (e : exn) :
      line <> lit "data: [DONE]" ->
      startsWith line (lit "data: ") = true ->
      JSON_parse (substring line 6) = Throw e ->
      cloud_line line st (Normal (Obj []), invalid (substring line 6) e st)
  | cloud_null (obj : jsval) :
      line <> lit "data: [DONE]" ->
      startsWith line (lit "data: ") = true ->
      JSON_parse (substring line 6) = Normal obj ->
      nullish obj = true ->
      cloud_line line st
        (Normal (Obj []), invalid (substring line 6) TypeError st)
  | cloud_delta (obj : jsval) :
      line <> lit "data: [DONE]" ->
      startsWith line (lit "data: ") = true ->
      JSON_parse (substring line 6) = Normal obj ->
      nullish obj = false ->
      cloud_line line st
        (Normal
           (Obj [(lit "content",
                  member
                    (nullish_or
                       (member (member (member obj (lit "choices")) (lit "0"))
                          (lit "delta"))
                       (Obj []))
                    (lit "content"))]),
         st).

(** The outcomes of the self-hosted parser on a line: a line that does
    not parse; a line that is [null]; a done line; any other line. *)
Inductive selfhosted_line (line : jsstring) (st : state)
  : completion jsval * state -> Prop :=
  | selfhosted_invalid (e : exn) :
      JSON_parse line = Throw e ->
      selfhosted_line line st (Normal (Obj []), invalid line e st)
  | selfhosted_null (obj : jsval) :
      JSON_parse line = Normal obj ->
      nullish obj = true ->
      selfhosted_line line st (Normal (Obj []), invalid line TypeError st)
  | selfhosted_done (obj : jsval) :
      JSON_parse line = Normal obj ->
      nullish obj = false ->
      member obj (lit "done") = Bool true ->
      selfhosted_line line st
        (Normal (done_increment (lit "self-hosted DONE")), st)
  | selfhosted_message (obj : jsval) :
      JSON_parse line = Normal obj ->
      nullish obj = false ->
      member obj (lit "done") <> Bool true ->
      selfhosted_line line st
        (Normal
           (Obj [(lit "content",
                  member (nullish_or (member obj (lit "message")) (Obj []))
                    (lit "content"));
                 (lit "thinking",
                  member (nullish_or (member obj (lit "message")) (Obj []))
                    (lit "thinking"))]),
         st).

End Cases.
End Cases.
Import Cases.

(* ================================================================== *)
(** * Observations on a run *)
(* ================================================================== *)

Module Observe.

Definition is_OnDone (e : event) : bool :=
  match e with OnDone => true | _ => false end.

Definition is_OnThinking (e : event) : bool :=
  match e with OnThinking _ => true | _ => false end.

Definition is_Fetch (e : event) : bool :=
  match e with Fetch _ => true | _ => false end.

Definition is_callback (e : event) : bool :=
  match e with OnContent _ | OnThinking _ | OnDone => true | _ => false end.

(** How often [onDone] was called. *)
Definition done_calls (evs : list event) : nat :=
  List.length (filter is_OnDone evs).

(** The arguments of the calls of [onContent], in order. *)
Fixpoint content_increments (evs : list event) : list jsstring :=
  match evs with
  | [] => []
  | OnContent s :: evs' => s :: content_increments evs'
  | _ :: evs' => content_increments evs'
  end.

(** The calls of the three callbacks, in order. *)
Definition callback_calls (evs : list event) : list event :=
  filter is_callback evs.

(** The requests given to [fetch], in order. *)
Fixpoint requests (evs : list event) : list request :=
  match evs with
  | [] => []
  | Fetch r :: evs' => r :: requests evs'
  | _ :: evs' => requests evs'
  end.

Section Run.
Context {P : Platform}.

(** A run from the world [w], with nothing recorded before it. *)
Definition run {A} (m : M A) (w : world) : completion A * state :=
  m {| env := w; trace := [] |}.

Definition result_of {A} (r : completion A * state) : completion A := fst r.
Definition events_of {A} (r : completion A * state) : list event :=
  trace (snd r).

(** The events of a kind recorded so far. *)
Definition kept (keep : event -> bool) (st : state) : list event :=
  filter keep (trace st).

(** How often [onDone] was called up to a state. *)
Definition dones (st : state) : nat := done_calls (trace st).

(** A callback that never throws. *)
Definition returns_normally (f : world -> completion unit * world) : Prop :=
  forall w, fst (f w) = Normal tt.

(** A response that is read as a stream of the given chunks. *)
Definition streaming (cs : list (list byte)) (f : option exn) : response :=
  {| ok := true; status := 200; text := Normal [];
     body := {| chunks := cs; failure := f |} |}.

End Run.
End Observe.
Import Observe.

(* ================================================================== *)
(** * The words of the specification *)
(* ================================================================== *)

Module Spec.

(** The value at a path of property names, when every step of it is an
    own property: [choices[0].delta.content] is the path
    [choices; 0; delta; content]. *)
Fixpoint at_path (v : jsval) (path : list jsstring) : option jsval :=
  match path with
  | [] => Some v
  | k :: path' =>
      match own v k with
      | Some x => at_path x path'
      | None => None
      end
  end.

Definition cloud_delta_path : list jsstring :=
  [lit "choices"; lit "0"; lit "delta"; lit "content"].

Definition cloud_bulk_path : list jsstring :=
  [lit "choices"; lit "0"; lit "message"; lit "content"].

Definition selfhosted_bulk_path : list jsstring :=
  [lit "message"; lit "content"].

(** The text parts of a content, in order. *)
Fixpoint texts (parts : list part) : list jsstring :=
  match parts with
  | [] => []
  | TextPart t :: rest => t :: texts rest
  | _ :: rest => texts rest
  end.

(** The URLs of its image parts, in order. *)
Fixpoint image_urls (parts : list part) : list jsstring :=
  match parts with
  | [] => []
  | ImagePart u :: rest => u :: image_urls rest
  | _ :: rest => image_urls rest
  end.

(** The base64 payload an image URL carries: what follows the prefix
    [data:<mime>;base64,], or the URL itself when it is raw base64. *)
Inductive image_payload : jsstring -> jsstring -> Prop :=
  | payload_data_url (mime data : jsstring) :
      ~ In 44 mime ->
      image_payload (lit "data:" ++ mime ++ lit ";base64," ++ data) data
  | payload_raw (data : jsstring) :
      data <> [] -> ~ In 44 data ->
      image_payload data data.

(** Section 4.4, the message the adapter emits for a user message of
    the given parts whose images carry the given payloads. *)
Definition adapted_parts (parts : list part) (payloads : list jsstring)
  : ollama_message :=
  let content := trim (join (lit " ") (texts parts)) in
  match payloads with
  | [] => Plain (lit "user") content
  | _ => WithImages (lit "user") content payloads
  end.

Section Retry.
Context {P : Platform}.

(** Section 4.5, the retry-on-unsupported-feature state machine over an
    attempt that takes the [think] flag to send: [AttemptWithThink] is
    entered only when the request asks for it; its success is terminal;
    its failure is terminal unless [unsupported] holds of the error, in
    which case [AttemptWithoutThink] runs and its result is terminal. *)
Definition two_stage {A} (unsupported : exn -> bool)
    (attempt : bool -> M A) (think : bool) : M A :=
  if think then
    fun st =>
      match attempt true st with
      | (Normal a, st') => (Normal a, st')
      | (Throw err, st') =>
          if unsupported err
          then (log WARN ThinkingNotSupported ;; attempt false) st'
          else (Throw err, st')
      end
  else attempt false.

Variable baseUrl : jsstring.

(** One attempt of the bulk operation: the request sent with the given
    [think] flag, and the content read from its response. *)
Definition bulk_attempt (c : config) (t : bool) : M jsval :=
  resp <- SelfHostedProvider._sendRequestInternal baseUrl
            (with_flags c false t) ;;
  data <- SelfHostedProvider.json resp ;;
  ret (or_else (opt (opt data (lit "message")) (lit "content")) (Str [])).

(** One attempt of the streaming operation: the request sent with the
    given [think] flag, and its response reduced. *)
Definition stream_attempt (c : config) (t : bool) : M unit :=
  resp <- SelfHostedProvider._sendRequestInternal baseUrl
            (with_flags c true t) ;;
  _streamNDJSON SelfHostedProvider._parseStreamLine c resp.

End Retry.

(** Section 8, the end-to-end scenario: the three lines of the body,
    and what [JSON.parse] makes of a line that carries a content. *)
Definition line_a : jsstring := qlit "{'message':{'content':'a'}}".
Definition line_b : jsstring := qlit "{'message':{'content':'b'}}".
Definition line_done : jsstring := qlit "{'done':true}".

Definition three_lines : list byte :=
  qbytes "{'message':{'content':'a'}}" ++ [x0a]
  ++ qbytes "{'message':{'content':'b'}}" ++ [x0a]
  ++ qbytes "{'done':true}" ++ [x0a].

Definition content_of (s : jsstring) : jsval :=
  Obj [(lit "message", Obj [(lit "content", Str s)])].

(** The claim read to the letter: the pattern tried on the error body
    itself. *)
Definition body_matches (err : exn) : bool :=
  includes (to_string (exn_body err)) (lit "does not support thinking").

End Spec.
Import Spec.

(* ================================================================== *)
(** * A platform to run the module on *)
(* ================================================================== *)

(** A [JSON.parse] for the JSON grammar with whole numbers (a number
    with a fraction or an exponent is refused), enough to run the module
    on the wire formats of its two backends. *)
Module RefJSON.

Definition is_ws (c : code_unit) : bool :=
  (c =? 32) || (c =? 9) || (c =? 10) || (c =? 13).

Definition is_digit (c : code_unit) : bool := (48 <=? c) && (c <=? 57).

Fixpoint skip_ws (s : jsstring) : jsstring :=
  match s with
  | c :: s' => if is_ws c then skip_ws s' else s
  | [] => []
  end.

Definition hex (c : code_unit) : option N :=
  if is_digit c then Some (c - 48)
  else if (97 <=? c) && (c <=? 102) then Some (c - 87)
  else if (65 <=? c) && (c <=? 70) then Some (c - 55)
  else None.

Definition hex4 (a b c d : code_unit) : option code_unit :=
  match hex a, hex b, hex c, hex d with
  | Some x, Some y, Some z, Some w => Some (((x * 16 + y) * 16 + z) * 16 + w)
  | _, _, _, _ => None
  end.

Definition escape (c : code_unit) : option code_unit :=
  if (c =? 34) || (c =? 92) || (c =? 47) then Some c
  else if c =? 98 then Some 8
  else if c =? 102 then Some 12
  else if c =? 110 then Some 10
  else if c =? 114 then Some 13
  else if c =? 116 then Some 9
  else None.

Definition add (c : code_unit) (r : option (jsstring * jsstring))
  : option (jsstring * jsstring) :=
  match r with
  | Some (s, rest) => Some (c :: s, rest)
  | None => None
  end.

(** The characters of a string after its opening quote, and what
    follows the closing one. *)
Fixpoint parse_string (s : jsstring) : option (jsstring * jsstring) :=
  match s with
  | [] => None
  | c :: r =>
      if c =? 34 then Some ([], r)
      else if c =? 92 then
        match r with
        | [] => None
        | e :: r1 =>
            match escape e with
            | Some x => add x (parse_string r1)
            | None =>
                if e =? 117 then
                  match r1 with
                  | h1 :: h2 :: h3 :: h4 :: r2 =>
                      match hex4 h1 h2 h3 h4 with
                      | Some x => add x (parse_string r2)
                      | None => None
                      end
                  | _ => None
                  end
                else None
            end
        end
      else if c <? 32 then None
      else add c (parse_string r)
  end.

Fixpoint take_digits (s : jsstring) : jsstring * jsstring :=
  match s with
  | c :: r =>
      if is_digit c
      then let (ds, rest) := take_digits r in (c :: ds, rest)
      else ([], s)
  | [] => ([], [])
  end.

Definition parse_number (s : jsstring) : option (jsval * jsstring) :=
  let (neg, s1) :=
    match s with
    | c :: r => if c =? 45 then (true, r) else (false, s)
    | [] => (false, s)
    end in
  let (ds, rest) := take_digits s1 in
  let more :=
    match rest with
    | c :: _ => (c =? 46) || (c =? 101) || (c =? 69)
    | [] => false
    end in
  match ds with
  | [] => None
  | [48] => if more then None else Some (Num [48], rest)
  | d :: _ =>
      if (d =? 48) || more || (15 <? N.of_nat (List.length ds)) then None
      else Some (Num (if neg : bool then 45 :: ds else ds), rest)
  end.

Definition keyword (w : string) (v : jsval) (s : jsstring)
  : option (jsval * jsstring) :=
  if startsWith s (lit w)
  then Some (v, skipn (List.length (lit w)) s)
  else None.

(** A later property of the same name replaces the earlier one. *)
Fixpoint set (k : jsstring) (v : jsval) (props : list (jsstring * jsval))
  : list (jsstring * jsval) :=
  match props with
  | [] => [(k, v)]
  | (k', v') :: rest =>
      if JsString.eqb k k' then (k, v) :: rest else (k', v') :: set k v rest
  end.

Fixpoint parse_value (fuel : nat) (s : jsstring) {struct fuel}
  : option (jsval * jsstring) :=
  match fuel with
  | O => None
  | S n =>
      match skip_ws s with
      | [] => None
      | c :: r =>
          if c =? 123 then
            match skip_ws r with
            | d :: r' =>
                if d =? 125 then Some (Obj [], r')
                else parse_members n [] (d :: r')
            | [] => None
            end
          else if c =? 91 then
            match skip_ws r with
            | d :: r' =>
                if d =? 93 then Some (Arr [], r')
                else parse_elements n [] (d :: r')
            | [] => None
            end
          else if c =? 34 then
            match parse_string r with
            | Some (str, r') => Some (Str str, r')
            | None => None
            end
          else if c =? 116 then keyword "true" (Bool true) (c :: r)
          else if c =? 102 then keyword "false" (Bool false) (c :: r)
          else if c =? 110 then keyword "null" Null (c :: r)
          else parse_number (c :: r)
      end
  end
with parse_elements (fuel : nat) (acc : list jsval) (s : jsstring)
    {struct fuel} : option (jsval * jsstring) :=
  match fuel with
  | O => None
  | S n =>
      match parse_value n s with
      | Some (v, r) =>
          match skip_ws r with
          | c :: r' =>
              if c =? 44 then parse_elements n (acc ++ [v]) r'
              else if c =? 93 then Some (Arr (acc ++ [v]), r')
              else None
          | [] => None
          end
      | None => None
      end
  end
with parse_members (fuel : nat) (acc : list (jsstring * jsval))
    (s : jsstring) {struct fuel} : option (jsval * jsstring) :=
  match fuel with
  | O => None
  | S n =>
      match skip_ws s with
      | q :: r0 =>
          if q =? 34 then
            match parse_string r0 with
            | Some (k, r1) =>
                match skip_ws r1 with
                | c :: r2 =>
                    if c =? 58 then
                      match parse_value n r2 with
                      | Some (v, r3) =>
                          match skip_ws r3 with
                          | d :: r4 =>
                              if d =? 44 then parse_members n (set k v acc) r4
                              else if d =? 125
                              then Some (Obj (set k v acc), r4)
                              else None
                          | [] => None
                          end
                      | None => None
                      end
                    else None
                | [] => None
                end
            | None => None
            end
          else None
      | [] => None
      end
  end.

Definition parse (s : jsstring) : completion jsval :=
  match parse_value (S (List.length s)) s with
  | Some (v, rest) =>
      match skip_ws rest with
      | [] => Normal v
      | _ => Throw (JsError (lit "SyntaxError") (lit "Unexpected token"))
      end
  | None => Throw (JsError (lit "SyntaxError") (lit "Unexpected token"))
  end.

End RefJSON.

(** A backend that answers from a script: the world is the list of the
    responses still to give, and a request with no response left fails
    in the network. *)
Module Scripted.

Definition answer (req : request) (script : list response)
  : completion response * list response :=
  match script with
  | r :: script' => (Normal r, script')
  | [] => (Throw (JsError (lit "FetchError") (lit "request failed")), [])
  end.

#[export] Instance platform : Platform := {|
  world := list response;
  JSON_parse := RefJSON.parse;
  fetch := answer;
|}.

(** A response of the given status with the given text as its body. *)
Definition reply (status : N) (txt : jsstring) : response :=
  {| ok := (200 <=? status) && (status <=? 299); status := status;
     text := Normal txt;
     body := {| chunks := []; failure := None |} |}.

Definition quiet (w : list response) : completion unit * list response :=
  (Normal tt, w).

Definition failing (w : list response) : completion unit * list response :=
  (Throw (JsError (lit "Error") (lit "write after end")), w).

(** A request whose callbacks do nothing. *)
Definition request_of (msgs : list message) (think : bool) : config :=
  {| model := lit "llama3"; messages := msgs;
     temperature := Undefined; maxTokens := Undefined;
     think := think; stream := false;
     onContent := fun _ => quiet; onThinking := fun _ => quiet;
     onDone := quiet |}.

(** The same request with an [onDone] that throws. *)
Definition request_failing_onDone : config :=
  {| model := lit "llama3"; messages := [];
     temperature := Undefined; maxTokens := Undefined;
     think := false; stream := true;
     onContent := fun _ => quiet; onThinking := fun _ => quiet;
     onDone := failing |}.

(** The state before a run on the given script. *)
Definition start (script : list response) : state :=
  {| env := script; trace := [] |}.

(** A backend that refuses the first request with a plain text, and
    would answer a second one. *)
Definition refusal : jsstring := lit "does not support thinking".

Definition refusing_in_text : list response :=
  [reply 400 refusal; reply 200 (qlit "{'message':{'content':'hello'}}")].

(** A line that comes after the done line. *)
Definition late : list byte :=
  qbytes "{'message':{'content':'late'}}" ++ [x0a].

(** A backend that streams the three lines of the scenario and the late
    one in two chunks, cut in the middle of the first line. *)
Definition streamed_in_two : response :=
  streaming [firstn 10 three_lines; skipn 10 three_lines ++ late] None.

(** A user message of two texts and one image. *)
Definition picture : message :=
  {| role := lit "user";
     content :=
       Parts [TextPart (lit "what is"); 
              ImagePart (lit "data:image/png;base64,QUJD");
              TextPart (lit "this? ")] |}.

End Scripted.

(* ================================================================== *)
(** * The lines of a body, and how two runs compare *)
(* ================================================================== *)

Module Lines.

(** The lines the loop of the reducer works on: each line of the array
    trimmed, and the empty ones skipped. *)
Definition nonblank (lines : list jsstring) : list jsstring :=
  filter (fun line => match line with [] => false | _ => true end)
    (map trim lines).

(** A decoder with no multi-byte sequence open. *)
Definition idle (d : TextDecoder.t) : bool :=
  TextDecoder.bytes_needed (TextDecoder.decoder d) =? 0.

Section Outcome.
Context {P : Platform}.

(** Two runs that end alike for the caller: the same completion, the
    same world, and the same calls of the callbacks; what the logger was
    told may differ. *)
Definition same_outcome {A} (r1 r2 : completion A * state) : Prop :=
  fst r1 = fst r2 /\ env (snd r1) = env (snd r2) /\
  callback_calls (trace (snd r1)) = callback_calls (trace (snd r2)).

End Outcome.
End Lines.
Import Lines.

(* ================================================================== *)
(** * What a body means *)
(* ================================================================== *)

Module Increments.
Section Pure.
Context {P : Platform}.

(** The increment [_parseStreamLine] of the cloud provider returns on a
    line. *)
Definition cloud (line : jsstring) : jsval :=
  if JsString.eqb line (lit "data: [DONE]") then
    Obj [(lit "isDone", Bool true); (lit "reason", Str (lit "DONE sentinel"))]
  else if negb (startsWith line (lit "data: ")) then Obj []
  else
    match JSON_parse (substring line 6) with
    | Throw _ => Obj []
    | Normal obj =>
        if nullish obj then Obj []
        else
          let msg :=
            nullish_or
              (member (member (member obj (lit "choices")) (lit "0"))
                 (lit "delta")) (Obj []) in
          Obj [(lit "content", member msg (lit "content"))]
    end.

(** The increment [_parseStreamLine] of the self-hosted provider
    returns on a line. *)
Definition selfhosted (line : jsstring) : jsval :=
  match JSON_parse line with
  | Throw _ => Obj []
  | Normal obj =>
      if nullish obj then Obj []
      else if is_true (member obj (lit "done")) then
        Obj [(lit "isDone", Bool true);
             (lit "reason", Str (lit "self-hosted DONE"))]
      else
        let msg := nullish_or (member obj (lit "message")) (Obj []) in
        Obj [(lit "content", member msg (lit "content"));
             (lit "thinking", member msg (lit "thinking"))]
  end.

End Pure.

(** The calls of the callbacks an increment leads to. *)
Definition deliveries (result : jsval) : list event :=
  match member result (lit "content") with
  | Str s => [OnContent s]
  | _ => []
  end
  ++ match member result (lit "thinking") with
     | Str s => [OnThinking s]
     | _ => []
     end.

(** The calls the lines lead to, one line after the other up to the
    first done line. *)
Fixpoint until_done (increment : jsstring -> jsval) (lines : list jsstring)
  : list event :=
  match lines with
  | [] => []
  | line :: rest =>
      let result := increment line in
      if truthy (member result (lit "isDone")) then []
      else deliveries result ++ until_done increment rest
  end.

(** Whether one of the lines is a done line. *)
Definition done_in (increment : jsstring -> jsval) (lines : list jsstring)
  : bool :=
  existsb (fun line => truthy (member (increment line) (lit "isDone"))) lines.

(** The lines of a body: its bytes decoded as one buffer, the text cut
    at the line feeds, each line trimmed and the empty ones left out;
    what follows the last line feed counts as a line when the transfer
    ends well, and is lost when it breaks. *)
Definition lines_of (body : readable) : list jsstring :=
  let text :=
    snd (TextDecoder.decode TextDecoder.create (List.concat (chunks body))) in
  nonblank
    match failure body with
    | None => split NL text
    | Some _ => removelast (split NL text)
    end.

End Increments.

(* ================================================================== *)
(** * The images of a message *)
(* ================================================================== *)

Module Images.

(** [dataUrl.substring(dataUrl.indexOf(',') + 1)]: what follows the first
    comma of the URL, and the whole of a URL that has none, [indexOf]
    being -1 then. *)
Definition base64Data (dataUrl : jsstring) : jsstring :=
  substring dataUrl
    match indexOf dataUrl 44 with
    | Some i => S i
    | None => O
    end.

(** The URLs of the image parts that have one ([part.image_url.url] is
    truthy), in order. *)
Definition with_url (parts : list part) : list jsstring :=
  filter (fun url => match url with [] => false | _ => true end)
    (image_urls parts).

(** What can be said of every message the adapter emits for the
    messages [msgs]. *)
Definition emitted (msgs : list message) (m : ollama_message) : Prop :=
  match m with
  | Passed msg => In msg msgs
  | Plain r c => r = lit "user" /\ trim c = c
  | WithImages r c images => r = lit "user" /\ trim c = c /\ images <> []
  end.

End Images.
Import Images.

(* ================================================================== *)
(** * The listing of the models *)
(* ================================================================== *)

Module Models.

(** The digits of a number in base ten, the most significant first. *)
Fixpoint digits_of (d : Decimal.uint) : jsstring :=
  match d with
  | Decimal.Nil => []
  | Decimal.D0 d' => 48 :: digits_of d'
  | Decimal.D1 d' => 49 :: digits_of d'
  | Decimal.D2 d' => 50 :: digits_of d'
  | Decimal.D3 d' => 51 :: digits_of d'
  | Decimal.D4 d' => 52 :: digits_of d'
  | Decimal.D5 d' => 53 :: digits_of d'
  | Decimal.D6 d' => 54 :: digits_of d'
  | Decimal.D7 d' => 55 :: digits_of d'
  | Decimal.D8 d' => 56 :: digits_of d'
  | Decimal.D9 d' => 57 :: digits_of d'
  end.

(** [String(n)] for a whole number, as a template literal renders
    [resp.status]. *)
Definition decimal (n : N) : jsstring := digits_of (N.to_uint n).

(** What the logger is told while the models are listed: by
    [fetchModels] of the providers, and by the handler of the server
    that calls it. *)
Inductive entry :=
  | FetchingModels (url : jsstring)
  | FetchedModels (count : jsval) (kind : jsstring)
  | FetchingModelsFor (providerType : jsval)
  | ErrorFetchingModels (message : jsval) (error : exn).

(** What is done besides returning: the calls of the logger, and the
    call of [fetch] on a URL, with the headers of the options when it
    is given some and with no body to send. *)
Inductive event :=
  | Log (lvl : level) (msg : entry)
  | Get (url : jsstring) (headers : list (jsstring * jsstring)).

(** [fetch] on such a request, in the world of the platform. *)
Class Listing (P : Platform) := {
  fetch_get :
    jsstring -> list (jsstring * jsstring) -> world ->
    completion response * world;
}.

Definition is_Get (e : event) : bool :=
  match e with Get _ _ => true | Log _ _ => false end.

(** [v.length] *)
Definition length_of (v : jsval) : completion jsval :=
  match v with
  | Undefined | Null => Throw TypeError
  | Arr items => Normal (Num (decimal (N.of_nat (List.length items))))
  | Str s => Normal (Num (decimal (N.of_nat (List.length s))))
  | _ => Normal (member v (lit "length"))
  end.

(** [m => ({ id: m[key], name: m[key] })], the callback given to [map]:
    [key] is [id] for the cloud provider and [name] for the self-hosted
    one. *)
Definition descriptor (key : jsstring) (m : jsval) : completion jsval :=
  if nullish m then Throw TypeError
  else Normal (Obj [(lit "id", member m key); (lit "name", member m key)]).

(** The calls of the callback of [map], element after element. *)
Fixpoint for_items (f : jsval -> completion jsval) (items : list jsval)
  : completion (list jsval) :=
  match items with
  | [] => Normal []
  | m :: rest =>
      match f m with
      | Throw e => Throw e
      | Normal d =>
          match for_items f rest with
          | Throw e => Throw e
          | Normal ds => Normal (d :: ds)
          end
      end
  end.

(** [v.map(f)], where [what] is the text of the expression [v]: only
    an array has the method. *)
Definition map_of (what : jsstring) (v : jsval)
    (f : jsval -> completion jsval) : completion jsval :=
  match v with
  | Undefined | Null => Throw TypeError
  | Arr items =>
      match for_items f items with
      | Throw e => Throw e
      | Normal ds => Normal (Arr ds)
      end
  | _ => Throw (JsError (lit "TypeError") (what ++ lit ".map is not a function"))
  end.

Section Monad.
Context {P : Platform} {L : Listing P}.

Record state := {
  env : world;
  trace : list event;
}.

Definition T (A : Type) : Type := state -> completion A * state.

Definition ret {A} (a : A) : T A := fun st => (Normal a, st).

Definition bind {A B} (m : T A) (k : A -> T B) : T B :=
  fun st =>
    match m st with
    | (Normal a, st') => k a st'
    | (Throw e, st') => (Throw e, st')
    end.

Definition throw {A} (e : exn) : T A := fun st => (Throw e, st).

Definition lift {A} (c : completion A) : T A := fun st => (c, st).

(** [logger.info(..)] and the like; the logger is taken to return. *)
Definition log (lvl : level) (msg : entry) : T unit :=
  fun st =>
    (Normal tt, {| env := env st; trace := trace st ++ [Log lvl msg] |}).

(** The call of [fetch], recorded when it is made. *)
Definition get (url : jsstring) (headers : list (jsstring * jsstring))
  : T response :=
  fun st =>
    let (r, w) := fetch_get url headers (env st) in
    (r, {| env := w; trace := trace st ++ [Get url headers] |}).

(** [v.k], a [TypeError] on [null] and [undefined]. *)
Definition prop (v : jsval) (k : jsstring) : T jsval :=
  if nullish v then throw TypeError else ret (member v k).

End Monad.

Declare Scope models_scope.
Notation "x <- m ;; k" := (bind m (fun x => k))
  (at level 61, m at next level, right associativity) : models_scope.
Notation "m ;; k" := (bind m (fun _ => k))
  (at level 61, right associativity) : models_scope.
Local Open Scope models_scope.

(** [resp.json()] *)
Definition json {P : Platform} (resp : response) : T jsval :=
  txt <- lift (text resp) ;;
  lift (JSON_parse txt).

(** The calls of [fetch] recorded. *)
Definition gets (evs : list event) : list event := filter is_Get evs.

(** [fetchModels] of [OpenAIProvider]; [apiKey] is what the constructor
    was given. *)
Module OpenAI.
Section Provider.
Context {P : Platform} {L : Listing P}.
Variable apiKey : jsval.

Definition fetchModels : T jsval :=
  if negb (truthy apiKey) then
    throw (JsError (lit "Error") (lit "Please enter an API key first"))
  else
    let url := OpenAIProvider.baseUrl ++ lit "/models" in
    log INFO (FetchingModels url) ;;
    resp <- get url [(lit "Authorization", lit "Bearer " ++ to_string apiKey)] ;;
    if negb (ok resp) then
      throw (JsError (lit "Error") (lit "HTTP " ++ decimal (status resp)))
    else
      data <- json resp ;;
      listing <- prop data (lit "data") ;;
      count <- lift (length_of listing) ;;
      log INFO (FetchedModels count (lit "OpenAI")) ;;
      lift (map_of (lit "data.data") listing (descriptor (lit "id"))).

End Provider.
End OpenAI.

(** [fetchModels] of [SelfHostedProvider]; [baseUrl] is what the
    constructor was given. *)
Module SelfHosted.
Section Provider.
Context {P : Platform} {L : Listing P}.
Variable baseUrl : jsval.

Definition fetchModels : T jsval :=
  if negb (truthy baseUrl) then
    throw (JsError (lit "Error") (lit "Please enter a model URL first"))
  else
    let url := to_string baseUrl ++ lit "/api/tags" in
    log INFO (FetchingModels url) ;;
    resp <- get url [] ;;
    if negb (ok resp) then
      throw (JsError (lit "Error") (lit "HTTP " ++ decimal (status resp)))
    else
      data <- json resp ;;
      listing <- prop data (lit "models") ;;
      count <- lift (length_of listing) ;;
      log INFO (FetchedModels count (lit "local")) ;;
      lift (map_of (lit "data.models") listing (descriptor (lit "name"))).

End Provider.
End SelfHosted.

End Models.

(* ================================================================== *)
(** * The server: the image of an upload, and the models listed *)
(* ================================================================== *)

Module Server.

(** [req.file], as the upload middleware leaves it: the type the client
    declared, and the bytes. *)
Record file := {
  mimetype : jsstring;
  buffer : list byte;
}.

(** The digit of a number below 64 in the base64 alphabet. *)
Definition base64_digit (n : N) : code_unit :=
  if n <? 26 then 65 + n
  else if n <? 52 then 97 + (n - 26)
  else if n <? 62 then 48 + (n - 52)
  else if n =? 62 then 43
  else 47.

(** [buffer.toString('base64')]: four digits for three bytes, the last
    group padded with [=]. *)
Fixpoint base64 (bytes : list byte) : jsstring :=
  match bytes with
  | [] => []
  | [a] =>
      let x := Byte.to_N a in
      [base64_digit (x / 4); base64_digit (x mod 4 * 16); 61; 61]
  | [a; b] =>
      let x := Byte.to_N a in
      let y := Byte.to_N b in
      [base64_digit (x / 4); base64_digit (x mod 4 * 16 + y / 16);
       base64_digit (y mod 16 * 4); 61]
  | a :: b :: c :: rest =>
      let x := Byte.to_N a in
      let y := Byte.to_N b in
      let z := Byte.to_N c in
      [base64_digit (x / 4); base64_digit (x mod 4 * 16 + y / 16);
       base64_digit (y mod 16 * 4 + z / 64); base64_digit (z mod 64)]
      ++ base64 rest
  end.

(** [`data:${mimeType};base64,${imageBase64}`], where [mimeType] is
    [req.file.mimetype || 'image/png']. *)
Definition imageData (f : file) : jsstring :=
  let mimeType :=
    match mimetype f with
    | [] => lit "image/png"
    | m => m
    end in
  let imageBase64 := base64 (buffer f) in
  lit "data:" ++ mimeType ++ lit ";base64," ++ imageBase64.

(** What the handler tells the logger on the way. *)
Inductive notice :=
  | ImageDetected
  | NoUserMessage.

(** [m.role === 'user'] *)
Definition is_user (m : jsval) : bool :=
  match member m (lit "role") with
  | Str r => JsString.eqb r (lit "user")
  | _ => false
  end.

(** [reversed.find(m => m.role === 'user')], as the position of the
    message found: the callback is called on the elements in order, up
    to the first it holds of, and reading [role] of [null] throws. *)
Fixpoint find (reversed : list jsval) : completion (option nat) :=
  match reversed with
  | [] => Normal None
  | m :: rest =>
      if nullish m then Throw TypeError
      else if is_user m then Normal (Some O)
      else
        match find rest with
        | Normal (Some i) => Normal (Some (S i))
        | r => r
        end
  end.

(** The properties of an object after [o[k] = v]: the property takes
    the value where it is, and comes last when it is new. *)
Fixpoint put (k : jsstring) (v : jsval) (props : list (jsstring * jsval))
  : list (jsstring * jsval) :=
  match props with
  | [] => [(k, v)]
  | (k', v') :: rest =>
      if JsString.eqb k k' then (k, v) :: rest else (k', v') :: put k v rest
  end.

(** The object [o] after [o[k] = v]. *)
Definition assign (o : jsval) (k : jsstring) (v : jsval) : jsval :=
  match o with
  | Obj props => Obj (put k v props)
  | _ => o
  end.

(** The array after the object at a position was changed: the array
    holds the object itself, so what is done to the object found shows
    in the array. *)
Fixpoint update (i : nat) (f : jsval -> jsval) (l : list jsval)
  : list jsval :=
  match l, i with
  | [], _ => []
  | x :: l', O => f x :: l'
  | x :: l', S i' => x :: update i' f l'
  end.

(** The content given to the message: the text it had, and the
    image. *)
Definition with_image (originalText : jsval) (imageData : jsstring) : jsval :=
  Arr [Obj [(lit "type", Str (lit "text")); (lit "text", originalText)];
       Obj [(lit "type", Str (lit "image_url"));
            (lit "image_url", Obj [(lit "url", Str imageData)])]].

(** Step 3 of the handler of [/api/chat], [if (req.file) { ... }]: the
    [config] after it, and what the logger was told. The last user
    message is looked for in a reversed copy of [config.messages], and
    changed in place. *)
Definition attach (file : option file) (config : jsval)
  : completion jsval * list notice :=
  match file with
  | None => (Normal config, [])
  | Some f =>
      let imageData := imageData f in
      match member config (lit "messages") with
      | Undefined | Null => (Throw TypeError, [ImageDetected])
      | Arr messages =>
          match find (rev messages) with
          | Throw e => (Throw e, [ImageDetected])
          | Normal (Some i) =>
              let attached lastUserMsg :=
                let originalText := member lastUserMsg (lit "content") in
                assign lastUserMsg (lit "content")
                  (with_image originalText imageData) in
              (Normal
                 (assign config (lit "messages")
                    (Arr (rev (update i attached (rev messages))))),
               [ImageDetected])
          | Normal None => (Normal config, [ImageDetected; NoUserMessage])
          end
      | Str _ =>
          (Throw (JsError (lit "TypeError")
                    (lit "config.messages.slice(...).reverse is not a function")),
           [ImageDetected])
      | _ =>
          (Throw (JsError (lit "TypeError")
                    (lit "config.messages.slice is not a function")),
           [ImageDetected])
      end
  end.

(** A part and a message of the payload, read as the providers take
    them: a value of the payload that is a part, or a message, of the
    kinds the providers are modelled on. *)
Definition as_part (v : jsval) : option part :=
  match member v (lit "type") with
  | Str t =>
      if JsString.eqb t (lit "text") then
        match member v (lit "text") with
        | Str s => Some (TextPart s)
        | _ => None
        end
      else if JsString.eqb t (lit "image_url") then
        match member (member v (lit "image_url")) (lit "url") with
        | Str u => Some (ImagePart u)
        | _ => None
        end
      else Some (OtherPart t)
  | _ => None
  end.

Fixpoint as_parts (vs : list jsval) : option (list part) :=
  match vs with
  | [] => Some []
  | v :: vs' =>
      match as_part v, as_parts vs' with
      | Some p, Some ps => Some (p :: ps)
      | _, _ => None
      end
  end.

Definition as_message (v : jsval) : option message :=
  match member v (lit "role"), member v (lit "content") with
  | Str r, Str s => Some {| role := r; content := Text s |}
  | Str r, Arr vs =>
      option_map (fun ps => {| role := r; content := Parts ps |})
        (as_parts vs)
  | _, _ => None
  end.

(** The provider a handler sets up, with what its constructor is
    given. *)
Inductive provider :=
  | OpenAI (key : jsval)
  | SelfHosted (url : jsval).




(** [error.message]: an [Error] object has one, the object
    [{ status, body }] has none. *)
Definition message (error : exn) : jsval :=
  match error with
  | JsError _ m => Str m
  | HttpError _ _ => Undefined
  end.

(** The response of the server to one request: whether it was sent,
    the status set, and the JSON sent. *)
Record res := {
  headersSent : bool;
  statusCode : N;
  sent : option jsval;
}.


(** [res.status(code)] *)
Definition status (r : res) (code : N) : res :=
  {| headersSent := headersSent r; statusCode := code; sent := sent r |}.

(** [res.json(body)]: the response is sent; a second response is
    refused with an error. *)
Definition json (r : res) (body : jsval) : completion res :=
  if headersSent r then
    Throw (JsError (lit "Error")
             (lit "Cannot set headers after they are sent to the client"))
  else
    Normal {| headersSent := true; statusCode := statusCode r;
              sent := Some body |}.

Section Handlers.
Context {P : Platform} {L : Models.Listing P}.

(** [provider.fetchModels()] *)
Definition fetchModels (p : provider) : Models.T jsval :=
  match p with
  | OpenAI key => Models.OpenAI.fetchModels key
  | SelfHosted url => Models.SelfHosted.fetchModels url
  end.


End Handlers.

End Server.

(* ================================================================== *)
(** * The client: the streamed response read *)
(* ================================================================== *)

Module Client.


End Client.

(* ================================================================== *)
(** * More to run on the scripted platform *)
(* ================================================================== *)

Module Samples.
#[local] Existing Instance Scripted.platform.

(** The scripted backend on a request with no body: the next response
    of the script, as for the others. *)
Definition answer_get (url : jsstring) (headers : list (jsstring * jsstring))
    (script : list response) : completion response * list response :=
  match script with
  | r :: script' => (Normal r, script')
  | [] => (Throw (JsError (lit "FetchError") (lit "request failed")), [])
  end.

#[export] Instance listing : Models.Listing Scripted.platform :=
  Models.Build_Listing Scripted.platform answer_get.

(** The state before a listing on the given script. *)
Definition listing_from (script : list response) : Models.state :=
  {| Models.env := script; Models.trace := [] |}.

(** The listings of the two backends. *)
Definition cloud_listing : jsstring :=
  qlit "{'object':'list','data':[{'id':'gpt-4o'},{'id':'gpt-4o-mini'}]}".

Definition local_listing : jsstring :=
  qlit "{'models':[{'name':'llama3:8b','size':4661224676}]}".

(** A line of the cloud backend with a delta, as it comes: with a
    carriage return before the line feed. *)
Definition delta_line : jsstring :=
  qlit "data: {'choices':[{'delta':{'content':'Hi'}}]}" ++ [13].

Definition delta : jsval :=
  Obj [(lit "choices",
        Arr [Obj [(lit "delta", Obj [(lit "content", Str (lit "Hi"))])]])].

(** A line of the self-hosted backend with a content and a thought. *)
Definition thoughtful_line : jsstring :=
  qlit "{'message':{'content':'4','thinking':'2+2'}}".

Definition thoughtful : jsval :=
  Obj [(lit "message",
        Obj [(lit "content", Str (lit "4"));
             (lit "thinking", Str (lit "2+2"))])].

(** An upload of three bytes, and a conversation in which the user
    spoke twice. *)
Definition upload : Server.file :=
  {| Server.mimetype := lit "image/png"; Server.buffer := qbytes "ABC" |}.

Definition said (role content : string) : jsval :=
  Obj [(lit "role", Str (lit role)); (lit "content", Str (lit content))].

Definition conversation : jsval :=
  Obj [(lit "model", Str (lit "llava"));
       (lit "messages",
        Arr [said "user" "hello"; said "assistant" "hi";
             said "user" "what is this?"; said "assistant" "..."])].

End Samples.

(* ================================================================== *)
(** * Facts on strings and on the decoder *)
(* ================================================================== *)

Section StringFacts.

Lemma eqb_refl (s : jsstring) : JsString.eqb s s = true.
Proof.
  induction s as [|c s IH]; simpl; [reflexivity|].
  now rewrite N.eqb_refl, IH.
Qed.

Lemma eqb_eq (s t : jsstring) : JsString.eqb s t = true <-> s = t.
Proof.
  split.
  - revert t; induction s as [|c s IH]; intros [|d t]; simpl;
      try discriminate; [reflexivity|].
    intros H. apply andb_true_iff in H as [Hc Hs].
    apply N.eqb_eq in Hc. now rewrite Hc, (IH t Hs).
  - intros ->. apply eqb_refl.
Qed.

(** ** [split] *)

Lemma split_not_nil (sep : code_unit) (s : jsstring) : split sep s <> [].
Proof.
  destruct s as [|c s]; simpl; [discriminate|].
  destruct (c =? sep); [discriminate|].
  destruct (split sep s); discriminate.
Qed.

Lemma removelast_cons {A} (x : A) (l : list A) :
  l <> [] -> removelast (x :: l) = x :: removelast l.
Proof. destruct l; [congruence | reflexivity]. Qed.

Lemma last_cons {A} (x : A) (l : list A) (d : A) :
  l <> [] -> last (x :: l) d = last l d.
Proof. destruct l; [congruence | reflexivity]. Qed.

Lemma last_app_ne {A} (l1 l2 : list A) (d : A) :
  l2 <> [] -> last (l1 ++ l2) d = last l2 d.
Proof.
  intros Hne. induction l1 as [|x l1 IH]; [reflexivity|].
  simpl app. rewrite last_cons; [exact IH|].
  destruct l1; simpl; [assumption | discriminate].
Qed.

(** Splitting a text received in two pieces: the complete lines of the
    first piece, then the split of what the first piece left with the
    second piece after it. *)
Lemma split_app (sep : code_unit) (a b : jsstring) :
  split sep (a ++ b) =
  removelast (split sep a) ++ split sep (last (split sep a) [] ++ b).
Proof.
  induction a as [|c a IH]; [reflexivity|].
  pose proof (split_not_nil sep a) as Hne.
  simpl app at 1. simpl split at 1 2 4.
  destruct (c =? sep) eqn:Hc.
  - rewrite removelast_cons, last_cons by assumption.
    simpl. now rewrite IH.
  - rewrite IH. destruct (split sep a) as [|h t] eqn:Hs; [congruence|].
    destruct t as [|h' t].
    + simpl. rewrite Hc. reflexivity.
    + rewrite removelast_cons by discriminate.
      rewrite (removelast_cons (c :: h)) by discriminate.
      rewrite last_cons by discriminate.
      rewrite (last_cons (c :: h)) by discriminate.
      reflexivity.
Qed.

Lemma split_no_sep (sep : code_unit) (s : jsstring) :
  ~ In sep s -> split sep s = [s].
Proof.
  induction s as [|c s IH]; intros Hn; [reflexivity|].
  simpl. destruct (c =? sep) eqn:Hc.
  - apply N.eqb_eq in Hc. exfalso. apply Hn. now left.
  - rewrite IH; [reflexivity|]. intros Hin. apply Hn. now right.
Qed.

Lemma last_split_no_sep (sep : code_unit) (s : jsstring) :
  ~ In sep (last (split sep s) []).
Proof.
  induction s as [|c s IH]; [intros []|].
  pose proof (split_not_nil sep s) as Hne.
  simpl split. destruct (c =? sep) eqn:Hc.
  - now rewrite last_cons.
  - destruct (split sep s) as [|h t]; [congruence|].
    destruct t as [|h' t].
    + simpl in *. intros [E|Hin]; [|now apply IH].
      subst c. now rewrite N.eqb_refl in Hc.
    + rewrite last_cons by discriminate.
      now rewrite last_cons in IH by discriminate.
Qed.

Lemma removelast_split_app (sep : code_unit) (a b : jsstring) :
  removelast (split sep (a ++ b)) =
  removelast (split sep a)
  ++ removelast (split sep (last (split sep a) [] ++ b)).
Proof.
  rewrite split_app. apply removelast_app, split_not_nil.
Qed.

Lemma last_split_app (sep : code_unit) (a b : jsstring) :
  last (split sep (a ++ b)) [] =
  last (split sep (last (split sep a) [] ++ b)) [].
Proof.
  rewrite split_app. apply last_app_ne, split_not_nil.
Qed.

End StringFacts.

Section TrimFacts.

Lemma trimStart_app (s t : jsstring) :
  trimStart s <> [] -> trimStart (s ++ t) = trimStart s ++ t.
Proof.
  induction s as [|c s IH]; simpl; [congruence|].
  destruct (is_space c); [exact IH | reflexivity].
Qed.

Lemma trimStart_blank (s : jsstring) (c : code_unit) :
  is_space c = true -> trimStart s = [] -> trimStart (s ++ [c]) = [].
Proof.
  intros Hc. induction s as [|d s IH]; simpl.
  - now rewrite Hc.
  - destruct (is_space d); [exact IH | discriminate].
Qed.

Lemma trimEnd_space (s : jsstring) (c : code_unit) :
  is_space c = true -> trimEnd (s ++ [c]) = trimEnd s.
Proof.
  intros Hc. unfold trimEnd. rewrite rev_app_distr. simpl. now rewrite Hc.
Qed.

(** A white space at the end of a string is trimmed away. *)
Lemma trim_space (s : jsstring) (c : code_unit) :
  is_space c = true -> trim (s ++ [c]) = trim s.
Proof.
  intros Hc. unfold trim.
  destruct (trimStart s) as [|d r] eqn:Hs.
  - now rewrite trimStart_blank.
  - rewrite trimStart_app by congruence. rewrite Hs.
    now apply trimEnd_space.
Qed.

(** What the adapter gathers, each text followed by a space, is the
    texts joined by spaces, up to trimming. *)
Lemma concat_spaced (ts : list jsstring) :
  List.concat (map (fun t => t ++ lit " ") ts) =
  match ts with
  | [] => []
  | _ => join (lit " ") ts ++ lit " "
  end.
Proof.
  induction ts as [|t ts IH]; [reflexivity|].
  simpl List.concat. rewrite IH. destruct ts as [|t' ts].
  - simpl. now rewrite app_nil_r.
  - cbn [join]. now rewrite <- !app_assoc.
Qed.

Lemma trim_spaced (ts : list jsstring) :
  trim (List.concat (map (fun t => t ++ lit " ") ts)) =
  trim (join (lit " ") ts).
Proof.
  rewrite concat_spaced. destruct ts as [|t ts]; [reflexivity|].
  now apply trim_space.
Qed.

Lemma indexOf_none (s : jsstring) (c : code_unit) :
  ~ In c s -> indexOf s c = None.
Proof.
  induction s as [|d s IH]; intros Hn; [reflexivity|].
  simpl. destruct (d =? c) eqn:Hd.
  - apply N.eqb_eq in Hd. exfalso. apply Hn. now left.
  - rewrite IH; [reflexivity|]. intros Hin. apply Hn. now right.
Qed.

Lemma indexOf_first (pre post : jsstring) (c : code_unit) :
  ~ In c pre -> indexOf (pre ++ c :: post) c = Some (List.length pre).
Proof.
  induction pre as [|d pre IH]; intros Hn; simpl.
  - now rewrite N.eqb_refl.
  - destruct (d =? c) eqn:Hd.
    + apply N.eqb_eq in Hd. exfalso. apply Hn. now left.
    + rewrite IH; [reflexivity|]. intros Hin. apply Hn. now right.
Qed.

Lemma skipn_past (pre post : jsstring) (c : code_unit) :
  skipn (S (List.length pre)) (pre ++ c :: post) = post.
Proof. induction pre as [|d pre IH]; [reflexivity | exact IH]. Qed.

End TrimFacts.

Section DecoderFacts.

(** Decoding is byte by byte: a buffer decoded in two calls gives the
    text of one call on the whole, and leaves the same decoder. *)
Lemma decode_app (d : TextDecoder.t) (a b : list byte) :
  TextDecoder.decode d (a ++ b) =
  let (d1, t1) := TextDecoder.decode d a in
  let (d2, t2) := TextDecoder.decode d1 b in
  (d2, t1 ++ t2).
Proof.
  revert d; induction a as [|x a IH]; intros d; simpl.
  - now destruct (TextDecoder.decode d b).
  - destruct (TextDecoder.push d x) as [d1 o1].
    rewrite IH. destruct (TextDecoder.decode d1 a) as [d2 o2].
    destruct (TextDecoder.decode d2 b) as [d3 o3].
    now rewrite app_assoc.
Qed.

End DecoderFacts.

(* ================================================================== *)
(** * The reducer does not see the chunk boundaries *)
(* ================================================================== *)

Section MonadFacts.
Context {P : Platform}.

Lemma bind_ext_l {A B} (m m' : M A) (k : A -> M B) :
  (forall st, m st = m' st) -> forall st, bind m k st = bind m' k st.
Proof. intros H st. unfold bind. now rewrite H. Qed.

Lemma bind_ext_r {A B} (m : M A) (k k' : A -> M B) :
  (forall a st, k a st = k' a st) -> forall st, bind m k st = bind m k' st.
Proof.
  intros H st. unfold bind.
  destruct (m st) as [[a|e] st']; [apply H | reflexivity].
Qed.

Lemma try_catch_ext_l {A} (m m' : M A) (h : exn -> M A) :
  (forall st, m st = m' st) ->
  forall st, try_catch m h st = try_catch m' h st.
Proof. intros H st. unfold try_catch. now rewrite H. Qed.

End MonadFacts.

Section ChunkBoundaries.
Context {P : Platform}.
Variable parse : jsstring -> M jsval.
Variable cb : config.

(** The loop over the lines of two arrays, one after the other, is the
    loop over the first and, unless it returned, the loop over the
    second. *)
Lemma for_lines_app (xs ys : list jsstring) (st : state) :
  for_lines parse cb (xs ++ ys) st =
  (r <- for_lines parse cb xs ;;
   match r with
   | Return => ret Return
   | Next _ => for_lines parse cb ys
   end) st.
Proof.
  revert st; induction xs as [|raw xs IH]; intros st; [reflexivity|].
  simpl app. cbn [for_lines].
  destruct (trim raw) as [|c line]; [apply IH|].
  unfold bind.
  destruct (parse (c :: line) st) as [[result|e] st1]; [|reflexivity].
  destruct (get result (lit "isDone") st1) as [[isDone|e] st2];
    [|reflexivity].
  destruct (truthy isDone).
  - unfold call_onDone, bind.
    destruct (emit OnDone st2) as [[[]|e] st3]; [|reflexivity].
    destruct (perform (onDone cb) st3) as [[[]|e] st4]; [|reflexivity].
    destruct (get result (lit "reason") st4) as [[reason|e] st5];
      [|reflexivity].
    now destruct (log DEBUG (StreamEnd (to_string reason)) st5)
      as [[[]|e] st6].
  - destruct (deliver cb result st2) as [[[]|e] st3]; [|reflexivity].
    now rewrite IH.
Qed.

(** The rounds over the chunks are one round over the chunks put end to
    end, from any decoder and from any leftover that holds no line
    break. *)
Lemma for_await_whole (cs : list (list byte)) (f : option exn)
    (d : TextDecoder.t) (l : jsstring) (st : state) :
  ~ In NL l ->
  for_await parse cb cs f d l st =
  for_await parse cb [List.concat cs] f d l st.
Proof.
  revert d l st; induction cs as [|c cs IH]; intros d l st Hl.
  - simpl. now rewrite app_nil_r, split_no_sep by assumption.
  - simpl List.concat. cbn [for_await]. rewrite decode_app.
    destruct (TextDecoder.decode d c) as [d1 t1].
    destruct (TextDecoder.decode d1 (List.concat cs)) as [d2 t2] eqn:Hd.
    rewrite app_assoc, (removelast_split_app NL (l ++ t1) t2),
      (last_split_app NL (l ++ t1) t2).
    unfold bind at 2. rewrite for_lines_app.
    unfold bind.
    destruct (for_lines parse cb _ st) as [[[[]|]|e] st1]; try reflexivity.
    rewrite IH by apply last_split_no_sep.
    cbn [for_await]. now rewrite Hd.
Qed.

(** The whole run is the same, result, world and trace. *)
Lemma _streamNDJSON_whole (cs : list (list byte)) (f : option exn)
    (st : state) :
  _streamNDJSON parse cb (streaming cs f) st =
  _streamNDJSON parse cb (streaming [List.concat cs] f) st.
Proof.
  unfold _streamNDJSON. revert st.
  apply try_catch_ext_l. apply bind_ext_r. intros _.
  apply bind_ext_l. intros st. cbn [streaming body chunks failure].
  apply for_await_whole. intros [].
Qed.

End ChunkBoundaries.

(** C2. Chunk-boundary invariance: whatever the parser of the provider
    and the callbacks, the bytes of a body cut into chunks at any
    offsets, in the middle of a line or of a multi-byte character as
    well, give the calls of [onContent] that the same bytes give as a
    single chunk, with the same arguments in the same order. *)
Theorem C2_chunk_boundary_invariance :
  forall (P : Platform) (parse : jsstring -> M jsval) (cb : config)
         (cs : list (list byte)) (w : world),
    content_increments
      (events_of (run (_streamNDJSON parse cb (streaming cs None)) w)) =
    content_increments
      (events_of
         (run (_streamNDJSON parse cb (streaming [List.concat cs] None)) w)).
Proof.
  intros P parse cb cs w. unfold run. now rewrite _streamNDJSON_whole.
Qed.

(* ================================================================== *)
(** * The line parsers, case by case *)
(* ================================================================== *)

Section ParserFacts.
Context {P : Platform}.

Lemma nullish_or_obj (v : jsval) : nullish (nullish_or v (Obj [])) = false.
Proof. now destruct v. Qed.

Lemma opt_member (v : jsval) (k : jsstring) : opt v k = member v k.
Proof. now destruct v. Qed.

Lemma get_eq (v : jsval) (k : jsstring) (st : state) :
  get v k st =
  if nullish v then (Throw TypeError, st) else (Normal (member v k), st).
Proof. unfold get. now destruct (nullish v). Qed.

Lemma selfhosted_parse_eq (line : jsstring) (st : state) :
  SelfHostedProvider._parseStreamLine line st =
  match JSON_parse line with
  | Throw e => (Normal (Obj []), record (Log ERROR (InvalidJsonLine line e)) st)
  | Normal obj =>
      if nullish obj then
        (Normal (Obj []),
         record (Log ERROR (InvalidJsonLine line TypeError)) st)
      else if is_true (member obj (lit "done")) then
        (Normal (Obj [(lit "isDone", Bool true);
                      (lit "reason", Str (lit "self-hosted DONE"))]), st)
      else
        let msg := nullish_or (member obj (lit "message")) (Obj []) in
        (Normal (Obj [(lit "content", member msg (lit "content"));
                      (lit "thinking", member msg (lit "thinking"))]), st)
  end.
Proof.
  unfold SelfHostedProvider._parseStreamLine, try_catch, bind, lift.
  destruct (JSON_parse line) as [obj|e]; [|reflexivity].
  rewrite get_eq. destruct (nullish obj) eqn:Hn; [reflexivity|].
  destruct (is_true (member obj (lit "done"))); [reflexivity|].
  rewrite get_eq, Hn. repeat (rewrite get_eq, nullish_or_obj). reflexivity.
Qed.

Lemma openai_parse_eq (line : jsstring) (st : state) :
  OpenAIProvider._parseStreamLine line st =
  if JsString.eqb line (lit "data: [DONE]") then
    (Normal (Obj [(lit "isDone", Bool true);
                  (lit "reason", Str (lit "DONE sentinel"))]), st)
  else if negb (startsWith line (lit "data: ")) then (Normal (Obj []), st)
  else
    let jsonStr := substring line 6 in
    match JSON_parse jsonStr with
    | Throw e =>
        (Normal (Obj []), record (Log ERROR (InvalidJsonLine jsonStr e)) st)
    | Normal obj =>
        if nullish obj then
          (Normal (Obj []),
           record (Log ERROR (InvalidJsonLine jsonStr TypeError)) st)
        else
          let msg :=
            nullish_or
              (member (member (member obj (lit "choices")) (lit "0"))
                 (lit "delta")) (Obj []) in
          (Normal (Obj [(lit "content", member msg (lit "content"))]), st)
    end.
Proof.
  unfold OpenAIProvider._parseStreamLine.
  destruct (JsString.eqb line (lit "data: [DONE]")); [reflexivity|].
  destruct (negb (startsWith line (lit "data: "))); [reflexivity|].
  change (List.length (lit "data: ")) with 6%nat.
  unfold try_catch, bind, lift. cbv zeta.
  destruct (JSON_parse (substring line 6)) as [obj|e]; [|reflexivity].
  rewrite get_eq. destruct (nullish obj) eqn:Hn; [reflexivity|].
  rewrite get_eq, nullish_or_obj, !opt_member. reflexivity.
Qed.

Lemma is_true_spec (v : jsval) : is_true v = true <-> v = Bool true.
Proof.
  split; [|now intros ->].
  destruct v as [| |[]| | | |]; simpl; congruence.
Qed.

Lemma cloud_line_parse (line : jsstring) (st : state) :
  cloud_line line st (OpenAIProvider._parseStreamLine line st).
Proof.
  rewrite openai_parse_eq.
  destruct (JsString.eqb _ _) eqn:Hs.
  { apply cloud_sentinel. now apply eqb_eq. }
  assert (Hne : line <> lit "data: [DONE]").
  { intros ->. now rewrite eqb_refl in Hs. }
  destruct (startsWith _ _) eqn:Hp; cbn [negb]; [|now apply cloud_unprefixed].
  cbv zeta. destruct (JSON_parse _) as [obj|e] eqn:Hj;
    [|now apply cloud_invalid].
  destruct (nullish obj) eqn:Hn;
    [eapply cloud_null | eapply cloud_delta]; eassumption.
Qed.

Lemma selfhosted_line_parse (line : jsstring) (st : state) :
  selfhosted_line line st (SelfHostedProvider._parseStreamLine line st).
Proof.
  rewrite selfhosted_parse_eq.
  destruct (JSON_parse _) as [obj|e] eqn:Hj; [|now apply selfhosted_invalid].
  destruct (nullish obj) eqn:Hn; [eapply selfhosted_null; eassumption|].
  destruct (is_true _) eqn:Hd.
  - eapply selfhosted_done; try eassumption. now apply is_true_spec.
  - eapply selfhosted_message; try eassumption.
    intros H. apply is_true_spec in H. congruence.
Qed.

End ParserFacts.

(* ================================================================== *)
(** * What the reducer adds to the trace *)
(* ================================================================== *)

(** The events of a kind that is none of [onContent], [onDone] and the
    logger's, and that the parser does not record either, are after a
    reduction those before it; so are the calls of [onThinking] when the
    parser returns no [thinking] string. *)
Section Kept.
Context {P : Platform}.
Variable keep : event -> bool.

Lemma kept_record (e : event) (st : state) :
  kept keep (record e st) = kept keep st ++ (if keep e then [e] else []).
Proof.
  unfold kept, record. simpl. rewrite filter_app. simpl.
  now destruct (keep e).
Qed.

Lemma kept_perform {A} (f : world -> completion A * world) (st : state) :
  kept keep (snd (perform f st)) = kept keep st.
Proof. unfold perform. now destruct (f (env st)). Qed.

(** A computation keeps the events of the kind when the ones recorded
    after it are the ones recorded before it; the rules below follow the
    shape of the code. *)
Lemma kept_bind {A B} (m : M A) (k : A -> M B) (st : state) :
  kept keep (snd (m st)) = kept keep st ->
  (forall a st1, m st = (Normal a, st1) ->
     kept keep (snd (k a st1)) = kept keep st1) ->
  kept keep (snd (bind m k st)) = kept keep st.
Proof.
  intros Hm Hk. unfold bind.
  destruct (m st) as [[a|e] st1]; [|exact Hm].
  cbn [snd] in Hm. rewrite <- Hm. now apply Hk.
Qed.

Lemma kept_try_catch {A} (m : M A) (h : exn -> M A) (st : state) :
  kept keep (snd (m st)) = kept keep st ->
  (forall e st1, kept keep (snd (h e st1)) = kept keep st1) ->
  kept keep (snd (try_catch m h st)) = kept keep st.
Proof.
  intros Hm Hh. unfold try_catch.
  destruct (m st) as [[a|e] st1]; [exact Hm|].
  cbn [snd] in Hm. rewrite <- Hm. apply Hh.
Qed.

Lemma kept_get (v : jsval) (k : jsstring) (st : state) :
  kept keep (snd (get v k st)) = kept keep st.
Proof. rewrite get_eq. now destruct (nullish v). Qed.

Lemma kept_emit (e : event) (st : state) :
  keep e = false -> kept keep (snd (emit e st)) = kept keep st.
Proof.
  intros He. unfold emit. cbn [snd]. rewrite kept_record, He.
  apply app_nil_r.
Qed.

Lemma kept_call (e : event) (f : world -> completion unit * world)
    (st : state) :
  keep e = false -> kept keep (snd ((emit e ;; perform f) st)) = kept keep st.
Proof.
  intros He. apply kept_bind; [now apply kept_emit|].
  intros _ st1 _. apply kept_perform.
Qed.

Variable parse : jsstring -> M jsval.
Variable cb : config.
Hypothesis keep_content : forall s, keep (OnContent s) = false.
Hypothesis keep_done : keep OnDone = false.
Hypothesis keep_log : forall l m, keep (Log l m) = false.
Hypothesis parse_kept :
  forall line st, kept keep (snd (parse line st)) = kept keep st.
Hypothesis thinking_kept :
  (forall s, keep (OnThinking s) = false) \/
  (forall line st v st', parse line st = (Normal v, st') ->
     is_string (member v (lit "thinking")) = None).

Lemma kept_deliver (result : jsval) (st : state) :
  (forall s, keep (OnThinking s) = false) \/
  is_string (member result (lit "thinking")) = None ->
  kept keep (snd (deliver cb result st)) = kept keep st.
Proof.
  intros Ht. unfold deliver.
  apply kept_bind; [apply kept_get|]. intros content st1 _.
  apply kept_bind.
  { destruct (is_string content); [|reflexivity].
    apply kept_call, keep_content. }
  intros _ st2 _. apply kept_bind; [apply kept_get|]. intros thinking st3 Hg.
  destruct (is_string thinking) as [s|] eqn:Hs; [|reflexivity].
  destruct Ht as [Hk|Hk]; [apply kept_call, Hk|].
  rewrite get_eq in Hg. destruct (nullish result); [discriminate|].
  injection Hg as <- _. congruence.
Qed.

Lemma kept_parsed (line : jsstring) (st : state) (result : jsval)
    (st1 st2 : state) :
  parse line st = (Normal result, st1) ->
  kept keep (snd (deliver cb result st2)) = kept keep st2.
Proof.
  intros Hp. apply kept_deliver.
  destruct thinking_kept as [Hk|Hk]; [now left | right; eauto].
Qed.

Lemma kept_for_lines (lines : list jsstring) (st : state) :
  kept keep (snd (for_lines parse cb lines st)) = kept keep st.
Proof.
  revert st; induction lines as [|raw lines IH]; intros st; [reflexivity|].
  cbn [for_lines]. destruct (trim raw) as [|c line]; [apply IH|].
  apply kept_bind; [apply parse_kept|]. intros result st1 Hp.
  apply kept_bind; [apply kept_get|]. intros isDone st2 _.
  destruct (truthy isDone).
  - apply kept_bind; [apply kept_call, keep_done|]. intros _ st3 _.
    apply kept_bind; [apply kept_get|]. intros reason st4 _.
    apply kept_bind; [apply kept_emit, keep_log | reflexivity].
  - apply kept_bind; [eapply kept_parsed, Hp|]. intros _ st3 _. apply IH.
Qed.

Lemma kept_for_await (cs : list (list byte)) (f : option exn)
    (d : TextDecoder.t) (l : jsstring) (st : state) :
  kept keep (snd (for_await parse cb cs f d l st)) = kept keep st.
Proof.
  revert d l st; induction cs as [|c cs IH]; intros d l st.
  - simpl. now destruct f.
  - cbn [for_await]. destruct (TextDecoder.decode d c) as [d1 t1].
    apply kept_bind; [apply kept_for_lines|].
    intros [[]|] st1 _; [apply IH | reflexivity].
Qed.

Lemma kept_streamNDJSON (resp : response) (st : state) :
  kept keep (snd (_streamNDJSON parse cb resp st)) = kept keep st.
Proof.
  unfold _streamNDJSON. apply kept_try_catch.
  - apply kept_bind; [apply kept_emit, keep_log|]. intros _ st1 _.
    apply kept_bind; [apply kept_for_await|].
    intros [leftover|] st2 _; [|reflexivity].
    apply kept_bind.
    + destruct (trim leftover) as [|c line]; [reflexivity|].
      apply kept_bind; [apply parse_kept|]. intros result st3 Hp.
      apply kept_bind; [apply kept_get|]. intros isDone st4 _.
      destruct (negb (truthy isDone)); [|reflexivity].
      eapply kept_parsed, Hp.
    + intros _ st3 _.
      apply kept_bind; [apply kept_call, keep_done|]. intros _ st4 _.
      apply kept_emit, keep_log.
  - intros e st1.
    apply kept_bind; [apply kept_emit, keep_log|]. intros _ st2 _.
    apply kept_call, keep_done.
Qed.
End Kept.

(** With an [onDone] that returns, a reduction calls it once and returns
    itself, whatever the parser does short of calling [onDone]. *)
Section Done.
Context {P : Platform}.
Variable parse : jsstring -> M jsval.
Variable cb : config.
Hypothesis parse_done :
  forall line st, kept is_OnDone (snd (parse line st)) = kept is_OnDone st.
Hypothesis onDone_normal : returns_normally (onDone cb).

Lemma dones_kept (st st' : state) :
  kept is_OnDone st' = kept is_OnDone st -> dones st' = dones st.
Proof. unfold dones, done_calls, kept. now intros ->. Qed.

Lemma dones_log (l : level) (m : entry) (st : state) :
  dones (record (Log l m) st) = dones st.
Proof. apply dones_kept. rewrite kept_record. apply app_nil_r. Qed.

Lemma dones_parse (line : jsstring) (st : state) :
  dones (snd (parse line st)) = dones st.
Proof. apply dones_kept, parse_done. Qed.

Lemma dones_deliver (result : jsval) (st : state) :
  dones (snd (deliver cb result st)) = dones st.
Proof. apply dones_kept, kept_deliver; [reflexivity | now left]. Qed.

(** The call itself: recorded, and returned from. *)
Lemma call_onDone_once (st : state) :
  exists st',
    call_onDone cb st = (Normal tt, st') /\ dones st' = S (dones st).
Proof.
  unfold call_onDone, bind, emit, perform. cbn [env record].
  pose proof (onDone_normal (env st)) as Hn.
  destruct (onDone cb (env st)) as [r w]. cbn [fst] in Hn. subst r.
  eexists; split; [reflexivity|].
  unfold dones, done_calls, record. cbn [trace].
  rewrite filter_app, length_app. cbn. lia.
Qed.

(** The loop over the lines calls [onDone] when it returns from the
    function, and only then. *)
Lemma dones_for_lines (lines : list jsstring) (st : state) :
  match for_lines parse cb lines st with
  | (Normal Return, st') => dones st' = S (dones st)
  | (_, st') => dones st' = dones st
  end.
Proof.
  revert st; induction lines as [|raw lines IH]; intros st; [reflexivity|].
  cbn [for_lines]. destruct (trim raw) as [|c line]; [apply IH|].
  unfold bind.
  pose proof (dones_parse (c :: line) st) as Hp.
  destruct (parse (c :: line) st) as [[result|e] st1]; [|exact Hp].
  cbn [snd] in Hp. rewrite <- Hp. rewrite get_eq.
  destruct (nullish result) eqn:Hn; [reflexivity|].
  destruct (truthy _).
  - destruct (call_onDone_once st1) as (st2 & -> & Hd).
    rewrite get_eq, Hn. unfold log, emit, ret. cbv beta iota.
    now rewrite dones_log.
  - pose proof (dones_deliver result st1) as Hd.
    destruct (deliver cb result st1) as [[[]|e] st2]; [|exact Hd].
    cbn [snd] in Hd. rewrite <- Hd. apply IH.
Qed.

Lemma dones_for_await (cs : list (list byte)) (f : option exn)
    (d : TextDecoder.t) (l : jsstring) (st : state) :
  match for_await parse cb cs f d l st with
  | (Normal Return, st') => dones st' = S (dones st)
  | (_, st') => dones st' = dones st
  end.
Proof.
  revert d l st; induction cs as [|c cs IH]; intros d l st.
  - simpl. now destruct f.
  - cbn [for_await]. destruct (TextDecoder.decode d c) as [d1 t1].
    unfold bind.
    pose proof (dones_for_lines (removelast (split NL (l ++ t1))) st) as Hl.
    destruct (for_lines _ _ _ st) as [[[[]|]|e] st1]; try exact Hl.
    rewrite <- Hl. apply IH.
Qed.

(** The catch-all: the error logged, then the call. *)
Lemma catch_all_once (error : exn) (st : state) :
  exists st',
    (log ERROR (StreamError error) ;; call_onDone cb) st = (Normal tt, st')
    /\ dones st' = S (dones st).
Proof.
  unfold bind at 1, log, emit.
  destruct (call_onDone_once (record (Log ERROR (StreamError error)) st))
    as (st' & -> & Hd).
  exists st'. split; [reflexivity|]. now rewrite Hd, dones_log.
Qed.

(** The flush of the leftover calls [onDone] on no path. *)
Lemma dones_flush (leftover : jsstring) (st : state) :
  dones
    (snd (match trim leftover with
          | [] => ret tt
          | line =>
              result <- parse line ;;
              isDone <- get result (lit "isDone") ;;
              if negb (truthy isDone) then deliver cb result else ret tt
          end st))
  = dones st.
Proof.
  destruct (trim leftover) as [|c line]; [reflexivity|].
  unfold bind.
  pose proof (dones_parse (c :: line) st) as Hp.
  destruct (parse (c :: line) st) as [[result|e] st1]; [|exact Hp].
  cbn [snd] in Hp. rewrite <- Hp. rewrite get_eq.
  destruct (nullish result); [reflexivity|].
  destruct (negb _); [apply dones_deliver | reflexivity].
Qed.

Lemma _streamNDJSON_once (resp : response) (st : state) :
  exists st',
    _streamNDJSON parse cb resp st = (Normal tt, st') /\
    dones st' = S (dones st).
Proof.
  unfold _streamNDJSON, try_catch, bind at 1, log, emit.
  rewrite <- (dones_log DEBUG StreamStart st).
  generalize (record (Log DEBUG StreamStart) st). clear st. intros st.
  unfold bind at 1.
  pose proof (dones_for_await (chunks (body resp)) (failure (body resp))
                TextDecoder.create [] st) as Ha.
  destruct (for_await _ _ _ _ _ _ st) as [[[leftover|]|e] st1].
  2: { exists st1. now split. }
  2: { rewrite <- Ha. apply catch_all_once. }
  rewrite <- Ha. clear Ha st.
  unfold bind at 1.
  pose proof (dones_flush leftover st1) as Hflush.
  match type of Hflush with dones (snd ?r) = _ =>
    destruct r as [[[]|e] st2] end;
    cbn [snd] in Hflush; rewrite <- Hflush.
  2: apply catch_all_once.
  unfold bind.
  destruct (call_onDone_once st2) as (st3 & -> & Hd).
  unfold log, emit. eexists. split; [reflexivity|].
  now rewrite dones_log.
Qed.
End Done.

(** The parsers record nothing but calls of the logger. *)
Section ParserTrace.
Context {P : Platform}.
Variable keep : event -> bool.
Hypothesis keep_log : forall l m, keep (Log l m) = false.

Lemma kept_log (l : level) (m : entry) (st : state) :
  kept keep (record (Log l m) st) = kept keep st.
Proof. rewrite kept_record, keep_log. apply app_nil_r. Qed.

Lemma openai_parse_kept (line : jsstring) (st : state) :
  kept keep (snd (OpenAIProvider._parseStreamLine line st)) = kept keep st.
Proof.
  destruct (cloud_line_parse line st); try reflexivity; apply kept_log.
Qed.

Lemma selfhosted_parse_kept (line : jsstring) (st : state) :
  kept keep (snd (SelfHostedProvider._parseStreamLine line st)) = kept keep st.
Proof.
  destruct (selfhosted_line_parse line st); try reflexivity; apply kept_log.
Qed.

Lemma base_parse_kept (line : jsstring) (st : state) :
  kept keep (snd (AIProvider._parseStreamLine line st)) = kept keep st.
Proof. reflexivity. Qed.

End ParserTrace.

(* ================================================================== *)
(** * Requests *)
(* ================================================================== *)

Section Send.
Context {P : Platform}.

Lemma openai_send_eq (apiKey : jsstring) (c : config) (st : state) :
  OpenAIProvider._sendRequestInternal apiKey c st =
  let req := OpenAIProvider.request_sent apiKey c in
  let st1 :=
    record (Fetch req)
      (record (Log DEBUG (RequestBody (Request.body req)))
         (record (Log INFO (Post (stream c) (Request.url req))) st)) in
  let st2 := {| env := snd (fetch req (env st)); trace := trace st1 |} in
  match fst (fetch req (env st)) with
  | Normal resp =>
      if ok resp then (Normal resp, st2)
      else match text resp with
           | Normal txt => (Throw (HttpError (status resp) (Str txt)), st2)
           | Throw e => (Throw e, st2)
           end
  | Throw e => (Throw e, st2)
  end.
Proof.
  unfold OpenAIProvider._sendRequestInternal, OpenAIProvider.request_sent.
  cbn [OpenAIProvider._getUrlAndHeaders fst snd].
  unfold bind, log, emit, perform, lift. cbn [env record].
  destruct (fetch _ (env st)) as [[resp|e] w]; [|reflexivity].
  cbn [fst snd]. destruct (ok resp); [reflexivity|]. cbn [negb].
  now destruct (text resp).
Qed.

Lemma selfhosted_send_eq (baseUrl : jsstring) (c : config) (st : state) :
  SelfHostedProvider._sendRequestInternal baseUrl c st =
  let req := SelfHostedProvider.request_sent baseUrl c in
  let st1 :=
    record (Fetch req)
      (record (Log DEBUG (RequestBody (Request.body req)))
         (record (Log INFO (Post (stream c) (Request.url req)))
            (record (Log DEBUG BuiltOllamaPayload) st))) in
  let st2 := {| env := snd (fetch req (env st)); trace := trace st1 |} in
  match fst (fetch req (env st)) with
  | Normal resp =>
      if ok resp then (Normal resp, st2)
      else match text resp with
           | Normal txt =>
               let body :=
                 match JSON_parse txt with
                 | Normal b => b
                 | Throw _ => Str txt
                 end in
               (Throw (HttpError (status resp) body),
                record (Log ERROR (ErrorBody body)) st2)
           | Throw e => (Throw e, st2)
           end
  | Throw e => (Throw e, st2)
  end.
Proof.
  unfold SelfHostedProvider._sendRequestInternal,
    SelfHostedProvider.request_sent, SelfHostedProvider._buildPayload.
  cbn [SelfHostedProvider._getUrlAndHeaders fst snd].
  unfold bind, log, emit, perform, lift, try_catch, ret. cbn [env record].
  destruct (fetch _ (env st)) as [[resp|e] w]; [|reflexivity].
  cbn [fst snd]. destruct (ok resp); [reflexivity|]. cbn [negb].
  destruct (text resp) as [txt|e]; [|reflexivity].
  now destruct (JSON_parse txt).
Qed.

Section SendTrace.
Variable keep : event -> bool.
Hypothesis keep_log : forall l m, keep (Log l m) = false.
Hypothesis keep_fetch : forall r, keep (Fetch r) = false.

Lemma kept_env (w : world) (st : state) :
  kept keep {| env := w; trace := trace st |} = kept keep st.
Proof. reflexivity. Qed.

Lemma kept_fetch (r : request) (st : state) :
  kept keep (record (Fetch r) st) = kept keep st.
Proof. rewrite kept_record, keep_fetch. apply app_nil_r. Qed.

Lemma openai_send_kept (apiKey : jsstring) (c : config) (st : state) :
  kept keep (snd (OpenAIProvider._sendRequestInternal apiKey c st))
  = kept keep st.
Proof.
  rewrite openai_send_eq. cbv zeta.
  assert (H : forall w r,
    kept keep {| env := w;
                 trace := trace (record (Fetch r)
                   (record (Log DEBUG (RequestBody (Request.body r)))
                     (record (Log INFO (Post (stream c) (Request.url r)))
                        st))) |}
    = kept keep st).
  { intros w r. now rewrite kept_env, kept_fetch, !kept_log. }
  destruct (fst (fetch _ _)) as [resp|e]; [|apply H].
  destruct (ok resp); [apply H|].
  destruct (text resp); apply H.
Qed.

End SendTrace.
End Send.

(* ================================================================== *)
(** * The claims on the parsers and on the reducer *)
(* ================================================================== *)

(** C1, as amended. For every body, whether it ends normally, holds a
    done line or breaks, and whether the parser or a callback throws on
    the way: with an [onDone] that returns, one call of the reducer
    calls [onDone] exactly once and returns, with the parser of either
    provider and with the one of the base class. *)
Theorem C1_onDone_once_when_it_returns :
  forall (P : Platform) (cb : config) (resp : response) (st : state),
    returns_normally (onDone cb) ->
    (exists st',
       _streamNDJSON OpenAIProvider._parseStreamLine cb resp st
       = (Normal tt, st') /\
       done_calls (trace st') = S (done_calls (trace st))) /\
    (exists st',
       _streamNDJSON SelfHostedProvider._parseStreamLine cb resp st
       = (Normal tt, st') /\
       done_calls (trace st') = S (done_calls (trace st))) /\
    (exists st',
       _streamNDJSON AIProvider._parseStreamLine cb resp st
       = (Normal tt, st') /\
       done_calls (trace st') = S (done_calls (trace st))).
Proof.
  intros P cb resp st Hdone. repeat split.
  - apply _streamNDJSON_once; [|exact Hdone].
    intros. now apply openai_parse_kept.
  - apply _streamNDJSON_once; [|exact Hdone].
    intros. now apply selfhosted_parse_kept.
  - apply _streamNDJSON_once; [|exact Hdone].
    intros. now apply base_parse_kept.
Qed.

(** C5. On every line, the parser of either provider returns and does
    not throw; and when [JSON.parse] throws on the JSON of the line (the
    line itself for the self-hosted parser, what follows the prefix of a
    line other than the sentinel for the cloud parser) the increment
    returned is the empty object. *)
Theorem C5_parseLine_never_throws :
  forall (P : Platform) (line : jsstring) (st : state),
    (exists v st', OpenAIProvider._parseStreamLine line st = (Normal v, st')) /\
    (exists v st',
       SelfHostedProvider._parseStreamLine line st = (Normal v, st')) /\
    (forall e,
       line <> lit "data: [DONE]" ->
       JSON_parse (substring line 6) = Throw e ->
       fst (OpenAIProvider._parseStreamLine line st) = Normal (Obj [])) /\
    (forall e,
       JSON_parse line = Throw e ->
       fst (SelfHostedProvider._parseStreamLine line st) = Normal (Obj [])).
Proof.
  intros P line st. repeat split.
  - destruct (cloud_line_parse line st); eauto.
  - destruct (selfhosted_line_parse line st); eauto.
  - intros e Hline He.
    destruct (cloud_line_parse line st); try reflexivity; congruence.
  - intros e He.
    destruct (selfhosted_line_parse line st); try reflexivity; congruence.
Qed.

(** C6. The cloud parser on the line [data: [DONE]] and the self-hosted
    parser on a line whose JSON has [done] equal to [true] at top level
    return an increment whose [isDone] is [true]. *)
Theorem C6_done_lines :
  forall (P : Platform) (st : state),
    (exists r,
       OpenAIProvider._parseStreamLine (lit "data: [DONE]") st
       = (Normal r, st) /\
       member r (lit "isDone") = Bool true) /\
    (forall line obj,
       JSON_parse line = Normal obj ->
       own obj (lit "done") = Some (Bool true) ->
       exists r,
         SelfHostedProvider._parseStreamLine line st = (Normal r, st) /\
         member r (lit "isDone") = Bool true).
Proof.
  intros P st. split.
  - eexists. split; reflexivity.
  - intros line obj Hobj Hdone.
    assert (Hm : member obj (lit "done") = Bool true)
      by (unfold member; now rewrite Hdone).
    destruct (selfhosted_line_parse line st) as [e He|o Ho Hn|o Ho Hn Hd|o Ho Hn Hd];
      try congruence.
    + rewrite Hobj in Ho. injection Ho as <-. now destruct obj.
    + eexists. split; reflexivity.
Qed.

(** A path that is missing from a value reads as [undefined] along the
    chain of its properties. *)
Lemma at_path_member (path : list jsstring) (v : jsval) :
  at_path v path = None -> fold_left member path v = Undefined.
Proof.
  revert v; induction path as [|k path IH]; intros v; simpl; [discriminate|].
  unfold member at 2. destruct (own v k) as [x|]; [apply IH|].
  intros _. clear. induction path as [|k' path IH]; [reflexivity | exact IH].
Qed.

(** C7. The cloud parser returns the empty object on a line that does
    not start with [data: ]; and on a line with the prefix whose JSON
    lacks the path [choices[0].delta.content] it returns an increment,
    empty or with an undefined content, that carries no content string
    and whose [isDone] is not true. *)
Theorem C7_cloud_lines_without_content :
  forall (P : Platform) (line : jsstring) (st : state),
    (startsWith line (lit "data: ") = false ->
     OpenAIProvider._parseStreamLine line st = (Normal (Obj []), st)) /\
    (forall obj,
       startsWith line (lit "data: ") = true ->
       line <> lit "data: [DONE]" ->
       JSON_parse (substring line 6) = Normal obj ->
       at_path obj cloud_delta_path = None ->
       exists r st',
         OpenAIProvider._parseStreamLine line st = (Normal r, st') /\
         (r = Obj [] \/ r = Obj [(lit "content", Undefined)]) /\
         is_string (member r (lit "content")) = None /\
         truthy (member r (lit "isDone")) = false).
Proof.
  intros P line st. split.
  - intros Hp.
    destruct (cloud_line_parse line st) as [->| | | |];
      try reflexivity; try congruence. discriminate.
  - intros obj Hp Hline Hobj Hpath.
    destruct (cloud_line_parse line st) as [|? ?|e ? ? He|o ? ? Ho Hn|o ? ? Ho Hn];
      try congruence.
    + do 2 eexists. split; [reflexivity|]. split; [now left|]. now split.
    + rewrite Hobj in Ho. injection Ho as <-.
      apply at_path_member in Hpath. unfold cloud_delta_path in Hpath.
      cbn [fold_left] in Hpath.
      destruct (member (member (member obj (lit "choices")) (lit "0"))
                  (lit "delta")) as [| | | | | |] eqn:Hd;
        cbn [nullish_or nullish] in *; try rewrite Hpath;
        do 2 eexists; (split; [reflexivity|]); (split; [now right|]);
        now split.
Qed.

Section CloudThinking.
Context {P : Platform}.

Lemma openai_parse_no_thinking (line : jsstring) (st : state) :
  exists v st',
    OpenAIProvider._parseStreamLine line st = (Normal v, st') /\
    own v (lit "thinking") = None.
Proof.
  destruct (cloud_line_parse line st); do 2 eexists; split; reflexivity.
Qed.

Lemma openai_reduce_no_thinking (cb : config) (resp : response)
    (st : state) :
  kept is_OnThinking
    (snd (_streamNDJSON OpenAIProvider._parseStreamLine cb resp st))
  = kept is_OnThinking st.
Proof.
  apply kept_streamNDJSON; try reflexivity.
  - intros. now apply openai_parse_kept.
  - right. intros line st0 v st' Hp.
    destruct (openai_parse_no_thinking line st0) as (v' & st'' & Hp' & Hown).
    rewrite Hp in Hp'. injection Hp' as <- _.
    unfold member. now rewrite Hown.
Qed.

End CloudThinking.

(** C10. The cloud parser returns no increment with a [thinking]
    property, on any line; so a reduction with the cloud parser, and the
    whole of the cloud provider's [streamResponse], add no call of
    [onThinking] to the trace. *)
Theorem C10_cloud_never_thinks :
  forall (P : Platform) (apiKey : jsstring),
    (forall line st, exists v st',
       OpenAIProvider._parseStreamLine line st = (Normal v, st') /\
       own v (lit "thinking") = None) /\
    (forall cb resp st,
       kept is_OnThinking
         (snd (_streamNDJSON OpenAIProvider._parseStreamLine cb resp st))
       = kept is_OnThinking st) /\
    (forall c st,
       kept is_OnThinking (snd (OpenAIProvider.streamResponse apiKey c st))
       = kept is_OnThinking st).
Proof.
  intros P apiKey. repeat split.
  - apply openai_parse_no_thinking.
  - apply openai_reduce_no_thinking.
  - intros c st. unfold OpenAIProvider.streamResponse.
    apply kept_bind; [now apply openai_send_kept|].
    intros resp st1 _. apply openai_reduce_no_thinking.
Qed.

(* ================================================================== *)
(** * The retry of the self-hosted provider *)
(* ================================================================== *)

Section RetryFacts.
Context {P : Platform}.
Variable baseUrl : jsstring.

Lemma generateResponse_two_stage (c : config) (st : state) :
  SelfHostedProvider.generateResponse baseUrl c st =
  two_stage SelfHostedProvider.thinking_unsupported (bulk_attempt baseUrl c)
    (think c) st.
Proof.
  unfold SelfHostedProvider.generateResponse, two_stage, bulk_attempt.
  destruct (think c); [|reflexivity].
  unfold try_catch, bind.
  destruct (SelfHostedProvider._sendRequestInternal _ _ st)
    as [[resp|e] st1].
  - destruct (SelfHostedProvider.json resp st1) as [[data|e] st2];
      [reflexivity|].
    now destruct (SelfHostedProvider.thinking_unsupported e).
  - now destruct (SelfHostedProvider.thinking_unsupported e).
Qed.

Lemma streamResponse_two_stage (c : config) (st : state) :
  SelfHostedProvider.streamResponse baseUrl c st =
  two_stage SelfHostedProvider.thinking_unsupported (stream_attempt baseUrl c)
    (think c) st.
Proof.
  unfold SelfHostedProvider.streamResponse, two_stage, stream_attempt.
  destruct (think c); [|reflexivity].
  unfold try_catch, bind.
  destruct (SelfHostedProvider._sendRequestInternal _ _ st)
    as [[resp|e] st1].
  - destruct (_streamNDJSON _ _ resp st1) as [[[]|e] st2]; [reflexivity|].
    now destruct (SelfHostedProvider.thinking_unsupported e).
  - now destruct (SelfHostedProvider.thinking_unsupported e).
Qed.

Lemma requests_app (l1 l2 : list event) :
  requests (l1 ++ l2) = requests l1 ++ requests l2.
Proof.
  induction l1 as [|e l1 IH]; [reflexivity|].
  destruct e; simpl; now rewrite IH.
Qed.

Lemma requests_kept (l : list event) :
  requests (filter is_Fetch l) = requests l.
Proof.
  induction l as [|e l IH]; [reflexivity|].
  destruct e; simpl; now rewrite ?IH.
Qed.

Lemma selfhosted_send_requests (c : config) (st : state) :
  requests (trace (snd (SelfHostedProvider._sendRequestInternal baseUrl c st)))
  = requests (trace st) ++ [SelfHostedProvider.request_sent baseUrl c].
Proof.
  rewrite selfhosted_send_eq. cbv zeta.
  assert (H : forall w r,
    requests (trace {| env := w;
                 trace := trace (record (Fetch r)
                   (record (Log DEBUG (RequestBody (Request.body r)))
                     (record (Log INFO (Post (stream c) (Request.url r)))
                       (record (Log DEBUG BuiltOllamaPayload) st)))) |})
    = requests (trace st) ++ [r]).
  { intros w r. cbn [trace record]. rewrite !requests_app. simpl.
    now rewrite !app_nil_r. }
  destruct (fst (fetch _ _)) as [resp|e]; [|apply H].
  destruct (ok resp); [apply H|].
  destruct (text resp); [|apply H].
  cbn [snd]. unfold record at 1. cbn [trace]. rewrite requests_app.
  cbn [requests]. rewrite app_nil_r. apply H.
Qed.

Lemma json_state (resp : response) (st : state) :
  snd (SelfHostedProvider.json resp st) = st.
Proof.
  unfold SelfHostedProvider.json, bind, lift.
  destruct (text resp); [|reflexivity]. reflexivity.
Qed.

Lemma bulk_attempt_requests (c : config) (t : bool) (st : state) :
  requests (trace (snd (bulk_attempt baseUrl c t st)))
  = requests (trace st)
    ++ [SelfHostedProvider.request_sent baseUrl (with_flags c false t)].
Proof.
  unfold bulk_attempt, bind.
  pose proof (selfhosted_send_requests (with_flags c false t) st) as Hs.
  destruct (SelfHostedProvider._sendRequestInternal _ _ st)
    as [[resp|e] st1]; [|exact Hs].
  cbn [snd] in Hs. rewrite <- Hs.
  pose proof (json_state resp st1) as Hj.
  destruct (SelfHostedProvider.json resp st1) as [[data|e] st2];
    cbn [snd] in *; now subst st2.
Qed.

Lemma stream_attempt_requests (c : config) (t : bool) (st : state) :
  requests (trace (snd (stream_attempt baseUrl c t st)))
  = requests (trace st)
    ++ [SelfHostedProvider.request_sent baseUrl (with_flags c true t)].
Proof.
  unfold stream_attempt, bind.
  pose proof (selfhosted_send_requests (with_flags c true t) st) as Hs.
  destruct (SelfHostedProvider._sendRequestInternal _ _ st)
    as [[resp|e] st1]; [|exact Hs].
  cbn [snd] in Hs. rewrite <- Hs.
  rewrite <- (requests_kept (trace st1)), <- (requests_kept (trace (snd _))).
  f_equal. apply (kept_streamNDJSON is_Fetch); try reflexivity.
  - intros. now apply selfhosted_parse_kept.
  - now left.
Qed.

(** The requests of the two-stage machine over an attempt that sends one
    request: the one with [think: true] when the request asks for it,
    followed by the one with [think: false] when, and only when, the
    first attempt failed for an unsupported [think]; the one with
    [think: false] alone otherwise. *)
Lemma two_stage_requests {A} (unsupported : exn -> bool)
    (attempt : bool -> M A) (req : bool -> request) :
  (forall t st,
     requests (trace (snd (attempt t st))) = requests (trace st) ++ [req t]) ->
  forall think st,
    requests (trace (snd (two_stage unsupported attempt think st)))
    = requests (trace st)
      ++ if think : bool then
           req true
           :: match fst (attempt true st) with
              | Throw e => if unsupported e then [req false] else []
              | Normal _ => []
              end
         else [req false].
Proof.
  intros Hreq think st. unfold two_stage.
  destruct think; [|apply Hreq].
  pose proof (Hreq true st) as H1.
  destruct (attempt true st) as [[a|e] st1]; cbn [fst snd] in *;
    [exact H1|].
  destruct (unsupported e); [|exact H1].
  unfold bind, log, emit. rewrite Hreq. unfold record. cbn [trace].
  rewrite requests_app, H1. cbn [requests]. now rewrite app_nil_r, <- app_assoc.
Qed.
Lemma generateResponse_requests (c : config) (st : state) :
  requests (trace (snd (SelfHostedProvider.generateResponse baseUrl c st)))
  = requests (trace st)
    ++ if think c then
         SelfHostedProvider.request_sent baseUrl (with_flags c false true)
         :: match fst (bulk_attempt baseUrl c true st) with
            | Throw e =>
                if SelfHostedProvider.thinking_unsupported e
                then [SelfHostedProvider.request_sent baseUrl
                        (with_flags c false false)]
                else []
            | Normal _ => []
            end
       else [SelfHostedProvider.request_sent baseUrl
               (with_flags c false false)].
Proof.
  rewrite generateResponse_two_stage.
  apply (two_stage_requests _ (bulk_attempt baseUrl c)
           (fun t => SelfHostedProvider.request_sent baseUrl
                       (with_flags c false t))).
  intros. apply bulk_attempt_requests.
Qed.

Lemma streamResponse_requests (c : config) (st : state) :
  requests (trace (snd (SelfHostedProvider.streamResponse baseUrl c st)))
  = requests (trace st)
    ++ if think c then
         SelfHostedProvider.request_sent baseUrl (with_flags c true true)
         :: match fst (stream_attempt baseUrl c true st) with
            | Throw e =>
                if SelfHostedProvider.thinking_unsupported e
                then [SelfHostedProvider.request_sent baseUrl
                        (with_flags c true false)]
                else []
            | Normal _ => []
            end
       else [SelfHostedProvider.request_sent baseUrl
               (with_flags c true false)].
Proof.
  rewrite streamResponse_two_stage.
  apply (two_stage_requests _ (stream_attempt baseUrl c)
           (fun t => SelfHostedProvider.request_sent baseUrl
                       (with_flags c true t))).
  intros. apply stream_attempt_requests.
Qed.

End RetryFacts.

(** C3, as amended. The bulk and the streaming operation of the
    self-hosted provider are both the two-stage machine of section 4.5
    over their own attempt, where the failure that leads to the second
    attempt is the one whose body has an [error] property matching
    [/does not support thinking/]: a request that asks for [think] is
    sent with [think: true]; its success is the result; its failure with
    such a body is followed by one attempt with [think: false], whose
    result, success or failure, is the result; any other failure is
    thrown again as it is. The requests given to [fetch] are the one
    with [think: true], followed by the one with [think: false] after
    such a failure and by nothing otherwise; they differ in the [think]
    flag alone. *)
Theorem C3_retry_without_think :
  forall (P : Platform) (baseUrl : jsstring) (c : config) (st : state),
    SelfHostedProvider.generateResponse baseUrl c st
    = two_stage SelfHostedProvider.thinking_unsupported
        (bulk_attempt baseUrl c) (think c) st /\
    SelfHostedProvider.streamResponse baseUrl c st
    = two_stage SelfHostedProvider.thinking_unsupported
        (stream_attempt baseUrl c) (think c) st /\
    requests (trace (snd (SelfHostedProvider.generateResponse baseUrl c st)))
    = requests (trace st)
      ++ (if think c then
            SelfHostedProvider.request_sent baseUrl (with_flags c false true)
            :: match fst (bulk_attempt baseUrl c true st) with
               | Throw e =>
                   if SelfHostedProvider.thinking_unsupported e
                   then [SelfHostedProvider.request_sent baseUrl
                           (with_flags c false false)]
                   else []
               | Normal _ => []
               end
          else [SelfHostedProvider.request_sent baseUrl
                  (with_flags c false false)]) /\
    requests (trace (snd (SelfHostedProvider.streamResponse baseUrl c st)))
    = requests (trace st)
      ++ (if think c then
            SelfHostedProvider.request_sent baseUrl (with_flags c true true)
            :: match fst (stream_attempt baseUrl c true st) with
               | Throw e =>
                   if SelfHostedProvider.thinking_unsupported e
                   then [SelfHostedProvider.request_sent baseUrl
                           (with_flags c true false)]
                   else []
               | Normal _ => []
               end
          else [SelfHostedProvider.request_sent baseUrl
                  (with_flags c true false)]) /\
    (forall s t,
       SelfHostedProvider.request_sent baseUrl (with_flags c s t)
       = {| Request.url := baseUrl ++ lit "/api/chat";
            Request.headers :=
              [(lit "Content-Type", lit "application/json")];
            Request.body :=
              OllamaPayload (model c)
                (SelfHostedProvider._processMessagesForOllama (messages c))
                s (temperature c) (maxTokens c) t |}).
Proof.
  intros P baseUrl c st. repeat split.
  - apply generateResponse_two_stage.
  - apply streamResponse_two_stage.
  - apply generateResponse_requests.
  - apply streamResponse_requests.
Qed.

(** C9. A response of the backend with [ok] set whose body is JSON that
    lacks the content path ([choices[0].message.content] for the cloud
    provider, [message.content] for the self-hosted one) makes
    [generateResponse] return the empty string: it does not throw, and
    returns neither [null] nor [undefined]. For the self-hosted provider
    this holds of the response to the first request and of the response
    to any attempt, the second one after a retry as well. *)
Theorem C9_missing_content_is_empty_string :
  forall (P : Platform) (apiKey baseUrl : jsstring) (c : config) (st : state)
         (resp : response) (w : world) (txt : jsstring) (data : jsval),
    ok resp = true ->
    text resp = Normal txt ->
    JSON_parse txt = Normal data ->
    (fetch (OpenAIProvider.request_sent apiKey (with_stream c false)) (env st)
     = (Normal resp, w) ->
     at_path data cloud_bulk_path = None ->
     fst (OpenAIProvider.generateResponse apiKey c st) = Normal (Str [])) /\
    (fetch (SelfHostedProvider.request_sent baseUrl
              (with_flags c false (think c))) (env st)
     = (Normal resp, w) ->
     at_path data selfhosted_bulk_path = None ->
     fst (SelfHostedProvider.generateResponse baseUrl c st) = Normal (Str []))
    /\
    (forall t,
       fetch (SelfHostedProvider.request_sent baseUrl (with_flags c false t))
         (env st)
       = (Normal resp, w) ->
       at_path data selfhosted_bulk_path = None ->
       fst (bulk_attempt baseUrl c t st) = Normal (Str [])).
Proof.
  intros P apiKey baseUrl c st resp w txt data Hok Htxt Hdata.
  assert (Ha : forall t,
    fetch (SelfHostedProvider.request_sent baseUrl (with_flags c false t))
      (env st) = (Normal resp, w) ->
    at_path data selfhosted_bulk_path = None ->
    fst (bulk_attempt baseUrl c t st) = Normal (Str [])).
  { intros t Hfetch Hpath.
    apply at_path_member in Hpath. unfold selfhosted_bulk_path in Hpath.
    cbn [fold_left] in Hpath. unfold bulk_attempt, bind.
    rewrite selfhosted_send_eq. cbv zeta. rewrite Hfetch. cbn [fst snd].
    rewrite Hok. unfold SelfHostedProvider.json, bind, lift.
    rewrite Htxt, Hdata. cbn [fst ret].
    rewrite !opt_member, Hpath. reflexivity. }
  repeat split.
  - intros Hfetch Hpath.
    unfold OpenAIProvider.generateResponse, bind.
    rewrite openai_send_eq. cbv zeta. rewrite Hfetch. cbn [fst snd].
    rewrite Hok. unfold OpenAIProvider.json, bind, lift.
    rewrite Htxt, Hdata. cbn [fst ret].
    apply at_path_member in Hpath. unfold cloud_bulk_path in Hpath.
    cbn [fold_left] in Hpath. rewrite !opt_member, Hpath. reflexivity.
  - intros Hfetch Hpath. rewrite generateResponse_two_stage.
    specialize (Ha (think c) Hfetch Hpath).
    unfold two_stage. destruct (think c); [|exact Ha].
    destruct (bulk_attempt baseUrl c true st) as [[v|e] st1];
      cbn [fst] in *; [exact Ha | discriminate].
  - exact Ha.
Qed.

(* ================================================================== *)
(** * The message adapter *)
(* ================================================================== *)

Section Adapter.

Lemma image_payload_strip (u p : jsstring) :
  image_payload u p ->
  u <> [] /\
  substring u match indexOf u 44 with Some i => S i | None => O end = p.
Proof.
  intros [mime data Hm | data Hne Hc].
  - split; [discriminate|].
    replace (lit "data:" ++ mime ++ lit ";base64," ++ data)
      with ((lit "data:" ++ mime ++ lit ";base64") ++ 44 :: data)
      by (now rewrite <- !app_assoc).
    rewrite indexOf_first; [apply skipn_past|].
    rewrite !in_app_iff. intros [H|[H|H]]; [|contradiction|];
      vm_compute in H; intuition discriminate.
  - split; [assumption|]. now rewrite indexOf_none.
Qed.

Lemma for_parts_spec (parts : list part) (payloads : list jsstring)
    (t : jsstring) (imgs : list jsstring) :
  Forall2 image_payload (image_urls parts) payloads ->
  SelfHostedProvider.for_parts parts t imgs =
  (t ++ List.concat (map (fun x => x ++ lit " ") (texts parts)),
   imgs ++ payloads).
Proof.
  revert payloads t imgs; induction parts as [|[text|u|ty] parts IH];
    intros payloads t imgs Hp;
    cbn [SelfHostedProvider.for_parts texts image_urls] in *.
  - inversion Hp. now rewrite !app_nil_r.
  - rewrite (IH payloads) by assumption. cbn [map List.concat].
    now rewrite <- !app_assoc.
  - inversion Hp as [|u' p us ps Hu Hrest]; subst.
    destruct (image_payload_strip u p Hu) as [Hne Hs].
    destruct u as [|c u]; [congruence|].
    rewrite Hs, (IH ps) by assumption. now rewrite <- app_assoc.
  - now apply IH.
Qed.

Lemma process_user_parts (msg : message) (parts : list part)
    (payloads : list jsstring) :
  role msg = lit "user" ->
  content msg = Parts parts ->
  Forall2 image_payload (image_urls parts) payloads ->
  SelfHostedProvider.process_message msg = adapted_parts parts payloads.
Proof.
  intros Hr Hb Hp. unfold SelfHostedProvider.process_message.
  rewrite Hb, Hr, eqb_refl, (for_parts_spec parts payloads) by assumption.
  cbn [app]. unfold adapted_parts. now rewrite trim_spaced.
Qed.

Lemma process_other (msg : message) :
  role msg <> lit "user" \/ (exists s, content msg = Text s) ->
  SelfHostedProvider.process_message msg = Passed msg.
Proof.
  unfold SelfHostedProvider.process_message. intros [Hr|[s Hs]].
  - destruct (content msg); [reflexivity|].
    destruct (JsString.eqb _ _) eqn:He; [|reflexivity].
    apply eqb_eq in He. contradiction.
  - now rewrite Hs.
Qed.

End Adapter.

(** C4. The adapter emits one message for each message, in order. For
    a user message whose content is a sequence of parts, where each
    image part carries a base64 payload, behind a
    [data:<mime>;base64,] prefix or raw, the message emitted has as
    content the text parts joined by spaces and trimmed and as images
    the payloads, prefix stripped; when there is no image it is the
    plain object of the keys [role] and [content], with no [images]
    key. A message that is not a user's, or whose content is a string,
    is passed as it is. *)
Theorem C4_message_adapter :
  forall (msgs : list message),
    List.length (SelfHostedProvider._processMessagesForOllama msgs)
    = List.length msgs /\
    (forall i msg parts payloads,
       nth_error msgs i = Some msg ->
       role msg = lit "user" ->
       content msg = Parts parts ->
       Forall2 image_payload (image_urls parts) payloads ->
       nth_error (SelfHostedProvider._processMessagesForOllama msgs) i
       = Some (adapted_parts parts payloads) /\
       (payloads = [] ->
        keys (adapted_parts parts payloads) = [lit "role"; lit "content"])) /\
    (forall i msg,
       nth_error msgs i = Some msg ->
       role msg <> lit "user" \/ (exists s, content msg = Text s) ->
       nth_error (SelfHostedProvider._processMessagesForOllama msgs) i
       = Some (Passed msg)).
Proof.
  intros msgs. unfold SelfHostedProvider._processMessagesForOllama.
  split; [apply length_map|]. split.
  - intros i msg parts payloads Hi Hr Hb Hp. split.
    + rewrite nth_error_map, Hi. cbn [option_map].
      now rewrite (process_user_parts msg parts payloads).
    + now intros ->.
  - intros i msg Hi Ho.
    rewrite nth_error_map, Hi. cbn [option_map].
    now rewrite process_other.
Qed.

(* ================================================================== *)
(** * The end-to-end scenario *)
(* ================================================================== *)

Section Scenario.
Context {P : Platform}.
Variable cb : config.
Hypothesis parse_a : JSON_parse line_a = Normal (content_of (lit "a")).
Hypothesis parse_b : JSON_parse line_b = Normal (content_of (lit "b")).
Hypothesis parse_done :
  JSON_parse line_done = Normal (Obj [(lit "done", Bool true)]).
Hypothesis onContent_normal : forall s, returns_normally (onContent cb s).
Hypothesis onDone_normal : returns_normally (onDone cb).

Lemma perform_normal (f : world -> completion unit * world) (st : state) :
  returns_normally f ->
  perform f st = (Normal tt, {| env := snd (f (env st)); trace := trace st |}).
Proof.
  intros Hf. unfold perform. specialize (Hf (env st)).
  destruct (f (env st)) as [r w]. cbn [fst snd] in *. now subst r.
Qed.

Lemma content_line (line s : jsstring) (rest : list jsstring) (st : state) :
  trim line = line -> line <> [] ->
  JSON_parse line = Normal (content_of s) ->
  for_lines SelfHostedProvider._parseStreamLine cb (line :: rest) st =
  for_lines SelfHostedProvider._parseStreamLine cb rest
    {| env := snd (onContent cb s (env st));
       trace := trace st ++ [OnContent s] |}.
Proof.
  intros Ht Hne Hp. cbn [for_lines]. rewrite Ht.
  destruct line as [|c line]; [congruence|].
  unfold bind at 1. rewrite selfhosted_parse_eq, Hp.
  unfold deliver, call_onContent, bind, get, emit, ret.
  cbn -[for_lines perform].
  rewrite perform_normal by apply onContent_normal.
  reflexivity.
Qed.

Lemma done_line (line : jsstring) (rest : list jsstring) (st : state) :
  trim line = line -> line <> [] ->
  JSON_parse line = Normal (Obj [(lit "done", Bool true)]) ->
  for_lines SelfHostedProvider._parseStreamLine cb (line :: rest) st =
  (Normal Return,
   {| env := snd (onDone cb (env st));
      trace := trace st
               ++ [OnDone; Log DEBUG (StreamEnd (lit "self-hosted DONE"))] |}).
Proof.
  intros Ht Hne Hp. cbn [for_lines]. rewrite Ht.
  destruct line as [|c line]; [congruence|].
  unfold bind at 1. rewrite selfhosted_parse_eq, Hp.
  unfold call_onDone, bind, get, log, emit, ret.
  cbn -[for_lines perform].
  rewrite perform_normal by apply onDone_normal.
  unfold record. cbn [env trace]. now rewrite <- app_assoc.
Qed.

(** The loop over the three lines returns at the third, whatever lines
    follow. *)
Lemma three_lines_return (more : list jsstring) (st : state) :
  exists w',
    for_lines SelfHostedProvider._parseStreamLine cb
      ([line_a; line_b; line_done] ++ more) st
    = (Normal Return,
       {| env := w';
          trace := trace st
                   ++ [OnContent (lit "a"); OnContent (lit "b"); OnDone;
                       Log DEBUG (StreamEnd (lit "self-hosted DONE"))] |}).
Proof.
  cbn [app].
  rewrite (content_line line_a (lit "a")), (content_line line_b (lit "b")),
    done_line;
    try assumption; try discriminate; try (vm_compute; reflexivity).
  eexists. cbn [env trace]. now rewrite <- !app_assoc.
Qed.

(** The text of the three lines, decoded, and its split. *)
Lemma three_lines_text :
  TextDecoder.decode TextDecoder.create three_lines
  = ({| TextDecoder.decoder := TextDecoder.utf8_init;
        TextDecoder.bom_seen := true |},
     line_a ++ [NL] ++ line_b ++ [NL] ++ line_done ++ [NL]).
Proof. vm_compute. reflexivity. Qed.

Lemma three_lines_split :
  split NL (line_a ++ [NL] ++ line_b ++ [NL] ++ line_done ++ [NL])
  = [line_a; line_b; line_done; []].
Proof. vm_compute. reflexivity. Qed.

Lemma scenario (rest : list byte) (f : option exn) (st : state) :
  exists w',
    _streamNDJSON SelfHostedProvider._parseStreamLine cb
      (streaming [three_lines ++ rest] f) st
    = (Normal tt,
       {| env := w';
          trace := trace st
                   ++ [Log DEBUG StreamStart; OnContent (lit "a");
                       OnContent (lit "b"); OnDone;
                       Log DEBUG (StreamEnd (lit "self-hosted DONE"))] |}).
Proof.
  unfold _streamNDJSON, try_catch.
  unfold bind at 1. unfold log at 1, emit at 1.
  unfold bind at 1. cbn [streaming body chunks failure for_await].
  rewrite decode_app, three_lines_text.
  destruct (TextDecoder.decode _ rest) as [d2 t2].
  rewrite app_nil_l, removelast_split_app, three_lines_split.
  unfold bind at 1. cbn [removelast].
  destruct (three_lines_return
              (removelast (split NL (last [line_a; line_b; line_done; []] []
                                     ++ t2)))
              (record (Log DEBUG StreamStart) st)) as [w' ->].
  eexists. unfold record. cbn [env trace ret].
  now rewrite <- !app_assoc.
Qed.

Lemma _streamNDJSON_body (parse : jsstring -> M jsval) (r1 r2 : response)
    (st : state) :
  body r1 = body r2 ->
  _streamNDJSON parse cb r1 st = _streamNDJSON parse cb r2 st.
Proof. unfold _streamNDJSON. now intros ->. Qed.

Lemma scenario_chunked (resp : response) (rest : list byte) (st : state) :
  List.concat (chunks (body resp)) = three_lines ++ rest ->
  exists w',
    _streamNDJSON SelfHostedProvider._parseStreamLine cb resp st
    = (Normal tt,
       {| env := w';
          trace := trace st
                   ++ [Log DEBUG StreamStart; OnContent (lit "a");
                       OnContent (lit "b"); OnDone;
                       Log DEBUG (StreamEnd (lit "self-hosted DONE"))] |}).
Proof.
  intros Hc.
  rewrite (_streamNDJSON_body _ resp
             (streaming (chunks (body resp)) (failure (body resp)))).
  - rewrite _streamNDJSON_whole, Hc. apply scenario.
  - now destruct resp as [o s t [cs f]].
Qed.

End Scenario.

(** C8. A body that consists of the three lines of the scenario, in
    whatever chunks it comes, makes the reducer with the self-hosted
    parser call [onContent] on [a], then [onContent] on [b], then
    [onDone], and no callback after that; and so does the whole of
    [streamResponse] when the backend answers the request with that
    body. The callbacks are taken to return. *)
(** C8. A body that starts with the three lines of the scenario, in
    whatever chunks it comes and whatever bytes follow the done line,
    makes the reducer with the self-hosted parser call [onContent] on
    [a], then [onContent] on [b], then [onDone], and no callback after
    that; and so does the whole of [streamResponse] when the backend
    answers the request with that body. The callbacks are taken to
    return. *)
Theorem C8_three_lines :
  forall (P : Platform) (baseUrl : jsstring) (c : config) (resp : response)
         (rest : list byte) (w w1 : world),
    List.concat (chunks (body resp)) = three_lines ++ rest ->
    JSON_parse line_a = Normal (content_of (lit "a")) ->
    JSON_parse line_b = Normal (content_of (lit "b")) ->
    JSON_parse line_done = Normal (Obj [(lit "done", Bool true)]) ->
    (forall s, returns_normally (onContent c s)) ->
    returns_normally (onDone c) ->
    callback_calls
      (events_of
         (run (_streamNDJSON SelfHostedProvider._parseStreamLine c resp) w))
    = [OnContent (lit "a"); OnContent (lit "b"); OnDone] /\
    (ok resp = true ->
     fetch (SelfHostedProvider.request_sent baseUrl
              (with_flags c true (think c))) w = (Normal resp, w1) ->
     callback_calls
       (events_of (run (SelfHostedProvider.streamResponse baseUrl c) w))
     = [OnContent (lit "a"); OnContent (lit "b"); OnDone]).
Proof.
  intros P baseUrl c resp rest w w1 Hc Ha Hb Hd HonC HonD.
  pose proof (scenario_chunked c Ha Hb Hd HonC HonD resp rest) as Hrun.
  split.
  - unfold run. destruct (Hrun {| env := w; trace := [] |} Hc) as [w' ->].
    reflexivity.
  - intros Hok Hfetch. unfold run.
    rewrite streamResponse_two_stage.
    assert (Hatt : exists st',
      stream_attempt baseUrl c (think c) {| env := w; trace := [] |}
      = (Normal tt, st') /\
      callback_calls (trace st')
      = [OnContent (lit "a"); OnContent (lit "b"); OnDone]).
    { unfold stream_attempt, bind. rewrite selfhosted_send_eq. cbv zeta.
      cbn [env]. rewrite Hfetch. cbn [fst snd]. rewrite Hok.
      match goal with |- context [_streamNDJSON _ _ _ ?s] =>
        destruct (Hrun s Hc) as [w' ->] end.
      eexists. split; reflexivity. }
    destruct Hatt as (st' & Hatt & Hcalls).
    unfold two_stage. destruct (think c); now rewrite Hatt.
Qed.

(* ================================================================== *)
(** * Runs on the scripted platform *)
(* ================================================================== *)

(** C1 as stated fails: with an [onDone] that throws, the call at the
    normal end of an empty body throws into the catch-all, which calls
    [onDone] again. *)
Lemma C1_onDone_called_twice :
  done_calls
    (events_of
       (run (_streamNDJSON SelfHostedProvider._parseStreamLine
               Scripted.request_failing_onDone (streaming [] None)) []))
  = 2%nat.
Proof. reflexivity. Qed.

(** The three paths with callbacks that return: a body that ends, a
    body with a done line, a body whose transfer breaks. *)
Example onDone_on_three_paths :
  map (fun resp =>
         done_calls
           (events_of
              (run (_streamNDJSON SelfHostedProvider._parseStreamLine
                      (Scripted.request_of [] false) resp) [])))
    [streaming [qbytes "{'message':{'content':'a'}}"] None;
     streaming [three_lines] None;
     streaming [qbytes "{'message':{'content':'a'}}"]
       (Some (JsError (lit "FetchError") (lit "aborted")))]
  = [1; 1; 1]%nat.
Proof. reflexivity. Qed.

(** C1 at work on the body of the scenario, received in two chunks. *)
Lemma C1_witness :
  returns_normally (onDone (Scripted.request_of [] false)) /\
  exists st',
    _streamNDJSON SelfHostedProvider._parseStreamLine
      (Scripted.request_of [] false) Scripted.streamed_in_two
      (Scripted.start [])
    = (Normal tt, st') /\
    done_calls (trace st') = 1%nat.
Proof.
  assert (H : returns_normally (onDone (Scripted.request_of [] false)))
    by (intros w; reflexivity).
  split; [exact H|].
  exact (proj1 (proj2 (C1_onDone_once_when_it_returns Scripted.platform
           (Scripted.request_of [] false) Scripted.streamed_in_two
           (Scripted.start []) H))).
Defined.

(** C3 as stated fails: a refusal whose body is the plain text
    [does not support thinking] matches the pattern, and yet the error
    is thrown again after a single request. *)
Lemma C3_text_refusal_is_not_retried :
  result_of
    (run (bulk_attempt (lit "http://h") (Scripted.request_of [] true) true)
       Scripted.refusing_in_text)
  = Throw (HttpError 400 (Str Scripted.refusal)) /\
  body_matches (HttpError 400 (Str Scripted.refusal)) = true /\
  result_of
    (run (SelfHostedProvider.generateResponse (lit "http://h")
            (Scripted.request_of [] true))
       Scripted.refusing_in_text)
  = Throw (HttpError 400 (Str Scripted.refusal)) /\
  List.length
    (requests
       (events_of
          (run (SelfHostedProvider.generateResponse (lit "http://h")
                  (Scripted.request_of [] true))
             Scripted.refusing_in_text)))
  = 1%nat.
Proof. vm_compute. repeat split. Qed.

(** The retry at work: a body with the [error] property is followed by
    a second request, sent with [think: false]. *)
Example retry_example :
  result_of
    (run (SelfHostedProvider.generateResponse (lit "http://h")
            (Scripted.request_of [] true))
       [Scripted.reply 400
          (qlit "{'error':'llama3 does not support thinking'}");
        Scripted.reply 200 (qlit "{'message':{'content':'hello'}}")])
  = Normal (Str (lit "hello")) /\
  map (fun r => payload_think (Request.body r))
    (requests
       (events_of
          (run (SelfHostedProvider.generateResponse (lit "http://h")
                  (Scripted.request_of [] true))
             [Scripted.reply 400
                (qlit "{'error':'llama3 does not support thinking'}");
              Scripted.reply 200 (qlit "{'message':{'content':'hello'}}")])))
  = [Some true; Some false].
Proof. split; reflexivity. Qed.

(** C4 at work on a message of two texts and a picture. *)
Lemma C4_witness :
  nth_error (SelfHostedProvider._processMessagesForOllama [Scripted.picture]) 0
  = Some (WithImages (lit "user") (lit "what is this?") [lit "QUJD"]).
Proof.
  assert (Hp : Forall2 image_payload
                 (image_urls [TextPart (lit "what is");
                              ImagePart (lit "data:image/png;base64,QUJD");
                              TextPart (lit "this? ")])
                 [lit "QUJD"]).
  { constructor; [|constructor].
    apply (payload_data_url (lit "image/png") (lit "QUJD")).
    vm_compute. intuition discriminate. }
  exact (proj1 (proj1 (proj2 (C4_message_adapter [Scripted.picture]))
           0%nat Scripted.picture _ _ eq_refl eq_refl eq_refl Hp)).
Defined.

(** C5 at work on a line that is not JSON. *)
Lemma C5_witness :
  fst (OpenAIProvider._parseStreamLine (P := Scripted.platform)
         (lit "data: {oops") (Scripted.start []))
  = Normal (Obj []) /\
  fst (SelfHostedProvider._parseStreamLine (P := Scripted.platform)
         (lit "{oops") (Scripted.start []))
  = Normal (Obj []).
Proof.
  split.
  - refine (proj1 (proj2 (proj2 (C5_parseLine_never_throws Scripted.platform
             (lit "data: {oops") (Scripted.start []))))
             (JsError (lit "SyntaxError") (lit "Unexpected token")) _ _).
    + discriminate.
    + reflexivity.
  - refine (proj2 (proj2 (proj2 (C5_parseLine_never_throws Scripted.platform
             (lit "{oops") (Scripted.start []))))
             (JsError (lit "SyntaxError") (lit "Unexpected token")) _).
    reflexivity.
Defined.

(** C6 at work on the done line of the self-hosted backend. *)
Lemma C6_witness :
  exists r,
    SelfHostedProvider._parseStreamLine (P := Scripted.platform) line_done
      (Scripted.start [])
    = (Normal r, Scripted.start []) /\
    member r (lit "isDone") = Bool true.
Proof.
  exact (proj2 (C6_done_lines Scripted.platform (Scripted.start []))
           line_done (Obj [(lit "done", Bool true)]) eq_refl eq_refl).
Defined.

(** C7 at work on a line without the prefix and on a line with no
    choice. *)
Lemma C7_witness :
  OpenAIProvider._parseStreamLine (P := Scripted.platform)
    (lit "event: ping") (Scripted.start [])
  = (Normal (Obj []), Scripted.start []) /\
  exists r st',
    OpenAIProvider._parseStreamLine (P := Scripted.platform)
      (qlit "data: {'choices':[]}") (Scripted.start [])
    = (Normal r, st') /\
    (r = Obj [] \/ r = Obj [(lit "content", Undefined)]) /\
    is_string (member r (lit "content")) = None /\
    truthy (member r (lit "isDone")) = false.
Proof.
  split.
  - exact (proj1 (C7_cloud_lines_without_content Scripted.platform
             (lit "event: ping") (Scripted.start [])) eq_refl).
  - refine (proj2 (C7_cloud_lines_without_content Scripted.platform
             (qlit "data: {'choices':[]}") (Scripted.start []))
             (Obj [(lit "choices", Arr [])]) eq_refl _ eq_refl eq_refl).
    discriminate.
Defined.

(** C8 at work on the body received in two chunks, with a line after
    the done line. *)
Lemma C8_witness :
  callback_calls
    (events_of
       (run (_streamNDJSON SelfHostedProvider._parseStreamLine
               (Scripted.request_of [] false) Scripted.streamed_in_two) []))
  = [OnContent (lit "a"); OnContent (lit "b"); OnDone] /\
  callback_calls
    (events_of
       (run (SelfHostedProvider.streamResponse (lit "http://h")
               (Scripted.request_of [] false))
          [Scripted.streamed_in_two]))
  = [OnContent (lit "a"); OnContent (lit "b"); OnDone].
Proof.
  split.
  - exact (proj1 (C8_three_lines Scripted.platform (lit "http://h")
                    (Scripted.request_of [] false) Scripted.streamed_in_two
                    Scripted.late [] []
                    eq_refl eq_refl eq_refl eq_refl
                    (fun _ _ => eq_refl) (fun _ => eq_refl))).
  - exact (proj2 (C8_three_lines Scripted.platform (lit "http://h")
                    (Scripted.request_of [] false) Scripted.streamed_in_two
                    Scripted.late [Scripted.streamed_in_two] []
                    eq_refl eq_refl eq_refl eq_refl
                    (fun _ _ => eq_refl) (fun _ => eq_refl))
             eq_refl eq_refl).
Defined.

(** C9 at work on a body with no choice and no message. *)
Lemma C9_witness :
  fst (OpenAIProvider.generateResponse (lit "sk-test")
         (Scripted.request_of [] false)
         (Scripted.start [Scripted.reply 200 (qlit "{'choices':[]}")]))
  = Normal (Str []) /\
  fst (SelfHostedProvider.generateResponse (lit "http://h")
         (Scripted.request_of [] true)
         (Scripted.start [Scripted.reply 200 (qlit "{'choices':[]}")]))
  = Normal (Str []).
Proof.
  pose proof (C9_missing_content_is_empty_string Scripted.platform
                (lit "sk-test") (lit "http://h")
                (Scripted.request_of [] false)
                (Scripted.start [Scripted.reply 200 (qlit "{'choices':[]}")])
                (Scripted.reply 200 (qlit "{'choices':[]}")) []
                (qlit "{'choices':[]}") (Obj [(lit "choices", Arr [])])
                eq_refl eq_refl eq_refl) as (H1 & _ & _).
  pose proof (C9_missing_content_is_empty_string Scripted.platform
                (lit "sk-test") (lit "http://h")
                (Scripted.request_of [] true)
                (Scripted.start [Scripted.reply 200 (qlit "{'choices':[]}")])
                (Scripted.reply 200 (qlit "{'choices':[]}")) []
                (qlit "{'choices':[]}") (Obj [(lit "choices", Arr [])])
                eq_refl eq_refl eq_refl) as (_ & H2 & _).
  split; [exact (H1 eq_refl eq_refl) | exact (H2 eq_refl eq_refl)].
Defined.

(** The letter e with an acute accent, two bytes in UTF-8, cut between
    its bytes. *)
Example multibyte_cut :
  content_increments
    (events_of
       (run (_streamNDJSON SelfHostedProvider._parseStreamLine
               (Scripted.request_of [] false)
               (streaming
                  [qbytes "{'message':{'content':'" ++ [xc3];
                   [xa9] ++ qbytes "'}}" ++ [x0a]] None)) []))
  = [[233]].
Proof. reflexivity. Qed.

(** The decoder on ill-formed input, as the Encoding Standard has it:
    an overlong form, an encoded surrogate and a code point past
    U+10FFFF give one U+FFFD for each byte; a sequence cut short by an
    ASCII byte gives one U+FFFD and the byte. *)
Example decoder_on_ill_formed_input :
  map (fun bs => snd (TextDecoder.decode TextDecoder.create bs))
    [[xc0; x80]; [xed; xa0; x80]; [xf4; x90; x80; x80]; [xe2; x82; x41]]
  = [[65533; 65533]; [65533; 65533; 65533];
     [65533; 65533; 65533; 65533]; [65533; 65]].
Proof. reflexivity. Qed.

(** [split] and [trim] on small strings. *)
Example split_and_trim :
  split NL (lit "a" ++ [NL; NL] ++ lit "b") = [lit "a"; []; lit "b"] /\
  split NL (lit "a" ++ [NL]) = [lit "a"; []] /\
  trim ([13; 32] ++ lit "a b" ++ [9; 13]) = lit "a b".
Proof. repeat split. Qed.

(* ================================================================== *)
(** * More on the reducer *)
(* ================================================================== *)

Section TrimTwice.

Lemma trimStart_head (s : jsstring) :
  match trimStart s with
  | [] => True
  | c :: _ => is_space c = false
  end.
Proof.
  induction s as [|c s IH]; simpl; [exact I|].
  destruct (is_space c) eqn:Hc; [exact IH | exact Hc].
Qed.

Lemma trimStart_fixed (s : jsstring) :
  match s with [] => True | c :: _ => is_space c = false end ->
  trimStart s = s.
Proof. destruct s as [|c s]; simpl; [reflexivity|]. now intros ->. Qed.

Lemma trimStart_twice (s : jsstring) : trimStart (trimStart s) = trimStart s.
Proof. apply trimStart_fixed, trimStart_head. Qed.

Lemma trimStart_last (s : jsstring) (c : code_unit) :
  is_space c = false -> exists r, trimStart (s ++ [c]) = r ++ [c].
Proof.
  intros Hc. induction s as [|d s IH]; simpl.
  - rewrite Hc. now exists [].
  - destruct (is_space d); [exact IH|]. now exists (d :: s).
Qed.

Lemma trimEnd_head (s : jsstring) (c : code_unit) :
  is_space c = false -> exists r, trimEnd (c :: s) = c :: r.
Proof.
  intros Hc. unfold trimEnd. simpl rev.
  destruct (trimStart_last (rev s) c Hc) as [r ->].
  exists (rev r). now rewrite rev_app_distr.
Qed.

Lemma trimEnd_twice (s : jsstring) : trimEnd (trimEnd s) = trimEnd s.
Proof. unfold trimEnd. now rewrite rev_involutive, trimStart_twice. Qed.

(** Trimming a trimmed string changes nothing. *)
Lemma trim_twice (s : jsstring) : trim (trim s) = trim s.
Proof.
  unfold trim at 1.
  assert (H : trimStart (trim s) = trim s).
  { apply trimStart_fixed. unfold trim.
    pose proof (trimStart_head s) as Hh.
    destruct (trimStart s) as [|c r]; [exact I|].
    destruct (trimEnd_head r c Hh) as [r' ->]. exact Hh. }
  rewrite H. unfold trim. apply trimEnd_twice.
Qed.

End TrimTwice.

Section Blank.
Context {P : Platform}.
Variable parse : jsstring -> M jsval.
Variable cb : config.

Lemma for_lines_nonblank (lines : list jsstring) (st : state) :
  for_lines parse cb lines st = for_lines parse cb (nonblank lines) st.
Proof.
  revert st; induction lines as [|raw lines IH]; intros st; [reflexivity|].
  unfold nonblank. cbn [map filter for_lines].
  destruct (trim raw) as [|c line] eqn:Ht; [apply IH|].
  cbn [for_lines]. rewrite <- Ht, trim_twice, Ht.
  apply bind_ext_r. intros result st1.
  apply bind_ext_r. intros isDone st2.
  destruct (truthy isDone); [reflexivity|].
  apply bind_ext_r. intros _ st3. apply IH.
Qed.

End Blank.

(** X1. The loop over the lines of a chunk works on the trimmed lines
    that are not empty, and on nothing else: it is the loop over those;
    so two arrays of lines that differ in the white space around their
    lines (a carriage return before the line feed) and in their blank
    lines (the ones between two server-sent events) make the same calls
    of the parser and of the callbacks, and end in the same state. *)
Theorem X1_blank_lines_and_padding_are_skipped :
  forall (P : Platform) (parse : jsstring -> M jsval) (cb : config)
         (lines : list jsstring) (st : state),
    for_lines parse cb lines st = for_lines parse cb (nonblank lines) st /\
    (forall lines',
       nonblank lines' = nonblank lines ->
       for_lines parse cb lines' st = for_lines parse cb lines st).
Proof.
  intros P parse cb lines st. split; [apply for_lines_nonblank|].
  intros lines' H.
  now rewrite (for_lines_nonblank _ _ lines'), H, <- for_lines_nonblank.
Qed.

Section AfterReturn.
Context {P : Platform}.
Variable parse : jsstring -> M jsval.
Variable cb : config.

Lemma for_await_returned (cs more : list (list byte)) (f f' : option exn)
    (d : TextDecoder.t) (l : jsstring) (st st' : state) :
  for_await parse cb cs f d l st = (Normal Return, st') ->
  for_await parse cb (cs ++ more) f' d l st = (Normal Return, st').
Proof.
  revert d l st; induction cs as [|c cs IH]; intros d l st.
  - simpl. destruct f; discriminate.
  - simpl app. cbn [for_await].
    destruct (TextDecoder.decode d c) as [d1 t1]. unfold bind.
    destruct (for_lines parse cb _ st) as [[[[]|]|e] st1]; auto.
Qed.

Lemma _streamNDJSON_returned (cs more : list (list byte))
    (f f' : option exn) (st st' : state) :
  for_await parse cb cs f TextDecoder.create []
    (record (Log DEBUG StreamStart) st) = (Normal Return, st') ->
  _streamNDJSON parse cb (streaming (cs ++ more) f') st = (Normal tt, st') /\
  _streamNDJSON parse cb (streaming cs f) st = (Normal tt, st').
Proof.
  intros H. pose proof (for_await_returned cs more f f' _ _ _ _ H) as H'.
  unfold _streamNDJSON, try_catch, streaming.
  cbn [body chunks failure]. unfold bind, log, emit.
  now rewrite H, H'.
Qed.

End AfterReturn.

(** X2. Once a line of the body is a done line the loop over the chunks
    returns, and what follows in the body is never read: with more
    chunks after those read, and with a transfer that breaks after them,
    the loop returns as it did, in the same state; and so does the
    reducer, which then has called [onDone] from inside the loop and
    does not flush the leftover. *)
Theorem X2_nothing_is_read_after_a_done_line :
  forall (P : Platform) (parse : jsstring -> M jsval) (cb : config)
         (cs more : list (list byte)) (f f' : option exn),
    (forall d l st st',
       for_await parse cb cs f d l st = (Normal Return, st') ->
       for_await parse cb (cs ++ more) f' d l st = (Normal Return, st')) /\
    (forall st st',
       for_await parse cb cs f TextDecoder.create []
         (record (Log DEBUG StreamStart) st) = (Normal Return, st') ->
       _streamNDJSON parse cb (streaming (cs ++ more) f') st
       = (Normal tt, st') /\
       _streamNDJSON parse cb (streaming cs f) st = (Normal tt, st')).
Proof.
  intros P parse cb cs more f f'. split.
  - intros d l st st' H. now apply for_await_returned with (f := f).
  - intros st st' H. now apply _streamNDJSON_returned.
Qed.

Section FinalNewline.
Context {P : Platform}.
Variable parse : jsstring -> M jsval.
Variable cb : config.

Lemma decode_newline (d : TextDecoder.t) :
  idle d = true ->
  snd (TextDecoder.decode d [x0a]) = [NL].
Proof.
  unfold idle. intros H. cbn [TextDecoder.decode].
  unfold TextDecoder.push, TextDecoder.utf8_handler. rewrite H.
  change (Byte.to_N x0a) with 10. cbn.
  now destruct (TextDecoder.bom_seen d).
Qed.

Lemma split_newline (s : jsstring) :
  ~ In NL s -> split NL (s ++ [NL]) = [s; []].
Proof.
  induction s as [|c s IH]; intros Hn; [reflexivity|].
  simpl. destruct (c =? NL) eqn:Hc.
  - apply N.eqb_eq in Hc. exfalso. apply Hn. now left.
  - rewrite IH; [reflexivity|]. intros Hin. apply Hn. now right.
Qed.

Lemma same_outcome_refl {A} (r : completion A * state) : same_outcome r r.
Proof. now repeat split. Qed.

Lemma same_outcome_logged {A} (r : completion A) (l l' : level)
    (m m' : entry) (st : state) :
  same_outcome (r, record (Log l m) st) (r, record (Log l' m') st).
Proof.
  repeat split. cbn [snd]. unfold callback_calls, record. cbn [trace].
  now rewrite !filter_app.
Qed.

(** The last line of a chunk, with and without its line feed: the loop
    over the lines works on it in the first case, the flush of the
    leftover in the second. *)
Lemma final_newline_one_chunk (bs : list byte) (st : state) :
  idle (fst (TextDecoder.decode TextDecoder.create bs)) = true ->
  same_outcome (_streamNDJSON parse cb (streaming [bs ++ [x0a]] None) st)
               (_streamNDJSON parse cb (streaming [bs] None) st).
Proof.
  intros Hidle.
  unfold _streamNDJSON, try_catch.
  cbn [streaming body chunks failure for_await].
  rewrite decode_app.
  destruct (TextDecoder.decode TextDecoder.create bs) as [d1 t1].
  cbn [fst] in Hidle. pose proof (decode_newline d1 Hidle) as Hnl.
  destruct (TextDecoder.decode d1 [x0a]) as [d2 t2]. cbn [snd] in Hnl.
  subst t2. rewrite !app_nil_l.
  rewrite (removelast_split_app NL t1 [NL]), (last_split_app NL t1 [NL]).
  rewrite split_newline by apply last_split_no_sep.
  cbn [removelast last].
  unfold bind, log, emit.
  generalize (record (Log DEBUG StreamStart) st). clear st. intros st.
  rewrite for_lines_app. unfold bind.
  destruct (for_lines parse cb _ st) as [[[[]|]|e] st1];
    try apply same_outcome_refl.
  cbn [for_lines]. unfold ret. cbv beta iota.
  destruct (trim (last (split NL t1) [])) as [|c line].
  { cbv beta iota. apply same_outcome_refl. }
  unfold bind.
  destruct (parse (c :: line) st1) as [[result|e] st2];
    try apply same_outcome_refl.
  rewrite !get_eq.
  destruct (nullish result) eqn:Hn; try apply same_outcome_refl.
  destruct (truthy (member result (lit "isDone"))); cbn [negb].
  - destruct (call_onDone cb st2) as [[[]|e] st3];
      [|apply same_outcome_refl].
    rewrite get_eq, Hn. apply same_outcome_logged.
  - destruct (deliver cb result st2) as [[[]|e] st3];
      cbv beta iota; apply same_outcome_refl.
Qed.

End FinalNewline.

(** X3. The line feed after the last line of a body is optional: a body
    that ends without it, no multi-byte character being cut at its end,
    makes the reducer end as the same body with the line feed does, with
    the same completion, the same world and the same calls of the
    callbacks, whatever the parser and the callbacks do. Only the
    message for the logger differs when the last line is a done
    line. *)
Theorem X3_the_final_line_feed_is_optional :
  forall (P : Platform) (parse : jsstring -> M jsval) (cb : config)
         (cs : list (list byte)) (st : state),
    idle (fst (TextDecoder.decode TextDecoder.create (List.concat cs)))
    = true ->
    same_outcome
      (_streamNDJSON parse cb (streaming (cs ++ [[x0a]]) None) st)
      (_streamNDJSON parse cb (streaming cs None) st).
Proof.
  intros P parse cb cs st Hidle.
  rewrite (_streamNDJSON_whole parse cb (cs ++ [[x0a]])),
    (_streamNDJSON_whole parse cb cs).
  rewrite concat_app. cbn [List.concat]. rewrite app_nil_r.
  now apply final_newline_one_chunk.
Qed.

(* ================================================================== *)
(** * What a line delivers *)
(* ================================================================== *)

Section Delivered.
Context {P : Platform}.
Variable cb : config.

Lemma at_path_found (path : list jsstring) (v x : jsval) :
  at_path v path = Some x -> fold_left member path v = x.
Proof.
  revert v; induction path as [|k path IH]; intros v; simpl.
  - congruence.
  - unfold member at 2. destruct (own v k) as [y|]; [apply IH | discriminate].
Qed.

Lemma own_nullish (v : jsval) (k : jsstring) (x : jsval) :
  own v k = Some x -> nullish v = false.
Proof. now destruct v. Qed.

Lemma startsWith_nonempty (s : jsstring) :
  startsWith s (lit "data: ") = true -> s <> [].
Proof. now destruct s. Qed.

(** The delivery of an increment that has the two properties. *)
Lemma deliver_both (content thinking : jsval) (st : state) :
  deliver cb (Obj [(lit "content", content); (lit "thinking", thinking)]) st =
  (match content with Str s => call_onContent cb s | _ => ret tt end ;;
   match thinking with Str s => call_onThinking cb s | _ => ret tt end) st.
Proof.
  unfold deliver. unfold bind at 1. rewrite get_eq. cbn [nullish].
  change (member (Obj [(lit "content", content); (lit "thinking", thinking)])
            (lit "content")) with content.
  unfold bind at 1 3.
  destruct content; cbn [is_string];
    match goal with
    | |- context [call_onContent cb ?s st] =>
        destruct (call_onContent cb s st) as [[[]|e] st1]
    | |- _ => unfold ret at 1 3
    end; try reflexivity;
    unfold bind; rewrite get_eq; cbn [nullish];
    change (member (Obj [(lit "content", _); (lit "thinking", thinking)])
              (lit "thinking")) with thinking;
    now destruct thinking.
Qed.

(** The delivery of an increment that has a content alone. *)
Lemma deliver_content (content : jsval) (st : state) :
  deliver cb (Obj [(lit "content", content)]) st =
  match content with Str s => call_onContent cb s | _ => ret tt end st.
Proof.
  unfold deliver. unfold bind at 1. rewrite get_eq. cbn [nullish].
  change (member (Obj [(lit "content", content)]) (lit "content"))
    with content.
  unfold bind.
  destruct content; cbn [is_string];
    match goal with
    | |- context [call_onContent cb ?s st] =>
        destruct (call_onContent cb s st) as [[[]|e] st1]
    | |- _ => unfold ret at 1
    end; try reflexivity.
Qed.

End Delivered.

(** X4. A line of the cloud backend that carries a delta: for a line
    that, trimmed, is [data: ] followed by JSON with a value at
    [choices[0].delta.content], the parser returns that value as the
    content of the increment and logs nothing; the loop over the lines
    then calls [onContent] on it when it is a string, once and before
    it goes on to the next line, and calls nothing when it is not one
    (the [null] of a delta that opens a message). *)
Theorem X4_cloud_delta_is_delivered :
  forall (P : Platform) (cb : config) (raw : jsstring) (rest : list jsstring)
         (st : state) (obj v : jsval),
    startsWith (trim raw) (lit "data: ") = true ->
    trim raw <> lit "data: [DONE]" ->
    JSON_parse (substring (trim raw) 6) = Normal obj ->
    at_path obj cloud_delta_path = Some v ->
    OpenAIProvider._parseStreamLine (trim raw) st
    = (Normal (Obj [(lit "content", v)]), st) /\
    for_lines OpenAIProvider._parseStreamLine cb (raw :: rest) st
    = (match v with
       | Str s => call_onContent cb s
       | _ => ret tt
       end ;;
       for_lines OpenAIProvider._parseStreamLine cb rest) st.
Proof.
  intros P cb raw rest st obj v Hp Hs Hj Hv.
  assert (Hparse : OpenAIProvider._parseStreamLine (trim raw) st
                   = (Normal (Obj [(lit "content", v)]), st)).
  { rewrite openai_parse_eq, Hp.
    destruct (JsString.eqb _ _) eqn:He; [now apply eqb_eq in He|].
    cbn [negb]. cbv zeta. rewrite Hj.
    pose proof (at_path_found _ _ _ Hv) as Hf.
    unfold cloud_delta_path in Hf, Hv. cbn [fold_left] in Hf.
    cbn [at_path] in Hv.
    destruct (own obj (lit "choices")) as [x1|] eqn:H1; [|discriminate].
    rewrite (own_nullish _ _ _ H1).
    destruct (own x1 (lit "0")) as [x2|] eqn:H2; [|discriminate].
    destruct (own x2 (lit "delta")) as [x3|] eqn:H3; [|discriminate].
    destruct (own x3 (lit "content")) as [x4|] eqn:H4; [|discriminate].
    assert (Hd : member (member (member obj (lit "choices")) (lit "0"))
                   (lit "delta") = x3).
    { unfold member. now rewrite H1, H2, H3. }
    rewrite Hd in *. unfold nullish_or.
    rewrite (own_nullish _ _ _ H4). now rewrite Hf. }
  split; [exact Hparse|].
  cbn [for_lines]. pose proof (startsWith_nonempty _ Hp) as Hne.
  destruct (trim raw) as [|c line] eqn:Ht; [congruence|].
  unfold bind at 1. rewrite Hparse.
  unfold bind at 1. rewrite get_eq. cbn [nullish].
  change (truthy (member (Obj [(lit "content", v)]) (lit "isDone")))
    with false. cbv iota.
  unfold bind at 1 2. now rewrite deliver_content.
Qed.

(** X5. A line of the self-hosted backend that carries a message: for a
    line whose JSON is an object with no [done: true], the loop over the
    lines calls [onContent] on [message.content] when it is a string,
    then [onThinking] on [message.thinking] when it is a string, in this
    order, and goes on to the next line; a value that is not a string (a
    number, [null], a missing property, a missing [message]) is not
    delivered. *)
Theorem X5_selfhosted_message_is_delivered :
  forall (P : Platform) (cb : config) (raw : jsstring) (rest : list jsstring)
         (st : state) (obj : jsval),
    trim raw <> [] ->
    JSON_parse (trim raw) = Normal obj ->
    nullish obj = false ->
    member obj (lit "done") <> Bool true ->
    for_lines SelfHostedProvider._parseStreamLine cb (raw :: rest) st
    = (match member (nullish_or (member obj (lit "message")) (Obj []))
               (lit "content") with
       | Str s => call_onContent cb s
       | _ => ret tt
       end ;;
       match member (nullish_or (member obj (lit "message")) (Obj []))
               (lit "thinking") with
       | Str s => call_onThinking cb s
       | _ => ret tt
       end ;;
       for_lines SelfHostedProvider._parseStreamLine cb rest) st.
Proof.
  intros P cb raw rest st obj Hne Hj Hn Hd.
  cbn [for_lines]. destruct (trim raw) as [|c line] eqn:Ht; [congruence|].
  unfold bind at 1. rewrite selfhosted_parse_eq, Hj, Hn.
  destruct (is_true (member obj (lit "done"))) eqn:Hdone.
  { apply is_true_spec in Hdone. contradiction. }
  cbv zeta. unfold bind at 1. rewrite get_eq. cbn [nullish].
  match goal with |- context [truthy (member (Obj ?ps) (lit "isDone"))] =>
    change (truthy (member (Obj ps) (lit "isDone"))) with false end.
  cbv iota. unfold bind at 1. rewrite deliver_both.
  unfold bind.
  destruct (match member _ (lit "content") with
            | Str s => call_onContent cb s | _ => ret tt end st)
    as [[[]|e] st1]; reflexivity.
Qed.

(* ================================================================== *)
(** * More on the requests and on their failures *)
(* ================================================================== *)

Section MoreRequests.
Context {P : Platform}.

Lemma openai_send_requests (apiKey : jsstring) (c : config) (st : state) :
  requests (trace (snd (OpenAIProvider._sendRequestInternal apiKey c st)))
  = requests (trace st) ++ [OpenAIProvider.request_sent apiKey c].
Proof.
  rewrite openai_send_eq. cbv zeta.
  assert (H : forall w r,
    requests (trace {| env := w;
                 trace := trace (record (Fetch r)
                   (record (Log DEBUG (RequestBody (Request.body r)))
                     (record (Log INFO (Post (stream c) (Request.url r)))
                        st))) |})
    = requests (trace st) ++ [r]).
  { intros w r. cbn [trace record]. rewrite !requests_app. simpl.
    now rewrite !app_nil_r. }
  destruct (fst (fetch _ _)) as [resp|e]; [|apply H].
  destruct (ok resp); [apply H|].
  destruct (text resp); apply H.
Qed.

Lemma openai_json_state (resp : response) (st : state) :
  snd (OpenAIProvider.json resp st) = st.
Proof.
  unfold OpenAIProvider.json, bind, lift.
  destruct (text resp); reflexivity.
Qed.

Lemma reduce_requests (parse : jsstring -> M jsval) (cb : config)
    (resp : response) (st : state) :
  (forall line st0,
     kept is_Fetch (snd (parse line st0)) = kept is_Fetch st0) ->
  requests (trace (snd (_streamNDJSON parse cb resp st)))
  = requests (trace st).
Proof.
  intros Hparse.
  rewrite <- (requests_kept (trace st)), <- (requests_kept (trace (snd _))).
  f_equal. apply (kept_streamNDJSON is_Fetch); try reflexivity;
    [assumption | now left].
Qed.

Section SelfHostedSendTrace.
Variable keep : event -> bool.
Hypothesis keep_log : forall l m, keep (Log l m) = false.
Hypothesis keep_fetch : forall r, keep (Fetch r) = false.

Lemma selfhosted_send_kept (baseUrl : jsstring) (c : config) (st : state) :
  kept keep (snd (SelfHostedProvider._sendRequestInternal baseUrl c st))
  = kept keep st.
Proof.
  rewrite selfhosted_send_eq. cbv zeta.
  assert (H : forall w r,
    kept keep {| env := w;
                 trace := trace (record (Fetch r)
                   (record (Log DEBUG (RequestBody (Request.body r)))
                     (record (Log INFO (Post (stream c) (Request.url r)))
                        (record (Log DEBUG BuiltOllamaPayload) st)))) |}
    = kept keep st).
  { intros w r.
    now rewrite (kept_env keep), (kept_fetch keep), !(kept_log keep). }
  destruct (fst (fetch _ _)) as [resp|e]; [|apply H].
  destruct (ok resp); [apply H|].
  destruct (text resp); [|apply H].
  cbn [snd]. rewrite (kept_log keep) by assumption. apply H.
Qed.

End SelfHostedSendTrace.
End MoreRequests.

(** X6. The cloud provider sends one request for each operation, and
    one only, whatever the backend answers and whatever the callbacks
    do: to [/chat/completions] under the base URL, with the key as a
    bearer token, and with a body of the model, the messages as the
    caller gave them, the temperature, the token limit and the [stream]
    flag of the operation ([false] for [generateResponse], [true] for
    [streamResponse]); the [think] flag is not sent. *)
Theorem X6_cloud_sends_one_request :
  forall (P : Platform) (apiKey : jsstring) (c : config) (st : state),
    requests (trace (snd (OpenAIProvider.generateResponse apiKey c st)))
    = requests (trace st)
      ++ [OpenAIProvider.request_sent apiKey (with_stream c false)] /\
    requests (trace (snd (OpenAIProvider.streamResponse apiKey c st)))
    = requests (trace st)
      ++ [OpenAIProvider.request_sent apiKey (with_stream c true)] /\
    (forall s,
       OpenAIProvider.request_sent apiKey (with_stream c s)
       = {| Request.url := lit "https://api.openai.com/v1/chat/completions";
            Request.headers :=
              [(lit "Content-Type", lit "application/json");
               (lit "Authorization", lit "Bearer " ++ apiKey)];
            Request.body :=
              OpenAIPayload (model c) (messages c) (temperature c) s
                (maxTokens c) |}).
Proof.
  intros P apiKey c st. repeat split.
  - unfold OpenAIProvider.generateResponse, bind.
    pose proof (openai_send_requests apiKey (with_stream c false) st) as Hs.
    destruct (OpenAIProvider._sendRequestInternal _ _ st)
      as [[resp|e] st1]; [|exact Hs].
    cbn [snd] in Hs. rewrite <- Hs.
    pose proof (openai_json_state resp st1) as Hj.
    destruct (OpenAIProvider.json resp st1) as [[data|e] st2];
      cbn [snd] in *; now subst st2.
  - unfold OpenAIProvider.streamResponse, bind.
    pose proof (openai_send_requests apiKey (with_stream c true) st) as Hs.
    destruct (OpenAIProvider._sendRequestInternal _ _ st)
      as [[resp|e] st1]; [|exact Hs].
    cbn [snd] in Hs. rewrite <- Hs.
    apply reduce_requests. intros. now apply openai_parse_kept.
Qed.

Section Outcomes.
Context {P : Platform}.
Variable c : config.
Hypothesis onDone_normal : returns_normally (onDone c).

Lemma done_calls_callbacks (l : list event) :
  done_calls (callback_calls l) = done_calls l.
Proof.
  unfold done_calls, callback_calls. f_equal.
  induction l as [|e l IH]; [reflexivity|].
  destruct e; simpl; now rewrite ?IH.
Qed.

Lemma callbacks_dones (st st' : state) :
  kept is_callback st' = kept is_callback st -> dones st' = dones st.
Proof.
  unfold dones, kept. intros H.
  rewrite <- (done_calls_callbacks (trace st')),
    <- (done_calls_callbacks (trace st)).
  unfold callback_calls. now rewrite H.
Qed.

(** A request sent and its response reduced: the reduction returns,
    after one call of [onDone]; a failure of the request is thrown
    before any callback is called. *)
Lemma sent_and_reduced (send : M response) (parse : jsstring -> M jsval)
    (st : state) :
  (forall st0, kept is_callback (snd (send st0)) = kept is_callback st0) ->
  (forall line st0,
     kept is_OnDone (snd (parse line st0)) = kept is_OnDone st0) ->
  match (resp <- send ;; _streamNDJSON parse c resp) st with
  | (Normal _, st') =>
      dones st' = S (dones st) /\ exists resp, fst (send st) = Normal resp
  | (Throw e, st') =>
      kept is_callback st' = kept is_callback st /\ fst (send st) = Throw e
  end.
Proof.
  intros Hsend Hparse. unfold bind. specialize (Hsend st).
  destruct (send st) as [[resp|e] st1]; cbn [fst snd] in *; [|now split].
  destruct (_streamNDJSON_once parse c Hparse onDone_normal resp st1)
    as (st2 & -> & Hd).
  split; [|now exists resp]. now rewrite Hd, (callbacks_dones st st1).
Qed.

Lemma openai_stream_outcome (apiKey : jsstring) (st : state) :
  match OpenAIProvider.streamResponse apiKey c st with
  | (Normal _, st') =>
      dones st' = S (dones st) /\
      exists resp,
        fst (OpenAIProvider._sendRequestInternal apiKey (with_stream c true)
               st) = Normal resp
  | (Throw e, st') =>
      kept is_callback st' = kept is_callback st /\
      fst (OpenAIProvider._sendRequestInternal apiKey (with_stream c true) st)
      = Throw e
  end.
Proof.
  apply sent_and_reduced.
  - intros st0. now apply openai_send_kept.
  - intros. now apply openai_parse_kept.
Qed.

Lemma stream_attempt_outcome (baseUrl : jsstring) (t : bool) (st : state) :
  match stream_attempt baseUrl c t st with
  | (Normal _, st') => dones st' = S (dones st)
  | (Throw _, st') => kept is_callback st' = kept is_callback st
  end.
Proof.
  pose proof (sent_and_reduced
    (SelfHostedProvider._sendRequestInternal baseUrl (with_flags c true t))
    SelfHostedProvider._parseStreamLine st) as H.
  unfold stream_attempt.
  destruct (bind _ _ st) as [[[]|e] st'].
  - apply H.
    + intros st0. now apply selfhosted_send_kept.
    + intros. now apply selfhosted_parse_kept.
  - apply H.
    + intros st0. now apply selfhosted_send_kept.
    + intros. now apply selfhosted_parse_kept.
Qed.

Lemma selfhosted_stream_outcome (baseUrl : jsstring) (st : state) :
  match SelfHostedProvider.streamResponse baseUrl c st with
  | (Normal _, st') => dones st' = S (dones st)
  | (Throw _, st') => kept is_callback st' = kept is_callback st
  end.
Proof.
  rewrite streamResponse_two_stage. unfold two_stage.
  destruct (think c); [|apply stream_attempt_outcome].
  pose proof (stream_attempt_outcome baseUrl true st) as H1.
  destruct (stream_attempt baseUrl c true st) as [[[]|e] st1]; [exact H1|].
  destruct (SelfHostedProvider.thinking_unsupported e); [|exact H1].
  unfold bind, log, emit.
  pose proof (stream_attempt_outcome baseUrl false
                (record (Log WARN ThinkingNotSupported) st1)) as H2.
  destruct (stream_attempt baseUrl c false _) as [[[]|e2] st2].
  - rewrite H2, dones_log. f_equal. now apply callbacks_dones.
  - rewrite H2, kept_record. cbn. now rewrite app_nil_r.
Qed.

End Outcomes.

(** X7. With an [onDone] that returns, [streamResponse] of either
    provider ends in one of two ways: it returns, and [onDone] was
    called exactly once; or it throws, and no callback was called at
    all, [onDone] not either. The cloud provider throws exactly when its
    request fails (the network, or a status that is not a success), with
    the error of the request: what goes wrong once the body is being
    read (a transfer that breaks, a line that is not JSON, a callback
    that throws) is never thrown to the caller. *)
Theorem X7_stream_returns_after_onDone_or_throws_before_any_callback :
  forall (P : Platform) (apiKey baseUrl : jsstring) (c : config) (st : state),
    returns_normally (onDone c) ->
    match OpenAIProvider.streamResponse apiKey c st with
    | (Normal _, st') =>
        done_calls (trace st') = S (done_calls (trace st)) /\
        exists resp,
          fst (OpenAIProvider._sendRequestInternal apiKey (with_stream c true)
                 st) = Normal resp
    | (Throw e, st') =>
        callback_calls (trace st') = callback_calls (trace st) /\
        fst (OpenAIProvider._sendRequestInternal apiKey (with_stream c true)
               st) = Throw e
    end /\
    match SelfHostedProvider.streamResponse baseUrl c st with
    | (Normal _, st') => done_calls (trace st') = S (done_calls (trace st))
    | (Throw _, st') =>
        callback_calls (trace st') = callback_calls (trace st)
    end.
Proof.
  intros P apiKey baseUrl c st Hdone. split.
  - apply (openai_stream_outcome c Hdone).
  - apply (selfhosted_stream_outcome c Hdone).
Qed.

Section NotRetried.
Context {P : Platform}.
Variable baseUrl : jsstring.

(** An [Error] object has no [body]: the pattern is tried on the empty
    string. *)
Lemma error_object_is_supported (name message : jsstring) :
  SelfHostedProvider.thinking_unsupported (JsError name message) = false.
Proof. reflexivity. Qed.

Lemma two_stage_thrown {A} (attempt : bool -> M A) (c : config) (st st1 : state)
    (e : exn) :
  think c = true ->
  attempt true st = (Throw e, st1) ->
  SelfHostedProvider.thinking_unsupported e = false ->
  two_stage SelfHostedProvider.thinking_unsupported attempt (think c) st
  = (Throw e, st1).
Proof. intros Ht Ha He. unfold two_stage. now rewrite Ht, Ha, He. Qed.

Lemma selfhosted_send_network (c : config) (st : state) (e : exn) (w : world) :
  fetch (SelfHostedProvider.request_sent baseUrl c) (env st) = (Throw e, w) ->
  fst (SelfHostedProvider._sendRequestInternal baseUrl c st) = Throw e.
Proof. intros H. rewrite selfhosted_send_eq. cbv zeta. now rewrite H. Qed.

Lemma selfhosted_send_ok (c : config) (st : state) (resp : response)
    (w : world) :
  fetch (SelfHostedProvider.request_sent baseUrl c) (env st)
  = (Normal resp, w) ->
  ok resp = true ->
  fst (SelfHostedProvider._sendRequestInternal baseUrl c st) = Normal resp.
Proof.
  intros H Hok. rewrite selfhosted_send_eq. cbv zeta. rewrite H.
  cbn [fst snd]. now rewrite Hok.
Qed.

Lemma bulk_attempt_thrown (c : config) (t : bool) (st : state) (e : exn) :
  fst (SelfHostedProvider._sendRequestInternal baseUrl (with_flags c false t)
         st) = Throw e ->
  fst (bulk_attempt baseUrl c t st) = Throw e.
Proof.
  intros H. unfold bulk_attempt, bind.
  destruct (SelfHostedProvider._sendRequestInternal _ _ st)
    as [[resp|e'] st1]; cbn [fst] in *; [discriminate | congruence].
Qed.

Lemma stream_attempt_thrown (c : config) (t : bool) (st : state) (e : exn) :
  fst (SelfHostedProvider._sendRequestInternal baseUrl (with_flags c true t)
         st) = Throw e ->
  fst (stream_attempt baseUrl c t st) = Throw e.
Proof.
  intros H. unfold stream_attempt, bind.
  destruct (SelfHostedProvider._sendRequestInternal _ _ st)
    as [[resp|e'] st1]; cbn [fst] in *; [discriminate | congruence].
Qed.

Lemma bulk_attempt_unreadable (c : config) (t : bool) (st : state)
    (resp : response) (e : exn) :
  fst (SelfHostedProvider._sendRequestInternal baseUrl (with_flags c false t)
         st) = Normal resp ->
  match text resp with
  | Normal txt => JSON_parse txt = Throw e
  | Throw e' => e' = e
  end ->
  fst (bulk_attempt baseUrl c t st) = Throw e.
Proof.
  intros H Hb. unfold bulk_attempt, bind.
  destruct (SelfHostedProvider._sendRequestInternal _ _ st)
    as [[resp'|e'] st1]; cbn [fst] in *; [|discriminate].
  injection H as ->. unfold SelfHostedProvider.json, bind, lift.
  destruct (text resp) as [txt|e'].
  - now rewrite Hb.
  - now subst e'.
Qed.

(** The first attempt thrown again: the result, and the single request. *)
Lemma generateResponse_thrown (c : config) (st : state) (e : exn) :
  think c = true ->
  fst (bulk_attempt baseUrl c true st) = Throw e ->
  SelfHostedProvider.thinking_unsupported e = false ->
  fst (SelfHostedProvider.generateResponse baseUrl c st) = Throw e /\
  requests (trace (snd (SelfHostedProvider.generateResponse baseUrl c st)))
  = requests (trace st)
    ++ [SelfHostedProvider.request_sent baseUrl (with_flags c false true)].
Proof.
  intros Ht Ha He. split.
  - rewrite generateResponse_two_stage.
    destruct (bulk_attempt baseUrl c true st) as [r st1] eqn:E.
    cbn [fst] in Ha. subst r.
    now rewrite (two_stage_thrown _ c st st1 e Ht E He).
  - rewrite generateResponse_requests, Ht, Ha, He. reflexivity.
Qed.

Lemma streamResponse_thrown (c : config) (st : state) (e : exn) :
  think c = true ->
  fst (stream_attempt baseUrl c true st) = Throw e ->
  SelfHostedProvider.thinking_unsupported e = false ->
  fst (SelfHostedProvider.streamResponse baseUrl c st) = Throw e /\
  requests (trace (snd (SelfHostedProvider.streamResponse baseUrl c st)))
  = requests (trace st)
    ++ [SelfHostedProvider.request_sent baseUrl (with_flags c true true)].
Proof.
  intros Ht Ha He. split.
  - rewrite streamResponse_two_stage.
    destruct (stream_attempt baseUrl c true st) as [r st1] eqn:E.
    cbn [fst] in Ha. subst r.
    now rewrite (two_stage_thrown _ c st st1 e Ht E He).
  - rewrite streamResponse_requests, Ht, Ha, He. reflexivity.
Qed.

End NotRetried.

(** X8. A failure that is an [Error] object is never retried: it has no
    [body], so the pattern of the refusal is tried on the empty string.
    With [think: true], when [fetch] fails in the network either
    operation of the self-hosted provider throws that error again after
    its single request; and so does [generateResponse] when the
    response is a success whose body is not JSON, with the error of
    [JSON.parse]. *)
Theorem X8_error_objects_are_not_retried :
  forall (P : Platform) (baseUrl : jsstring) (c : config) (st : state)
         (name message : jsstring),
    think c = true ->
    (forall w,
       fetch (SelfHostedProvider.request_sent baseUrl (with_flags c false true))
         (env st) = (Throw (JsError name message), w) ->
       fst (SelfHostedProvider.generateResponse baseUrl c st)
       = Throw (JsError name message) /\
       requests
         (trace (snd (SelfHostedProvider.generateResponse baseUrl c st)))
       = requests (trace st)
         ++ [SelfHostedProvider.request_sent baseUrl
               (with_flags c false true)]) /\
    (forall w,
       fetch (SelfHostedProvider.request_sent baseUrl (with_flags c true true))
         (env st) = (Throw (JsError name message), w) ->
       fst (SelfHostedProvider.streamResponse baseUrl c st)
       = Throw (JsError name message) /\
       requests
         (trace (snd (SelfHostedProvider.streamResponse baseUrl c st)))
       = requests (trace st)
         ++ [SelfHostedProvider.request_sent baseUrl
               (with_flags c true true)]) /\
    (forall w resp txt,
       fetch (SelfHostedProvider.request_sent baseUrl (with_flags c false true))
         (env st) = (Normal resp, w) ->
       ok resp = true ->
       text resp = Normal txt ->
       JSON_parse txt = Throw (JsError name message) ->
       fst (SelfHostedProvider.generateResponse baseUrl c st)
       = Throw (JsError name message) /\
       requests
         (trace (snd (SelfHostedProvider.generateResponse baseUrl c st)))
       = requests (trace st)
         ++ [SelfHostedProvider.request_sent baseUrl
               (with_flags c false true)]).
Proof.
  intros P baseUrl c st name message Ht. split; [|split].
  - intros w Hf. apply generateResponse_thrown; [assumption| |reflexivity].
    eapply bulk_attempt_thrown, selfhosted_send_network; eassumption.
  - intros w Hf. apply streamResponse_thrown; [assumption| |reflexivity].
    eapply stream_attempt_thrown, selfhosted_send_network; eassumption.
  - intros w resp txt Hf Hok Htxt Hj.
    apply generateResponse_thrown; [assumption| |reflexivity].
    eapply bulk_attempt_unreadable.
    + eapply selfhosted_send_ok; eassumption.
    + now rewrite Htxt.
Qed.

Section Bulk.
Context {P : Platform}.

Lemma openai_bulk_eq (apiKey : jsstring) (c : config) (st : state)
    (resp : response) (w : world) (txt : jsstring) (data : jsval) :
  fetch (OpenAIProvider.request_sent apiKey (with_stream c false)) (env st)
  = (Normal resp, w) ->
  ok resp = true ->
  text resp = Normal txt ->
  JSON_parse txt = Normal data ->
  fst (OpenAIProvider.generateResponse apiKey c st)
  = Normal (or_else (fold_left member cloud_bulk_path data) (Str [])).
Proof.
  intros Hfetch Hok Htxt Hdata.
  unfold OpenAIProvider.generateResponse, bind.
  rewrite openai_send_eq. cbv zeta. rewrite Hfetch. cbn [fst snd].
  rewrite Hok. unfold OpenAIProvider.json, bind, lift.
  rewrite Htxt, Hdata. cbn [fst ret]. now rewrite !opt_member.
Qed.

Lemma selfhosted_bulk_eq (baseUrl : jsstring) (c : config) (t : bool)
    (st : state) (resp : response) (w : world) (txt : jsstring)
    (data : jsval) :
  fetch (SelfHostedProvider.request_sent baseUrl (with_flags c false t))
    (env st) = (Normal resp, w) ->
  ok resp = true ->
  text resp = Normal txt ->
  JSON_parse txt = Normal data ->
  fst (bulk_attempt baseUrl c t st)
  = Normal (or_else (fold_left member selfhosted_bulk_path data) (Str [])).
Proof.
  intros Hfetch Hok Htxt Hdata.
  unfold bulk_attempt, bind.
  rewrite selfhosted_send_eq. cbv zeta. rewrite Hfetch. cbn [fst snd].
  rewrite Hok. unfold SelfHostedProvider.json, bind, lift.
  rewrite Htxt, Hdata. cbn [fst ret]. now rewrite !opt_member.
Qed.

Lemma two_stage_first {A} (unsupported : exn -> bool) (attempt : bool -> M A)
    (t : bool) (st : state) (a : A) :
  fst (attempt t st) = Normal a ->
  fst (two_stage unsupported attempt t st) = Normal a.
Proof.
  intros H. unfold two_stage. destruct t; [|exact H].
  destruct (attempt true st) as [[a'|e] st1]; cbn [fst] in *;
    [exact H | discriminate].
Qed.

End Bulk.

(** X9. What [generateResponse] returns on a success: when the JSON of
    the body has a value at the content path
    ([choices[0].message.content] for the cloud provider,
    [message.content] for the self-hosted one), that value as it is
    when it is truthy, a string or not, and the empty string when it is
    falsy (the empty string, [null], [false], the number 0). *)
Theorem X9_generateResponse_returns_the_content :
  forall (P : Platform) (apiKey baseUrl : jsstring) (c : config) (st : state)
         (resp : response) (w : world) (txt : jsstring) (data v : jsval),
    ok resp = true ->
    text resp = Normal txt ->
    JSON_parse txt = Normal data ->
    (fetch (OpenAIProvider.request_sent apiKey (with_stream c false)) (env st)
     = (Normal resp, w) ->
     at_path data cloud_bulk_path = Some v ->
     fst (OpenAIProvider.generateResponse apiKey c st)
     = Normal (if truthy v then v else Str [])) /\
    (fetch (SelfHostedProvider.request_sent baseUrl
              (with_flags c false (think c))) (env st)
     = (Normal resp, w) ->
     at_path data selfhosted_bulk_path = Some v ->
     fst (SelfHostedProvider.generateResponse baseUrl c st)
     = Normal (if truthy v then v else Str [])).
Proof.
  intros P apiKey baseUrl c st resp w txt data v Hok Htxt Hdata. split.
  - intros Hfetch Hpath.
    rewrite (openai_bulk_eq apiKey c st resp w txt data) by assumption.
    now rewrite (at_path_found _ _ _ Hpath).
  - intros Hfetch Hpath. rewrite generateResponse_two_stage.
    apply two_stage_first.
    rewrite (selfhosted_bulk_eq baseUrl c _ st resp w txt data) by assumption.
    now rewrite (at_path_found _ _ _ Hpath).
Qed.

Section HttpFailure.
Context {P : Platform}.

Lemma openai_send_refused (apiKey : jsstring) (c : config) (st : state)
    (resp : response) (w : world) (txt : jsstring) :
  fetch (OpenAIProvider.request_sent apiKey c) (env st) = (Normal resp, w) ->
  ok resp = false ->
  text resp = Normal txt ->
  fst (OpenAIProvider._sendRequestInternal apiKey c st)
  = Throw (HttpError (status resp) (Str txt)).
Proof.
  intros Hf Hok Htxt. rewrite openai_send_eq. cbv zeta. rewrite Hf.
  cbn [fst snd]. now rewrite Hok, Htxt.
Qed.

Lemma selfhosted_send_refused (baseUrl : jsstring) (c : config) (st : state)
    (resp : response) (w : world) (txt : jsstring) :
  fetch (SelfHostedProvider.request_sent baseUrl c) (env st)
  = (Normal resp, w) ->
  ok resp = false ->
  text resp = Normal txt ->
  fst (SelfHostedProvider._sendRequestInternal baseUrl c st)
  = Throw (HttpError (status resp)
             match JSON_parse txt with
             | Normal body => body
             | Throw _ => Str txt
             end).
Proof.
  intros Hf Hok Htxt. rewrite selfhosted_send_eq. cbv zeta. rewrite Hf.
  cbn [fst snd]. now rewrite Hok, Htxt.
Qed.

Lemma bind_thrown {A B} (m : M A) (k : A -> M B) (st : state) (e : exn) :
  fst (m st) = Throw e -> fst (bind m k st) = Throw e.
Proof.
  intros H. unfold bind.
  destruct (m st) as [[a|e'] st1]; cbn [fst] in *; [discriminate|congruence].
Qed.

Lemma two_stage_refused {A} (attempt : bool -> M A) (t : bool) (st : state)
    (e : exn) :
  fst (attempt t st) = Throw e ->
  t = false \/ SelfHostedProvider.thinking_unsupported e = false ->
  fst (two_stage SelfHostedProvider.thinking_unsupported attempt t st)
  = Throw e.
Proof.
  intros H Hc. unfold two_stage. destruct t; [|exact H].
  destruct Hc as [Hc|Hc]; [discriminate|].
  destruct (attempt true st) as [[a|e'] st1]; cbn [fst] in *;
    [discriminate|].
  injection H as ->. now rewrite Hc.
Qed.

End HttpFailure.

(** X10. A response whose status is not a success is thrown as the
    object [{ status, body }], by the bulk and by the streaming
    operation alike. The cloud provider gives as [body] the text of the
    response as it is, JSON or not. The self-hosted provider gives the
    value of the text when it is JSON and the text itself when it is
    not; this is what it throws when the request did not ask for
    [think] or when the body is no refusal of it. *)
Theorem X10_http_failure_is_thrown_with_status_and_body :
  forall (P : Platform) (apiKey baseUrl : jsstring) (c : config) (st : state)
         (resp : response) (w : world) (txt : jsstring),
    ok resp = false ->
    text resp = Normal txt ->
    (fetch (OpenAIProvider.request_sent apiKey (with_stream c false)) (env st)
     = (Normal resp, w) ->
     fst (OpenAIProvider.generateResponse apiKey c st)
     = Throw (HttpError (status resp) (Str txt))) /\
    (fetch (OpenAIProvider.request_sent apiKey (with_stream c true)) (env st)
     = (Normal resp, w) ->
     fst (OpenAIProvider.streamResponse apiKey c st)
     = Throw (HttpError (status resp) (Str txt))) /\
    (forall body,
       body = match JSON_parse txt with
              | Normal v => v
              | Throw _ => Str txt
              end ->
       think c = false \/
       SelfHostedProvider.thinking_unsupported (HttpError (status resp) body)
       = false ->
       (fetch (SelfHostedProvider.request_sent baseUrl
                 (with_flags c false (think c))) (env st)
        = (Normal resp, w) ->
        fst (SelfHostedProvider.generateResponse baseUrl c st)
        = Throw (HttpError (status resp) body)) /\
       (fetch (SelfHostedProvider.request_sent baseUrl
                 (with_flags c true (think c))) (env st)
        = (Normal resp, w) ->
        fst (SelfHostedProvider.streamResponse baseUrl c st)
        = Throw (HttpError (status resp) body))).
Proof.
  intros P apiKey baseUrl c st resp w txt Hok Htxt. split; [|split].
  - intros Hf. apply bind_thrown.
    now apply (openai_send_refused apiKey _ st resp w txt).
  - intros Hf. apply bind_thrown.
    now apply (openai_send_refused apiKey _ st resp w txt).
  - intros body -> Hc. split; intros Hf.
    + rewrite generateResponse_two_stage.
      apply two_stage_refused; [|exact Hc].
      apply bind_thrown.
      now apply (selfhosted_send_refused baseUrl _ st resp w txt).
    + rewrite streamResponse_two_stage.
      apply two_stage_refused; [|exact Hc].
      apply bind_thrown.
      now apply (selfhosted_send_refused baseUrl _ st resp w txt).
Qed.

(* ================================================================== *)
(** * The message adapter on every message *)
(* ================================================================== *)

Section EveryMessage.

Lemma for_parts_eq (parts : list part) (t : jsstring) (imgs : list jsstring) :
  SelfHostedProvider.for_parts parts t imgs =
  (t ++ List.concat (map (fun x => x ++ lit " ") (texts parts)),
   imgs ++ map base64Data (with_url parts)).
Proof.
  revert t imgs; induction parts as [|[text|u|ty] parts IH]; intros t imgs;
    cbn [SelfHostedProvider.for_parts texts image_urls].
  - unfold with_url. cbn. now rewrite !app_nil_r.
  - rewrite IH. cbn [map List.concat]. now rewrite <- !app_assoc.
  - unfold with_url in *. cbn [image_urls filter].
    destruct u as [|ch u]; [apply IH|].
    rewrite IH. cbn [map]. now rewrite <- app_assoc.
  - apply IH.
Qed.

Lemma process_message_eq (msg : message) :
  SelfHostedProvider.process_message msg =
  match content msg with
  | Parts parts =>
      if JsString.eqb (role msg) (lit "user") then
        match map base64Data (with_url parts) with
        | [] => Plain (lit "user") (trim (join (lit " ") (texts parts)))
        | images =>
            WithImages (lit "user") (trim (join (lit " ") (texts parts)))
              images
        end
      else Passed msg
  | Text _ => Passed msg
  end.
Proof.
  unfold SelfHostedProvider.process_message.
  destruct (content msg) as [s|parts]; [reflexivity|].
  destruct (JsString.eqb _ _); [|reflexivity].
  rewrite for_parts_eq. cbn [app]. rewrite trim_spaced.
  now destruct (map base64Data (with_url parts)).
Qed.

Lemma base64Data_whole (u : jsstring) : ~ In 44 u -> base64Data u = u.
Proof. intros H. unfold base64Data. now rewrite indexOf_none. Qed.

Lemma base64Data_after (pre post : jsstring) :
  ~ In 44 pre -> base64Data (pre ++ 44 :: post) = post.
Proof.
  intros H. unfold base64Data. rewrite indexOf_first by assumption.
  apply skipn_past.
Qed.

End EveryMessage.

(** X11. The adapter on a user message of parts, whatever its parts
    are: the content is the texts joined by spaces and trimmed; the
    images are, for each image part whose URL is not empty and in
    order, what follows the first comma of the URL, and the whole URL
    when it has no comma (a URL that is no data URL is sent as if it
    were base64); an image part with an empty URL and a part of another
    type are dropped; the [images] key is there exactly when an image
    is. *)
Theorem X11_adapter_on_every_user_message :
  forall (msg : message) (parts : list part),
    role msg = lit "user" ->
    content msg = Parts parts ->
    SelfHostedProvider.process_message msg
    = match map base64Data (with_url parts) with
      | [] => Plain (lit "user") (trim (join (lit " ") (texts parts)))
      | images =>
          WithImages (lit "user") (trim (join (lit " ") (texts parts))) images
      end /\
    (forall u, ~ In 44 u -> base64Data u = u) /\
    (forall pre post, ~ In 44 pre -> base64Data (pre ++ 44 :: post) = post).
Proof.
  intros msg parts Hr Hc. split; [|split].
  - now rewrite process_message_eq, Hc, Hr, eqb_refl.
  - apply base64Data_whole.
  - apply base64Data_after.
Qed.

(** X12. What the adapter emits, for any messages: a message of the
    caller, passed as it is; or an object whose role is [user] and
    whose content is trimmed, with no white space at either end; and
    when it has an [images] key, the array under it is not empty. *)
Theorem X12_adapter_output_is_well_formed :
  forall (msgs : list message),
    Forall (emitted msgs) (SelfHostedProvider._processMessagesForOllama msgs).
Proof.
  intros msgs. unfold SelfHostedProvider._processMessagesForOllama.
  apply Forall_forall. intros m Hin. apply in_map_iff in Hin.
  destruct Hin as (msg & <- & Hin). rewrite process_message_eq.
  destruct (content msg) as [s|parts]; [exact Hin|].
  destruct (JsString.eqb _ _); [|exact Hin].
  destruct (map base64Data (with_url parts)) as [|i images]; cbn.
  - split; [reflexivity | apply trim_twice].
  - repeat split; [apply trim_twice | discriminate].
Qed.

(* ================================================================== *)
(** * The listing of the models *)
(* ================================================================== *)

Section Listed.
Context {P : Platform} {L : Models.Listing P}.

(** What the two [fetchModels] do after the response came: the body
    read, the listing counted for the logger and mapped. *)
Lemma for_items_map (key : jsstring) (items : list jsval) :
  Forall (fun m => nullish m = false) items ->
  Models.for_items (Models.descriptor key) items
  = Normal (map (fun m => Obj [(lit "id", member m key);
                               (lit "name", member m key)]) items).
Proof.
  induction 1 as [|m items Hm _ IH]; [reflexivity|].
  cbn [Models.for_items map]. unfold Models.descriptor at 1.
  now rewrite Hm, IH.
Qed.

Lemma for_items_shape (key : jsstring) (items ds : list jsval) :
  Models.for_items (Models.descriptor key) items = Normal ds ->
  ds = map (fun m => Obj [(lit "id", member m key);
                          (lit "name", member m key)]) items /\
  Forall (fun m => nullish m = false) items.
Proof.
  revert ds; induction items as [|m items IH]; intros ds; cbn.
  - intros [= <-]. now split.
  - unfold Models.descriptor at 1. destruct (nullish m) eqn:Hm; [discriminate|].
    destruct (Models.for_items _ items) as [ds'|e]; [|discriminate].
    intros [= <-]. destruct (IH ds' eq_refl) as [-> Hf].
    split; [reflexivity | now constructor].
Qed.

Lemma map_of_shape (what key : jsstring) (v r : jsval) :
  Models.map_of what v (Models.descriptor key) = Normal r ->
  exists items,
    v = Arr items /\
    Forall (fun m => nullish m = false) items /\
    r = Arr (map (fun m => Obj [(lit "id", member m key);
                                (lit "name", member m key)]) items).
Proof.
  destruct v as [| | | | |items|]; cbn; try discriminate.
  destruct (Models.for_items _ items) as [ds|e] eqn:E; [|discriminate].
  intros [= <-]. destruct (for_items_shape _ _ _ E) as [-> Hf].
  now exists items.
Qed.

Lemma gets_app (l1 l2 : list Models.event) :
  Models.gets (l1 ++ l2) = Models.gets l1 ++ Models.gets l2.
Proof. apply filter_app. Qed.

End Listed.

Section ListingRuns.
Context {P : Platform} {L : Models.Listing P}.

(** The state after the request was answered. *)
Lemma openai_fetchModels_eq (apiKey : jsval) (st : Models.state) :
  Models.OpenAI.fetchModels apiKey st =
  if truthy apiKey then
    let url := lit "https://api.openai.com/v1/models" in
    let headers := [(lit "Authorization", lit "Bearer " ++ to_string apiKey)] in
    let st1 :=
      {| Models.env := snd (Models.fetch_get url headers (Models.env st));
         Models.trace :=
           Models.trace st
           ++ [Models.Log INFO (Models.FetchingModels url);
               Models.Get url headers] |} in
    match fst (Models.fetch_get url headers (Models.env st)) with
    | Throw e => (Throw e, st1)
    | Normal resp =>
        if ok resp then
          match text resp with
          | Throw e => (Throw e, st1)
          | Normal txt =>
              match JSON_parse txt with
              | Throw e => (Throw e, st1)
              | Normal data =>
                  if nullish data then (Throw TypeError, st1)
                  else
                    match Models.length_of (member data (lit "data")) with
                    | Throw e => (Throw e, st1)
                    | Normal count =>
                        (Models.map_of (lit "data.data")
                           (member data (lit "data"))
                           (Models.descriptor (lit "id")),
                         {| Models.env := Models.env st1;
                            Models.trace :=
                              Models.trace st1
                              ++ [Models.Log INFO
                                    (Models.FetchedModels count
                                       (lit "OpenAI"))] |})
                    end
              end
          end
        else
          (Throw (JsError (lit "Error")
                    (lit "HTTP " ++ Models.decimal (status resp))), st1)
    end
  else
    (Throw (JsError (lit "Error") (lit "Please enter an API key first")), st).
Proof.
  unfold Models.OpenAI.fetchModels.
  destruct (truthy apiKey); [|reflexivity]. cbn [negb]. cbv zeta.
  change (OpenAIProvider.baseUrl ++ lit "/models")
    with (lit "https://api.openai.com/v1/models").
  unfold Models.json.
  unfold Models.bind, Models.log, Models.get, Models.prop,
    Models.lift, Models.throw, Models.ret.
  cbn [Models.env Models.trace]. rewrite <- app_assoc. cbn [app].
  destruct (Models.fetch_get _ _ _) as [[resp|e] w1]; [|reflexivity].
  cbn [fst snd]. destruct (ok resp); [|reflexivity]. cbn [negb].
  destruct (text resp) as [txt|e]; [|reflexivity].
  destruct (JSON_parse txt) as [data|e]; [|reflexivity].
  destruct (nullish data); [reflexivity|].
  now destruct (Models.length_of _).
Qed.

Lemma selfhosted_fetchModels_eq (baseUrl : jsval) (st : Models.state) :
  Models.SelfHosted.fetchModels baseUrl st =
  if truthy baseUrl then
    let url := to_string baseUrl ++ lit "/api/tags" in
    let st1 :=
      {| Models.env := snd (Models.fetch_get url [] (Models.env st));
         Models.trace :=
           Models.trace st
           ++ [Models.Log INFO (Models.FetchingModels url);
               Models.Get url []] |} in
    match fst (Models.fetch_get url [] (Models.env st)) with
    | Throw e => (Throw e, st1)
    | Normal resp =>
        if ok resp then
          match text resp with
          | Throw e => (Throw e, st1)
          | Normal txt =>
              match JSON_parse txt with
              | Throw e => (Throw e, st1)
              | Normal data =>
                  if nullish data then (Throw TypeError, st1)
                  else
                    match Models.length_of (member data (lit "models")) with
                    | Throw e => (Throw e, st1)
                    | Normal count =>
                        (Models.map_of (lit "data.models")
                           (member data (lit "models"))
                           (Models.descriptor (lit "name")),
                         {| Models.env := Models.env st1;
                            Models.trace :=
                              Models.trace st1
                              ++ [Models.Log INFO
                                    (Models.FetchedModels count
                                       (lit "local"))] |})
                    end
              end
          end
        else
          (Throw (JsError (lit "Error")
                    (lit "HTTP " ++ Models.decimal (status resp))), st1)
    end
  else
    (Throw (JsError (lit "Error") (lit "Please enter a model URL first")), st).
Proof.
  unfold Models.SelfHosted.fetchModels.
  destruct (truthy baseUrl); [|reflexivity]. cbn [negb]. cbv zeta.
  unfold Models.json.
  unfold Models.bind, Models.log, Models.get, Models.prop,
    Models.lift, Models.throw, Models.ret.
  cbn [Models.env Models.trace]. rewrite <- app_assoc. cbn [app].
  destruct (Models.fetch_get _ _ _) as [[resp|e] w1]; [|reflexivity].
  cbn [fst snd]. destruct (ok resp); [|reflexivity]. cbn [negb].
  destruct (text resp) as [txt|e]; [|reflexivity].
  destruct (JSON_parse txt) as [data|e]; [|reflexivity].
  destruct (nullish data); [reflexivity|].
  now destruct (Models.length_of _).
Qed.

(** The requests of a run whose state is one of the two the runs end
    in. *)
Lemma gets_answered (st : Models.state) (w w' : world) (url kind : jsstring)
    (headers : list (jsstring * jsstring)) (count : jsval) :
  Models.gets
    (Models.trace
       {| Models.env := w;
          Models.trace :=
            Models.trace st
            ++ [Models.Log INFO (Models.FetchingModels url);
                Models.Get url headers] |})
  = Models.gets (Models.trace st) ++ [Models.Get url headers] /\
  Models.gets
    (Models.trace
       {| Models.env := w';
          Models.trace :=
            Models.trace
              {| Models.env := w;
                 Models.trace :=
                   Models.trace st
                   ++ [Models.Log INFO (Models.FetchingModels url);
                       Models.Get url headers] |}
            ++ [Models.Log INFO (Models.FetchedModels count kind)] |})
  = Models.gets (Models.trace st) ++ [Models.Get url headers].
Proof.
  cbn [Models.trace]. rewrite !gets_app. cbn. now rewrite app_nil_r.
Qed.

(** The requests of a run of [fetchModels] with a credential. *)
Lemma openai_listing_gets (apiKey : jsval) (st : Models.state) :
  truthy apiKey = true ->
  Models.gets (Models.trace (snd (Models.OpenAI.fetchModels apiKey st)))
  = Models.gets (Models.trace st)
    ++ [Models.Get (lit "https://api.openai.com/v1/models")
          [(lit "Authorization", lit "Bearer " ++ to_string apiKey)]].
Proof.
  intros Hc. rewrite openai_fetchModels_eq, Hc. cbv zeta.
  destruct (fst (Models.fetch_get _ _ _)) as [resp|e];
    [|apply (gets_answered st _ (Models.env st) _ [] _ Undefined)].
  destruct (ok resp);
    [|apply (gets_answered st _ (Models.env st) _ [] _ Undefined)].
  destruct (text resp) as [txt|e];
    [|apply (gets_answered st _ (Models.env st) _ [] _ Undefined)].
  destruct (JSON_parse txt) as [data|e];
    [|apply (gets_answered st _ (Models.env st) _ [] _ Undefined)].
  destruct (nullish data);
    [apply (gets_answered st _ (Models.env st) _ [] _ Undefined)|].
  destruct (Models.length_of _) as [count|e];
    [|apply (gets_answered st _ (Models.env st) _ [] _ Undefined)].
  apply gets_answered.
Qed.

Lemma selfhosted_listing_gets (baseUrl : jsval) (st : Models.state) :
  truthy baseUrl = true ->
  Models.gets (Models.trace (snd (Models.SelfHosted.fetchModels baseUrl st)))
  = Models.gets (Models.trace st)
    ++ [Models.Get (to_string baseUrl ++ lit "/api/tags") []].
Proof.
  intros Hc. rewrite selfhosted_fetchModels_eq, Hc. cbv zeta.
  destruct (fst (Models.fetch_get _ _ _)) as [resp|e];
    [|apply (gets_answered st _ (Models.env st) _ [] _ Undefined)].
  destruct (ok resp);
    [|apply (gets_answered st _ (Models.env st) _ [] _ Undefined)].
  destruct (text resp) as [txt|e];
    [|apply (gets_answered st _ (Models.env st) _ [] _ Undefined)].
  destruct (JSON_parse txt) as [data|e];
    [|apply (gets_answered st _ (Models.env st) _ [] _ Undefined)].
  destruct (nullish data);
    [apply (gets_answered st _ (Models.env st) _ [] _ Undefined)|].
  destruct (Models.length_of _) as [count|e];
    [|apply (gets_answered st _ (Models.env st) _ [] _ Undefined)].
  apply gets_answered.
Qed.

(** What a run of [fetchModels] returns comes from the mapping of a
    listing. *)
Lemma openai_listing_mapped (apiKey : jsval) (st : Models.state)
    (result : jsval) :
  fst (Models.OpenAI.fetchModels apiKey st) = Normal result ->
  exists v,
    Models.map_of (lit "data.data") v (Models.descriptor (lit "id"))
    = Normal result.
Proof.
  rewrite openai_fetchModels_eq. intros H.
  destruct (truthy apiKey); [|discriminate]. cbv zeta in H.
  destruct (fst (Models.fetch_get _ _ _)) as [resp|e]; [|discriminate].
  destruct (ok resp); [|discriminate].
  destruct (text resp) as [txt|e]; [|discriminate].
  destruct (JSON_parse txt) as [data|e]; [|discriminate].
  destruct (nullish data); [discriminate|].
  destruct (Models.length_of _) as [count|e]; [|discriminate].
  cbn [fst] in H. eauto.
Qed.

Lemma selfhosted_listing_mapped (baseUrl : jsval) (st : Models.state)
    (result : jsval) :
  fst (Models.SelfHosted.fetchModels baseUrl st) = Normal result ->
  exists v,
    Models.map_of (lit "data.models") v (Models.descriptor (lit "name"))
    = Normal result.
Proof.
  rewrite selfhosted_fetchModels_eq. intros H.
  destruct (truthy baseUrl); [|discriminate]. cbv zeta in H.
  destruct (fst (Models.fetch_get _ _ _)) as [resp|e]; [|discriminate].
  destruct (ok resp); [|discriminate].
  destruct (text resp) as [txt|e]; [|discriminate].
  destruct (JSON_parse txt) as [data|e]; [|discriminate].
  destruct (nullish data); [discriminate|].
  destruct (Models.length_of _) as [count|e]; [|discriminate].
  cbn [fst] in H. eauto.
Qed.

(** The result of such a mapping is an array of descriptors. *)
Lemma mapped_descriptors (what key : jsstring) (v result : jsval) :
  Models.map_of what v (Models.descriptor key) = Normal result ->
  exists descriptors,
    result = Arr descriptors /\
    Forall (fun d => exists x, d = Obj [(lit "id", x); (lit "name", x)])
      descriptors.
Proof.
  intros Hm. destruct (map_of_shape _ _ _ _ Hm) as (items & _ & _ & ->).
  eexists. split; [reflexivity|].
  apply Forall_forall. intros d Hd. apply in_map_iff in Hd.
  destruct Hd as (m & <- & _). now eexists.
Qed.

End ListingRuns.

(** X13. [fetchModels] of either provider sends at most one request.
    With a credential that is falsy (an empty string, [undefined],
    [null]) it throws its error before anything else: nothing is
    logged, no request is made. With any other credential it makes,
    whatever the backend answers, exactly one call of [fetch]: on
    [/models] under the base URL with the key as a bearer token for the
    cloud provider, on [/api/tags] under the URL given with no options
    for the self-hosted one. *)
Theorem X13_fetchModels_sends_at_most_one_request :
  forall (P : Platform) (L : Models.Listing P) (credential : jsval)
         (st : Models.state),
    (truthy credential = false ->
     Models.OpenAI.fetchModels credential st
     = (Throw (JsError (lit "Error") (lit "Please enter an API key first")),
        st) /\
     Models.SelfHosted.fetchModels credential st
     = (Throw (JsError (lit "Error") (lit "Please enter a model URL first")),
        st)) /\
    (truthy credential = true ->
     Models.gets
       (Models.trace (snd (Models.OpenAI.fetchModels credential st)))
     = Models.gets (Models.trace st)
       ++ [Models.Get (lit "https://api.openai.com/v1/models")
             [(lit "Authorization",
               lit "Bearer " ++ to_string credential)]] /\
     Models.gets
       (Models.trace (snd (Models.SelfHosted.fetchModels credential st)))
     = Models.gets (Models.trace st)
       ++ [Models.Get (to_string credential ++ lit "/api/tags") []]).
Proof.
  intros P L credential st. split; intros Hc.
  - rewrite openai_fetchModels_eq, selfhosted_fetchModels_eq, Hc. now split.
  - split; [now apply openai_listing_gets | now apply selfhosted_listing_gets].
Qed.

Section ListingResults.
Context {P : Platform} {L : Models.Listing P}.

Lemma member_nullish (v : jsval) (k : jsstring) :
  nullish v = true -> member v k = Undefined.
Proof. now destruct v. Qed.

Lemma length_of_array (items : list jsval) :
  exists count, Models.length_of (Arr items) = Normal count.
Proof. now eexists. Qed.

(** The result of mapping a listing that is an array with no [null] in
    it. *)
Lemma map_of_array (what key : jsstring) (items : list jsval) :
  Forall (fun m => nullish m = false) items ->
  Models.map_of what (Arr items) (Models.descriptor key)
  = Normal (Arr (map (fun m => Obj [(lit "id", member m key);
                                    (lit "name", member m key)]) items)).
Proof. intros H. cbn. now rewrite for_items_map. Qed.

End ListingResults.

(** X14. [fetchModels] on a listing: when the response is a success
    whose body is JSON with an array under [data] (for the cloud
    provider; under [models] for the self-hosted one) and no [null] in
    the array, the result is an array with one descriptor for each
    element, in order, whose [id] and [name] are both the [id] of the
    element (its [name] for the self-hosted provider); an element
    without that property gives a descriptor of two [undefined]. *)
Theorem X14_fetchModels_lists_the_models :
  forall (P : Platform) (L : Models.Listing P) (credential : jsval)
         (st : Models.state) (resp : response) (w : world) (txt : jsstring)
         (data : jsval) (items : list jsval),
    truthy credential = true ->
    ok resp = true ->
    text resp = Normal txt ->
    JSON_parse txt = Normal data ->
    Forall (fun m => nullish m = false) items ->
    (Models.fetch_get (lit "https://api.openai.com/v1/models")
       [(lit "Authorization", lit "Bearer " ++ to_string credential)]
       (Models.env st) = (Normal resp, w) ->
     member data (lit "data") = Arr items ->
     fst (Models.OpenAI.fetchModels credential st)
     = Normal (Arr (map (fun m => Obj [(lit "id", member m (lit "id"));
                                       (lit "name", member m (lit "id"))])
                      items))) /\
    (Models.fetch_get (to_string credential ++ lit "/api/tags") []
       (Models.env st) = (Normal resp, w) ->
     member data (lit "models") = Arr items ->
     fst (Models.SelfHosted.fetchModels credential st)
     = Normal (Arr (map (fun m => Obj [(lit "id", member m (lit "name"));
                                       (lit "name", member m (lit "name"))])
                      items))).
Proof.
  intros P L credential st resp w txt data items Hc Hok Htxt Hdata Hitems.
  split; intros Hf Hl.
  - rewrite openai_fetchModels_eq, Hc. cbv zeta. rewrite Hf. cbn [fst snd].
    rewrite Hok, Htxt, Hdata.
    destruct (nullish data) eqn:Hn.
    { rewrite member_nullish in Hl by assumption. discriminate. }
    rewrite Hl. cbn [Models.length_of fst]. now apply map_of_array.
  - rewrite selfhosted_fetchModels_eq, Hc. cbv zeta. rewrite Hf.
    cbn [fst snd]. rewrite Hok, Htxt, Hdata.
    destruct (nullish data) eqn:Hn.
    { rewrite member_nullish in Hl by assumption. discriminate. }
    rewrite Hl. cbn [Models.length_of fst]. now apply map_of_array.
Qed.

(** X15. Whatever [fetchModels] of either provider returns is an array
    of descriptors, each an object of the two properties [id] and
    [name] with the same value under both. *)
Theorem X15_fetchModels_returns_descriptors :
  forall (P : Platform) (L : Models.Listing P) (credential : jsval)
         (st : Models.state) (result : jsval),
    fst (Models.OpenAI.fetchModels credential st) = Normal result \/
    fst (Models.SelfHosted.fetchModels credential st) = Normal result ->
    exists descriptors,
      result = Arr descriptors /\
      Forall (fun d => exists x, d = Obj [(lit "id", x); (lit "name", x)])
        descriptors.
Proof.
  intros P L credential st result [H|H].
  - destruct (openai_listing_mapped _ _ _ H) as [v Hm].
    now apply mapped_descriptors in Hm.
  - destruct (selfhosted_listing_mapped _ _ _ H) as [v Hm].
    now apply mapped_descriptors in Hm.
Qed.

(** X16. How [fetchModels] of either provider fails once the request is
    made. A response whose status is not a success makes it throw an
    [Error] whose message is [HTTP ] followed by the status in decimal,
    the body being left unread. A success whose JSON has no array
    under the key of the listing ([data], [models]), or has a [null] in
    that array, makes it throw: no partial listing is returned. *)
Theorem X16_fetchModels_failures :
  forall (P : Platform) (L : Models.Listing P) (credential : jsval)
         (st : Models.state) (resp : response) (w : world),
    truthy credential = true ->
    (Models.fetch_get (lit "https://api.openai.com/v1/models")
       [(lit "Authorization", lit "Bearer " ++ to_string credential)]
       (Models.env st) = (Normal resp, w) ->
     (ok resp = false ->
      fst (Models.OpenAI.fetchModels credential st)
      = Throw (JsError (lit "Error")
                 (lit "HTTP " ++ Models.decimal (status resp)))) /\
     (forall txt data,
        ok resp = true -> text resp = Normal txt ->
        JSON_parse txt = Normal data ->
        (forall items,
           member data (lit "data") = Arr items ->
           Exists (fun m => nullish m = true) items) ->
        exists e, fst (Models.OpenAI.fetchModels credential st) = Throw e)) /\
    (Models.fetch_get (to_string credential ++ lit "/api/tags") []
       (Models.env st) = (Normal resp, w) ->
     (ok resp = false ->
      fst (Models.SelfHosted.fetchModels credential st)
      = Throw (JsError (lit "Error")
                 (lit "HTTP " ++ Models.decimal (status resp)))) /\
     (forall txt data,
        ok resp = true -> text resp = Normal txt ->
        JSON_parse txt = Normal data ->
        (forall items,
           member data (lit "models") = Arr items ->
           Exists (fun m => nullish m = true) items) ->
        exists e,
          fst (Models.SelfHosted.fetchModels credential st) = Throw e)).
Proof.
  intros P L credential st resp w Hc. split; intros Hf; split.
  - intros Hok. rewrite openai_fetchModels_eq, Hc. cbv zeta. rewrite Hf.
    cbn [fst snd]. now rewrite Hok.
  - intros txt data Hok Htxt Hdata Hbad.
    destruct (fst (Models.OpenAI.fetchModels credential st)) as [r|e] eqn:E;
      [|now exists e].
    exfalso. rewrite openai_fetchModels_eq, Hc in E. cbv zeta in E.
    rewrite Hf in E. cbn [fst snd] in E. rewrite Hok, Htxt, Hdata in E.
    destruct (nullish data); [discriminate|].
    destruct (Models.length_of _) as [count|e]; [|discriminate].
    cbn [fst] in E.
    destruct (map_of_shape _ _ _ _ E) as (items & Hl & Hall & _).
    specialize (Hbad items Hl). apply Exists_exists in Hbad.
    destruct Hbad as (m & Hin & Hm).
    rewrite Forall_forall in Hall. specialize (Hall m Hin). congruence.
  - intros Hok. rewrite selfhosted_fetchModels_eq, Hc. cbv zeta. rewrite Hf.
    cbn [fst snd]. now rewrite Hok.
  - intros txt data Hok Htxt Hdata Hbad.
    destruct (fst (Models.SelfHosted.fetchModels credential st))
      as [r|e] eqn:E; [|now exists e].
    exfalso. rewrite selfhosted_fetchModels_eq, Hc in E. cbv zeta in E.
    rewrite Hf in E. cbn [fst snd] in E. rewrite Hok, Htxt, Hdata in E.
    destruct (nullish data); [discriminate|].
    destruct (Models.length_of _) as [count|e]; [|discriminate].
    cbn [fst] in E.
    destruct (map_of_shape _ _ _ _ E) as (items & Hl & Hall & _).
    specialize (Hbad items Hl). apply Exists_exists in Hbad.
    destruct Hbad as (m & Hin & Hm).
    rewrite Forall_forall in Hall. specialize (Hall m Hin). congruence.
Qed.

(* ================================================================== *)
(** * The image attached by the server *)
(* ================================================================== *)

Section Attached.

Lemma is_user_nullish (m : jsval) : Server.is_user m = true -> nullish m = false.
Proof. now destruct m. Qed.

(** The search goes past the messages that are not the user's. *)
Lemma find_past (xs ys : list jsval) (m : jsval) :
  Forall (fun x => nullish x = false /\ Server.is_user x = false) xs ->
  Server.is_user m = true ->
  Server.find (xs ++ m :: ys) = Normal (Some (List.length xs)).
Proof.
  intros Hxs Hm. induction Hxs as [|x xs [Hn Hu] _ IH]; cbn.
  - now rewrite (is_user_nullish m Hm), Hm.
  - now rewrite Hn, Hu, IH.
Qed.

Lemma find_none (xs : list jsval) :
  Forall (fun x => nullish x = false /\ Server.is_user x = false) xs ->
  Server.find xs = Normal None.
Proof.
  induction 1 as [|x xs [Hn Hu] _ IH]; cbn; [reflexivity|].
  now rewrite Hn, Hu, IH.
Qed.

Lemma find_null (xs ys : list jsval) (m : jsval) :
  Forall (fun x => nullish x = false /\ Server.is_user x = false) xs ->
  nullish m = true ->
  Server.find (xs ++ m :: ys) = Throw TypeError.
Proof.
  intros Hxs Hm. induction Hxs as [|x xs [Hn Hu] _ IH]; cbn.
  - now rewrite Hm.
  - now rewrite Hn, Hu, IH.
Qed.

Lemma update_at (xs ys : list jsval) (m : jsval) (f : jsval -> jsval) :
  Server.update (List.length xs) f (xs ++ m :: ys) = xs ++ f m :: ys.
Proof. induction xs as [|x xs IH]; cbn; [reflexivity | now rewrite IH]. Qed.

Lemma assoc_put (k : jsstring) (v : jsval) (props : list (jsstring * jsval)) :
  assoc k (Server.put k v props) = Some v.
Proof.
  induction props as [|[k' v'] props IH]; cbn.
  - now rewrite eqb_refl.
  - destruct (JsString.eqb k k') eqn:E; cbn; rewrite ?eqb_refl, ?E; auto.
Qed.

Lemma assoc_put_other (k k0 : jsstring) (v : jsval)
    (props : list (jsstring * jsval)) :
  k0 <> k -> assoc k0 (Server.put k v props) = assoc k0 props.
Proof.
  intros Hne. induction props as [|[k' v'] props IH]; cbn.
  - destruct (JsString.eqb k0 k) eqn:E; [|reflexivity].
    apply eqb_eq in E. contradiction.
  - destruct (JsString.eqb k k') eqn:E; cbn.
    + apply eqb_eq in E. subst k'.
      destruct (JsString.eqb k0 k) eqn:E0; [|reflexivity].
      apply eqb_eq in E0. contradiction.
    + now rewrite IH.
Qed.

Lemma rev_Forall {A} (Q : A -> Prop) (l : list A) :
  Forall Q l -> Forall Q (rev l).
Proof.
  intros H. apply Forall_forall. intros x Hx. apply in_rev in Hx.
  rewrite Forall_forall in H. now apply H.
Qed.

End Attached.

(** X17. The image of an upload goes to the last user message, and to
    that message alone. When [config.messages] is an array in which a
    message of role [user] is followed by messages of other roles
    only, the handler leaves the array with that message changed, its
    content now the array of a text part holding the content it had and
    of an image part holding the data URL of the file, and every other
    message, before and after, as it was (a user message further up is
    not touched, and a [null] further up is not even read). With no
    user message in the array, nothing changes and the logger is
    warned; with a [null] after the last user message, or in an array
    without one, the handler throws. Without an upload the
    configuration is left alone. *)
Theorem X17_image_goes_to_the_last_user_message :
  forall (f : Server.file) (config : jsval),
    Server.attach None config = (Normal config, []) /\
    (forall before m after,
       member config (lit "messages") = Arr (before ++ m :: after) ->
       Server.is_user m = true ->
       Forall (fun x => nullish x = false /\ Server.is_user x = false) after ->
       Server.attach (Some f) config
       = (Normal
            (Server.assign config (lit "messages")
               (Arr (before
                     ++ Server.assign m (lit "content")
                          (Server.with_image (member m (lit "content"))
                             (Server.imageData f))
                     :: after))),
          [Server.ImageDetected])) /\
    (forall messages,
       member config (lit "messages") = Arr messages ->
       Forall (fun x => nullish x = false /\ Server.is_user x = false)
         messages ->
       Server.attach (Some f) config
       = (Normal config, [Server.ImageDetected; Server.NoUserMessage])) /\
    (forall before m after,
       member config (lit "messages") = Arr (before ++ m :: after) ->
       nullish m = true ->
       Forall (fun x => nullish x = false /\ Server.is_user x = false) after ->
       Server.attach (Some f) config
       = (Throw TypeError, [Server.ImageDetected])).
Proof.
  intros f config. split; [reflexivity|]. split; [|split].
  - intros before m after Hm Hu Hafter. unfold Server.attach. rewrite Hm.
    rewrite rev_app_distr. cbn [rev]. rewrite <- app_assoc. cbn [app].
    rewrite find_past by (try apply rev_Forall; assumption).
    cbv zeta. rewrite update_at, rev_app_distr. cbn [rev].
    now rewrite !rev_involutive, <- app_assoc.
  - intros messages Hm Hall. unfold Server.attach. rewrite Hm.
    now rewrite find_none by (apply rev_Forall; assumption).
  - intros before m after Hm Hn Hafter. unfold Server.attach. rewrite Hm.
    rewrite rev_app_distr. cbn [rev]. rewrite <- app_assoc. cbn [app].
    now rewrite find_null by (try apply rev_Forall; assumption).
Qed.

Section AttachedAndAdapted.

Lemma member_assign (m : jsval) (k : jsstring) (v : jsval)
    (props : list (jsstring * jsval)) :
  m = Obj props -> member (Server.assign m k v) k = v.
Proof. intros ->. unfold member. cbn. now rewrite assoc_put. Qed.

Lemma member_assign_other (m : jsval) (k k0 : jsstring) (v : jsval) :
  k0 <> k -> member (Server.assign m k v) k0 = member m k0.
Proof.
  intros Hne. destruct m; try reflexivity.
  unfold member. cbn. now rewrite assoc_put_other.
Qed.

(** A value read as a message is an object. *)
Lemma as_message_object (m : jsval) (msg : message) :
  Server.as_message m = Some msg -> exists props, m = Obj props.
Proof.
  unfold Server.as_message.
  destruct m as [| | | |s|items|props]; try discriminate. now exists props.
Qed.

Lemma imageData_payload (f : Server.file) :
  ~ In 44 (Server.mimetype f) ->
  base64Data (Server.imageData f) = Server.base64 (Server.buffer f).
Proof.
  intros Hm. unfold Server.imageData. cbv zeta.
  set (mime := match Server.mimetype f with [] => lit "image/png" | m => m end).
  assert (Hmime : ~ In 44 mime).
  { subst mime. destruct (Server.mimetype f); [|assumption].
    vm_compute. intuition discriminate. }
  replace (lit "data:" ++ mime ++ lit ";base64," ++ Server.base64 (Server.buffer f))
    with ((lit "data:" ++ mime ++ lit ";base64")
          ++ 44 :: Server.base64 (Server.buffer f))
    by (now rewrite <- !app_assoc).
  apply base64Data_after. rewrite !in_app_iff.
  intros [H|[H|H]]; [|contradiction|]; vm_compute in H; intuition discriminate.
Qed.

End AttachedAndAdapted.

(** X18. From the upload to the backend. A user message whose content
    is a string reads, once the server attached the image of a file to
    it, as the user message of two parts, the text it had and the image
    under the data URL of the file; and the adapter of the self-hosted
    provider turns that message into the object of role [user] whose
    content is the text, trimmed, and whose [images] hold one string,
    the base64 of the bytes of the file with nothing of the data URL
    left before it. The type the client declared for the file
    must hold no comma: the adapter cuts at the first comma of the
    URL. *)
Theorem X18_attached_image_reaches_the_backend_as_base64 :
  forall (f : Server.file) (m : jsval) (s : jsstring),
    Server.as_message m = Some {| role := lit "user"; content := Text s |} ->
    ~ In 44 (Server.mimetype f) ->
    Server.as_message
      (Server.assign m (lit "content")
         (Server.with_image (member m (lit "content")) (Server.imageData f)))
    = Some {| role := lit "user";
              content := Parts [TextPart s;
                                ImagePart (Server.imageData f)] |} /\
    SelfHostedProvider.process_message
      {| role := lit "user";
         content := Parts [TextPart s; ImagePart (Server.imageData f)] |}
    = WithImages (lit "user") (trim s) [Server.base64 (Server.buffer f)].
Proof.
  intros f m s Hm Hmime. split.
  - destruct (as_message_object m _ Hm) as [props ->].
    unfold Server.as_message in *.
    rewrite (member_assign _ _ _ props eq_refl).
    rewrite member_assign_other by discriminate.
    destruct (member (Obj props) (lit "role")) as [| | | |r| |];
      try discriminate.
    destruct (member (Obj props) (lit "content")) as [| | | |t|vs|];
      try discriminate.
    + injection Hm as -> ->. reflexivity.
    + now destruct (Server.as_parts vs).
  - rewrite process_message_eq. cbn [content role]. rewrite eqb_refl.
    unfold with_url. cbn [image_urls texts filter].
    assert (Hne : Server.imageData f <> []) by discriminate.
    destruct (Server.imageData f) as [|c u] eqn:E; [congruence|].
    cbn [map join]. rewrite <- E, imageData_payload by assumption.
    reflexivity.
Qed.

(** [toString('base64')] on one, two and three bytes. *)
Example base64_of_short_buffers :
  map Server.base64 [qbytes "A"; qbytes "AB"; qbytes "ABC"; qbytes "ABCD"]
  = [lit "QQ=="; lit "QUI="; lit "QUJD"; lit "QUJDRA=="].
Proof. reflexivity. Qed.

(* ================================================================== *)
(** * The streamed response on the page *)
(* ================================================================== *)

Section Page.


End Page.


(* ================================================================== *)
(** * The bulk operation and the callbacks *)
(* ================================================================== *)

Section BulkCallbacks.
Context {P : Platform}.

Lemma bulk_attempt_callbacks (baseUrl : jsstring) (c : config) (t : bool)
    (st : state) :
  kept is_callback (snd (bulk_attempt baseUrl c t st)) = kept is_callback st.
Proof.
  unfold bulk_attempt. apply kept_bind.
  - now apply selfhosted_send_kept.
  - intros resp st1 _. apply kept_bind.
    + now rewrite json_state.
    + reflexivity.
Qed.

Lemma two_stage_callbacks {A} (unsupported : exn -> bool)
    (attempt : bool -> M A) (t : bool) (st : state) :
  (forall t0 st0,
     kept is_callback (snd (attempt t0 st0)) = kept is_callback st0) ->
  kept is_callback (snd (two_stage unsupported attempt t st))
  = kept is_callback st.
Proof.
  intros Ha. unfold two_stage. destruct t; [|apply Ha].
  pose proof (Ha true st) as H1.
  destruct (attempt true st) as [[a|e] st1]; cbn [snd] in *; [exact H1|].
  destruct (unsupported e); [|exact H1].
  rewrite <- H1. apply kept_bind.
  - now apply kept_emit.
  - intros _ st2 _. apply Ha.
Qed.

End BulkCallbacks.

(** X20. [generateResponse] calls no callback: whatever the backend
    answers, and with the retry of the self-hosted provider as well,
    the calls of [onContent], [onThinking] and [onDone] after it are
    those before it; the callbacks of the request are for
    [streamResponse] alone, and a caller of the bulk operation is not
    told by [onDone] that it is over. *)
Theorem X20_generateResponse_calls_no_callback :
  forall (P : Platform) (apiKey baseUrl : jsstring) (c : config) (st : state),
    callback_calls (trace (snd (OpenAIProvider.generateResponse apiKey c st)))
    = callback_calls (trace st) /\
    callback_calls
      (trace (snd (SelfHostedProvider.generateResponse baseUrl c st)))
    = callback_calls (trace st).
Proof.
  intros P apiKey baseUrl c st. split.
  - unfold OpenAIProvider.generateResponse.
    apply (kept_bind is_callback).
    + now apply openai_send_kept.
    + intros resp st1 _. apply kept_bind.
      * now rewrite openai_json_state.
      * reflexivity.
  - rewrite generateResponse_two_stage.
    apply (two_stage_callbacks _ (bulk_attempt baseUrl c)).
    intros. apply bulk_attempt_callbacks.
Qed.

(* ================================================================== *)
(** * The calls of the callbacks, from the text of the body *)
(* ================================================================== *)

Section Meaning.
Context {P : Platform}.
Variable parse : jsstring -> M jsval.
Variable increment : jsstring -> jsval.
Variable cb : config.

(** The parser returns the increment, an object, and does nothing the
    caller sees. *)
Hypothesis parse_pure :
  forall line st, exists st',
    parse line st = (Normal (increment line), st') /\
    env st' = env st /\
    kept is_callback st' = kept is_callback st.
Hypothesis increment_object : forall line, nullish (increment line) = false.
Hypothesis onContent_normal : forall s, returns_normally (onContent cb s).
Hypothesis onThinking_normal : forall s, returns_normally (onThinking cb s).
Hypothesis onDone_normal : returns_normally (onDone cb).

Lemma call_recorded (e : event) (f : world -> completion unit * world)
    (st : state) :
  is_callback e = true ->
  returns_normally f ->
  exists st',
    (emit e ;; perform f) st = (Normal tt, st') /\
    kept is_callback st' = kept is_callback st ++ [e].
Proof.
  intros He Hf. unfold bind, emit. rewrite perform_normal by assumption.
  eexists. split; [reflexivity|].
  unfold kept, record. cbn [trace]. rewrite filter_app. cbn [filter].
  now rewrite He.
Qed.

Lemma deliver_calls (result : jsval) (st : state) :
  nullish result = false ->
  exists st',
    deliver cb result st = (Normal tt, st') /\
    kept is_callback st'
    = kept is_callback st ++ Increments.deliveries result.
Proof.
  intros Hn. unfold deliver, Increments.deliveries.
  unfold bind at 1. rewrite get_eq, Hn. unfold bind at 1.
  assert (H1 : exists st1,
    match is_string (member result (lit "content")) with
    | Some s => call_onContent cb s
    | None => ret tt
    end st = (Normal tt, st1) /\
    kept is_callback st1
    = kept is_callback st
      ++ match member result (lit "content") with
         | Str s => [OnContent s]
         | _ => []
         end).
  { destruct (member result (lit "content")); cbn [is_string];
      try (eexists; split; [reflexivity | now rewrite app_nil_r]).
    now apply call_recorded. }
  destruct H1 as (st1 & -> & H1).
  unfold bind. rewrite get_eq, Hn.
  assert (H2 : exists st2,
    match is_string (member result (lit "thinking")) with
    | Some s => call_onThinking cb s
    | None => ret tt
    end st1 = (Normal tt, st2) /\
    kept is_callback st2
    = kept is_callback st1
      ++ match member result (lit "thinking") with
         | Str s => [OnThinking s]
         | _ => []
         end).
  { destruct (member result (lit "thinking")); cbn [is_string];
      try (eexists; split; [reflexivity | now rewrite app_nil_r]).
    now apply call_recorded. }
  destruct H2 as (st2 & -> & H2).
  exists st2. split; [reflexivity|]. now rewrite H2, H1, app_assoc.
Qed.

Lemma onDone_recorded (st : state) :
  exists st',
    call_onDone cb st = (Normal tt, st') /\
    kept is_callback st' = kept is_callback st ++ [OnDone].
Proof. now apply call_recorded. Qed.

(** The loop over the lines: it returns from the function at the first
    done line, after the calls of the lines before it and the call of
    [onDone]. *)
Lemma for_lines_calls (lines : list jsstring) (st : state) :
  exists st',
    for_lines parse cb lines st
    = (Normal (if Increments.done_in increment (nonblank lines)
               then Return else Next tt), st') /\
    kept is_callback st'
    = kept is_callback st
      ++ Increments.until_done increment (nonblank lines)
      ++ (if Increments.done_in increment (nonblank lines)
          then [OnDone] else []).
Proof.
  revert st; induction lines as [|raw lines IH]; intros st.
  - exists st. split; [reflexivity|]. cbn. now rewrite app_nil_r.
  - unfold nonblank. cbn [map filter for_lines].
    destruct (trim raw) as [|c line]; [apply IH|].
    fold (nonblank lines).
    cbn [Increments.done_in existsb Increments.until_done].
    fold (Increments.done_in increment (nonblank lines)).
    unfold bind at 1.
    destruct (parse_pure (c :: line) st) as (st1 & -> & _ & Hk1).
    unfold bind at 1. rewrite get_eq, increment_object.
    destruct (truthy (member (increment (c :: line)) (lit "isDone"))).
    + unfold bind at 1.
      destruct (onDone_recorded st1) as (st2 & -> & Hk2).
      unfold bind. rewrite get_eq, increment_object.
      unfold log, emit, ret. eexists. split; [reflexivity|].
      cbn [orb app]. rewrite kept_record. cbn [is_callback].
      now rewrite app_nil_r, Hk2, Hk1.
    + unfold bind.
      destruct (deliver_calls (increment (c :: line)) st1
                  (increment_object _)) as (st2 & -> & Hk2).
      destruct (IH st2) as (st3 & -> & Hk3).
      exists st3. split; [reflexivity|]. cbn [orb].
      now rewrite Hk3, Hk2, Hk1, <- !app_assoc.
Qed.

Lemma nonblank_app (xs ys : list jsstring) :
  nonblank (xs ++ ys) = nonblank xs ++ nonblank ys.
Proof. unfold nonblank. now rewrite map_app, filter_app. Qed.

Lemma until_done_app (xs ys : list jsstring) :
  Increments.until_done increment (xs ++ ys)
  = Increments.until_done increment xs
    ++ (if Increments.done_in increment xs then []
        else Increments.until_done increment ys).
Proof.
  induction xs as [|x xs IH]; [reflexivity|].
  cbn [app Increments.until_done Increments.done_in existsb].
  destruct (truthy _); [reflexivity|].
  cbn [orb]. fold (Increments.done_in increment xs).
  now rewrite IH, app_assoc.
Qed.

(** One chunk reduced: the calls of the lines up to the first done
    line, then the call of [onDone]. *)
Lemma one_chunk_calls (bs : list byte) (f : option exn) (st : state) :
  exists st',
    _streamNDJSON parse cb (streaming [bs] f) st = (Normal tt, st') /\
    kept is_callback st'
    = kept is_callback st
      ++ Increments.until_done increment
           (Increments.lines_of {| chunks := [bs]; failure := f |})
      ++ [OnDone].
Proof.
  unfold Increments.lines_of. cbn [chunks failure List.concat].
  rewrite app_nil_r.
  unfold _streamNDJSON, try_catch.
  cbn [streaming body chunks failure for_await].
  destruct (TextDecoder.decode TextDecoder.create bs) as [d text].
  cbn [snd]. rewrite app_nil_l.
  assert (Hlines :
    nonblank (split NL text)
    = nonblank (removelast (split NL text))
      ++ nonblank [last (split NL text) []]).
  { rewrite <- nonblank_app. f_equal.
    apply app_removelast_last, split_not_nil. }
  unfold bind at 1. unfold log at 1, emit at 1.
  assert (Hs : kept is_callback (record (Log DEBUG StreamStart) st)
               = kept is_callback st)
    by (rewrite kept_record; apply app_nil_r).
  rewrite <- Hs. generalize (record (Log DEBUG StreamStart) st).
  clear st Hs. intros st.
  unfold bind at 1. unfold bind at 1.
  destruct (for_lines_calls (removelast (split NL text)) st)
    as (st1 & -> & Hk1).
  destruct (Increments.done_in increment
              (nonblank (removelast (split NL text)))) eqn:Hdone.
  { exists st1. split; [reflexivity|]. rewrite Hk1.
    destruct f; [reflexivity|].
    now rewrite Hlines, until_done_app, Hdone, app_nil_r. }
  rewrite app_nil_r in Hk1.
  destruct f as [e|].
  { unfold throw, bind, log, emit.
    destruct (onDone_recorded (record (Log ERROR (StreamError e)) st1))
      as (st2 & -> & Hk2).
    exists st2. split; [reflexivity|].
    now rewrite Hk2, kept_record, app_nil_r, Hk1, <- app_assoc. }
  unfold ret at 1. cbv beta iota.
  rewrite Hlines, until_done_app, Hdone.
  unfold nonblank at 2. cbn [map filter].
  unfold bind at 1.
  destruct (trim (last (split NL text) [])) as [|c line].
  - unfold ret at 1. unfold bind.
    destruct (onDone_recorded st1) as (st2 & -> & Hk2).
    unfold log, emit. eexists. split; [reflexivity|].
    rewrite kept_record. cbn [is_callback Increments.until_done].
    now rewrite !app_nil_r, Hk2, Hk1, <- ?app_assoc.
  - unfold bind at 1.
    destruct (parse_pure (c :: line) st1) as (st2 & -> & _ & Hk2).
    unfold bind at 1. rewrite get_eq, increment_object.
    cbn [Increments.until_done].
    destruct (truthy (member (increment (c :: line)) (lit "isDone")));
      cbn [negb].
    + unfold ret at 1. unfold bind.
      destruct (onDone_recorded st2) as (st3 & -> & Hk3).
      unfold log, emit. eexists. split; [reflexivity|].
      rewrite kept_record. cbn [is_callback].
      now rewrite !app_nil_r, Hk3, Hk2, Hk1, <- ?app_assoc.
    + destruct (deliver_calls (increment (c :: line)) st2
                  (increment_object _)) as (st3 & -> & Hk3).
      unfold bind.
      destruct (onDone_recorded st3) as (st4 & -> & Hk4).
      unfold log, emit. eexists. split; [reflexivity|].
      rewrite kept_record. cbn [is_callback].
      now rewrite !app_nil_r, Hk4, Hk3, Hk2, Hk1, <- !app_assoc.
Qed.

(** A body reduced, in whatever chunks it comes. *)
Lemma body_calls (resp : response) (st : state) :
  exists st',
    _streamNDJSON parse cb resp st = (Normal tt, st') /\
    kept is_callback st'
    = kept is_callback st
      ++ Increments.until_done increment (Increments.lines_of (body resp))
      ++ [OnDone].
Proof.
  rewrite (_streamNDJSON_body cb parse resp
             (streaming (chunks (body resp)) (failure (body resp))))
    by (now destruct resp as [o s t [cs f]]).
  rewrite _streamNDJSON_whole.
  destruct (one_chunk_calls (List.concat (chunks (body resp)))
              (failure (body resp)) st) as (st' & -> & Hk).
  exists st'. split; [reflexivity|]. rewrite Hk.
  unfold Increments.lines_of. cbn [chunks failure List.concat].
  now rewrite app_nil_r.
Qed.

End Meaning.

Section PureParsers.
Context {P : Platform}.

Lemma callbacks_logged (l : level) (m : entry) (st : state) :
  kept is_callback (record (Log l m) st) = kept is_callback st.
Proof. rewrite kept_record. apply app_nil_r. Qed.

Lemma cloud_parse_pure (line : jsstring) (st : state) :
  exists st',
    OpenAIProvider._parseStreamLine line st
    = (Normal (Increments.cloud line), st') /\
    env st' = env st /\
    kept is_callback st' = kept is_callback st.
Proof.
  rewrite openai_parse_eq. unfold Increments.cloud.
  destruct (JsString.eqb _ _); [now eexists|].
  destruct (negb _); [now eexists|]. cbv zeta.
  destruct (JSON_parse _) as [obj|e].
  - destruct (nullish obj); eexists; repeat split.
    apply callbacks_logged.
  - eexists; repeat split. apply callbacks_logged.
Qed.

Lemma selfhosted_parse_pure (line : jsstring) (st : state) :
  exists st',
    SelfHostedProvider._parseStreamLine line st
    = (Normal (Increments.selfhosted line), st') /\
    env st' = env st /\
    kept is_callback st' = kept is_callback st.
Proof.
  rewrite selfhosted_parse_eq. unfold Increments.selfhosted.
  destruct (JSON_parse _) as [obj|e].
  - destruct (nullish obj); [eexists; repeat split; apply callbacks_logged|].
    destruct (is_true _); now eexists.
  - eexists; repeat split. apply callbacks_logged.
Qed.

Lemma cloud_increment_object (line : jsstring) :
  nullish (Increments.cloud line) = false.
Proof.
  unfold Increments.cloud.
  destruct (JsString.eqb _ _); [reflexivity|].
  destruct (negb _); [reflexivity|].
  destruct (JSON_parse _) as [obj|e]; [|reflexivity].
  now destruct (nullish obj).
Qed.

Lemma selfhosted_increment_object (line : jsstring) :
  nullish (Increments.selfhosted line) = false.
Proof.
  unfold Increments.selfhosted.
  destruct (JSON_parse _) as [obj|e]; [|reflexivity].
  destruct (nullish obj); [reflexivity|]. now destruct (is_true _).
Qed.

End PureParsers.

(** X21. The calls of the callbacks are a function of the text of the
    body. With callbacks that return, a reduction with the parser of
    either provider returns, and the calls it made are these: the body
    is read as one text, whatever its chunks, and cut into lines; for
    each line that is not blank, in order and up to the first done
    line, [onContent] on the content of its increment when that is a
    string, then [onThinking] on its thinking when that is a string;
    then [onDone], once, and nothing after it. A line that is not
    JSON, or not of the expected shape, adds no call. What follows the
    last line feed is a line like the others when the transfer ends
    well, and is dropped when it breaks. *)
Theorem X21_calls_are_a_function_of_the_text :
  forall (P : Platform) (cb : config) (resp : response) (st : state),
    (forall s, returns_normally (onContent cb s)) ->
    (forall s, returns_normally (onThinking cb s)) ->
    returns_normally (onDone cb) ->
    (exists st',
       _streamNDJSON OpenAIProvider._parseStreamLine cb resp st
       = (Normal tt, st') /\
       callback_calls (trace st')
       = callback_calls (trace st)
         ++ Increments.until_done Increments.cloud
              (Increments.lines_of (body resp))
         ++ [OnDone]) /\
    (exists st',
       _streamNDJSON SelfHostedProvider._parseStreamLine cb resp st
       = (Normal tt, st') /\
       callback_calls (trace st')
       = callback_calls (trace st)
         ++ Increments.until_done Increments.selfhosted
              (Increments.lines_of (body resp))
         ++ [OnDone]).
Proof.
  intros P cb resp st HonC HonT HonD. split.
  - apply (body_calls OpenAIProvider._parseStreamLine Increments.cloud cb
             cloud_parse_pure cloud_increment_object HonC HonT HonD).
  - apply (body_calls SelfHostedProvider._parseStreamLine
             Increments.selfhosted cb
             selfhosted_parse_pure selfhosted_increment_object
             HonC HonT HonD).
Qed.

(* ================================================================== *)
(** * The server: the models listed *)
(* ================================================================== *)

Section Answered.
Context {P : Platform} {L : Models.Listing P}.







End Answered.


(* ================================================================== *)
(** * More runs on the scripted platform *)
(* ================================================================== *)

(** X1 at work: a line with a carriage return, and a blank line. *)
Lemma X1_witness :
  nonblank [line_a ++ [13]; []; lit "  "; line_done]
  = nonblank [line_a; line_done] /\
  for_lines (P := Scripted.platform) SelfHostedProvider._parseStreamLine
    (Scripted.request_of [] false)
    [line_a ++ [13]; []; lit "  "; line_done] (Scripted.start [])
  = for_lines SelfHostedProvider._parseStreamLine
      (Scripted.request_of [] false) [line_a; line_done] (Scripted.start []).
Proof.
  split; [reflexivity|].
  exact (proj2 (X1_blank_lines_and_padding_are_skipped Scripted.platform
                  SelfHostedProvider._parseStreamLine
                  (Scripted.request_of [] false) [line_a; line_done]
                  (Scripted.start []))
           [line_a ++ [13]; []; lit "  "; line_done] eq_refl).
Defined.

(** X2 at work: the three lines of the scenario, then a late line and
    a transfer that breaks. *)
Lemma X2_witness :
  exists st',
    for_await (P := Scripted.platform) SelfHostedProvider._parseStreamLine
      (Scripted.request_of [] false) [three_lines] None TextDecoder.create []
      (record (Log DEBUG StreamStart) (Scripted.start []))
    = (Normal Return, st') /\
    for_await SelfHostedProvider._parseStreamLine
      (Scripted.request_of [] false) ([three_lines] ++ [Scripted.late])
      (Some (JsError (lit "FetchError") (lit "aborted"))) TextDecoder.create []
      (record (Log DEBUG StreamStart) (Scripted.start []))
    = (Normal Return, st') /\
    _streamNDJSON SelfHostedProvider._parseStreamLine
      (Scripted.request_of [] false)
      (streaming ([three_lines] ++ [Scripted.late])
         (Some (JsError (lit "FetchError") (lit "aborted"))))
      (Scripted.start [])
    = (Normal tt, st').
Proof.
  eexists.
  assert (H : for_await (P := Scripted.platform)
                SelfHostedProvider._parseStreamLine
                (Scripted.request_of [] false) [three_lines] None
                TextDecoder.create []
                (record (Log DEBUG StreamStart) (Scripted.start []))
              = (Normal Return, _)) by (vm_compute; reflexivity).
  pose proof (X2_nothing_is_read_after_a_done_line
                Scripted.platform SelfHostedProvider._parseStreamLine
                (Scripted.request_of [] false) [three_lines] [Scripted.late]
                None (Some (JsError (lit "FetchError") (lit "aborted"))))
    as [H1 H2].
  split; [exact H|]. split.
  - exact (H1 _ _ _ _ H).
  - exact (proj1 (H2 _ _ H)).
Defined.

(** X3 at work: one line, with no line feed after it. *)
Lemma X3_witness :
  same_outcome
    (_streamNDJSON (P := Scripted.platform) SelfHostedProvider._parseStreamLine
       (Scripted.request_of [] false)
       (streaming ([qbytes "{'message':{'content':'a'}}"] ++ [[x0a]]) None)
       (Scripted.start []))
    (_streamNDJSON SelfHostedProvider._parseStreamLine
       (Scripted.request_of [] false)
       (streaming [qbytes "{'message':{'content':'a'}}"] None)
       (Scripted.start [])).
Proof.
  exact (X3_the_final_line_feed_is_optional Scripted.platform
           SelfHostedProvider._parseStreamLine (Scripted.request_of [] false)
           [qbytes "{'message':{'content':'a'}}"] (Scripted.start [])
           eq_refl).
Defined.

(** X4 at work on a line with a delta. *)
Lemma X4_witness :
  OpenAIProvider._parseStreamLine (P := Scripted.platform)
    (trim Samples.delta_line) (Scripted.start [])
  = (Normal (Obj [(lit "content", Str (lit "Hi"))]), Scripted.start []) /\
  for_lines OpenAIProvider._parseStreamLine (Scripted.request_of [] false)
    [Samples.delta_line] (Scripted.start [])
  = (call_onContent (Scripted.request_of [] false) (lit "Hi") ;;
     for_lines OpenAIProvider._parseStreamLine (Scripted.request_of [] false)
       []) (Scripted.start []).
Proof.
  refine (X4_cloud_delta_is_delivered Scripted.platform
            (Scripted.request_of [] false) Samples.delta_line []
            (Scripted.start []) Samples.delta (Str (lit "Hi"))
            eq_refl _ eq_refl eq_refl).
  discriminate.
Defined.

(** X5 at work on a line with a content and a thought. *)
Lemma X5_witness :
  for_lines (P := Scripted.platform) SelfHostedProvider._parseStreamLine
    (Scripted.request_of [] false) [Samples.thoughtful_line]
    (Scripted.start [])
  = (call_onContent (Scripted.request_of [] false) (lit "4") ;;
     call_onThinking (Scripted.request_of [] false) (lit "2+2") ;;
     for_lines SelfHostedProvider._parseStreamLine
       (Scripted.request_of [] false) []) (Scripted.start []).
Proof.
  refine (X5_selfhosted_message_is_delivered Scripted.platform
            (Scripted.request_of [] false) Samples.thoughtful_line []
            (Scripted.start []) Samples.thoughtful _ eq_refl eq_refl _);
    discriminate.
Defined.

(** X7 at work: a body streamed, and a request refused. *)
Lemma X7_witness :
  done_calls
    (trace (snd (OpenAIProvider.streamResponse (lit "sk-test")
                   (Scripted.request_of [] false)
                   (Scripted.start [Scripted.streamed_in_two]))))
  = 1%nat /\
  callback_calls
    (trace (snd (SelfHostedProvider.streamResponse (lit "http://h")
                   (Scripted.request_of [] false)
                   (Scripted.start [Scripted.reply 500 (lit "down")]))))
  = [].
Proof.
  split.
  - exact (proj1 (proj1 (X7_stream_returns_after_onDone_or_throws_before_any_callback
             Scripted.platform (lit "sk-test") (lit "http://h")
             (Scripted.request_of [] false)
             (Scripted.start [Scripted.streamed_in_two])
             (fun _ => eq_refl)))).
  - exact (proj2 (X7_stream_returns_after_onDone_or_throws_before_any_callback
             Scripted.platform (lit "sk-test") (lit "http://h")
             (Scripted.request_of [] false)
             (Scripted.start [Scripted.reply 500 (lit "down")])
             (fun _ => eq_refl))).
Defined.

(** X8 at work: a backend that is not there, and one that answers with
    a page that is not JSON. *)
Lemma X8_witness :
  fst (SelfHostedProvider.generateResponse (lit "http://h")
         (Scripted.request_of [] true) (Scripted.start []))
  = Throw (JsError (lit "FetchError") (lit "request failed")) /\
  fst (SelfHostedProvider.streamResponse (lit "http://h")
         (Scripted.request_of [] true) (Scripted.start []))
  = Throw (JsError (lit "FetchError") (lit "request failed")) /\
  fst (SelfHostedProvider.generateResponse (lit "http://h")
         (Scripted.request_of [] true)
         (Scripted.start [Scripted.reply 200 (lit "<html>");
                          Scripted.reply 200
                            (qlit "{'message':{'content':'hello'}}")]))
  = Throw (JsError (lit "SyntaxError") (lit "Unexpected token")).
Proof.
  pose proof (X8_error_objects_are_not_retried Scripted.platform
                (lit "http://h") (Scripted.request_of [] true)
                (Scripted.start []) (lit "FetchError") (lit "request failed")
                eq_refl) as (H1 & H2 & _).
  pose proof (X8_error_objects_are_not_retried Scripted.platform
                (lit "http://h") (Scripted.request_of [] true)
                (Scripted.start [Scripted.reply 200 (lit "<html>");
                                 Scripted.reply 200
                                   (qlit "{'message':{'content':'hello'}}")])
                (lit "SyntaxError") (lit "Unexpected token")
                eq_refl) as (_ & _ & H3).
  split; [exact (proj1 (H1 [] eq_refl))|].
  split; [exact (proj1 (H2 [] eq_refl))|].
  exact (proj1 (H3 _ (Scripted.reply 200 (lit "<html>")) (lit "<html>")
                  eq_refl eq_refl eq_refl eq_refl)).
Defined.

(** X9 at work: a content that is a string, and one that is the number
    0. *)
Lemma X9_witness :
  fst (OpenAIProvider.generateResponse (lit "sk-test")
         (Scripted.request_of [] false)
         (Scripted.start
            [Scripted.reply 200
               (qlit "{'choices':[{'message':{'content':'hello'}}]}")]))
  = Normal (Str (lit "hello")) /\
  fst (SelfHostedProvider.generateResponse (lit "http://h")
         (Scripted.request_of [] true)
         (Scripted.start
            [Scripted.reply 200 (qlit "{'message':{'content':0}}")]))
  = Normal (Str []).
Proof.
  split.
  - exact (proj1 (X9_generateResponse_returns_the_content Scripted.platform
             (lit "sk-test") (lit "http://h") (Scripted.request_of [] false)
             (Scripted.start
                [Scripted.reply 200
                   (qlit "{'choices':[{'message':{'content':'hello'}}]}")])
             (Scripted.reply 200
                (qlit "{'choices':[{'message':{'content':'hello'}}]}"))
             [] (qlit "{'choices':[{'message':{'content':'hello'}}]}")
             (Obj [(lit "choices",
                    Arr [Obj [(lit "message",
                               Obj [(lit "content", Str (lit "hello"))])]])])
             (Str (lit "hello")) eq_refl eq_refl eq_refl)
             eq_refl eq_refl).
  - exact (proj2 (X9_generateResponse_returns_the_content Scripted.platform
             (lit "sk-test") (lit "http://h") (Scripted.request_of [] true)
             (Scripted.start
                [Scripted.reply 200 (qlit "{'message':{'content':0}}")])
             (Scripted.reply 200 (qlit "{'message':{'content':0}}"))
             [] (qlit "{'message':{'content':0}}")
             (Obj [(lit "message", Obj [(lit "content", Num (lit "0"))])])
             (Num (lit "0")) eq_refl eq_refl eq_refl)
             eq_refl eq_refl).
Defined.

(** X10 at work on a model that is not found. *)
Lemma X10_witness :
  fst (OpenAIProvider.streamResponse (lit "sk-test")
         (Scripted.request_of [] false)
         (Scripted.start
            [Scripted.reply 404 (qlit "{'error':'model not found'}")]))
  = Throw (HttpError 404 (Str (qlit "{'error':'model not found'}"))) /\
  fst (SelfHostedProvider.generateResponse (lit "http://h")
         (Scripted.request_of [] true)
         (Scripted.start
            [Scripted.reply 404 (qlit "{'error':'model not found'}")]))
  = Throw (HttpError 404
             (Obj [(lit "error", Str (lit "model not found"))])).
Proof.
  pose proof (X10_http_failure_is_thrown_with_status_and_body
                Scripted.platform (lit "sk-test") (lit "http://h")
                (Scripted.request_of [] false)
                (Scripted.start
                   [Scripted.reply 404 (qlit "{'error':'model not found'}")])
                (Scripted.reply 404 (qlit "{'error':'model not found'}")) []
                (qlit "{'error':'model not found'}") eq_refl eq_refl)
    as (_ & H1 & _).
  pose proof (X10_http_failure_is_thrown_with_status_and_body
                Scripted.platform (lit "sk-test") (lit "http://h")
                (Scripted.request_of [] true)
                (Scripted.start
                   [Scripted.reply 404 (qlit "{'error':'model not found'}")])
                (Scripted.reply 404 (qlit "{'error':'model not found'}")) []
                (qlit "{'error':'model not found'}") eq_refl eq_refl)
    as (_ & _ & H2).
  split; [exact (H1 eq_refl)|].
  exact (proj1 (H2 (Obj [(lit "error", Str (lit "model not found"))])
                  eq_refl (or_intror eq_refl)) eq_refl).
Defined.

(** X11 at work: a message with a data URL, a URL that is none, an
    image without a URL and a part of another type. *)
Lemma X11_witness :
  SelfHostedProvider.process_message
    {| role := lit "user";
       content :=
         Parts [TextPart (lit " look "); ImagePart (lit "data:image/png;base64,QUJD");
                ImagePart []; OtherPart (lit "audio");
                ImagePart (lit "https://example.com/cat.png")] |}
  = WithImages (lit "user") (lit "look")
      [lit "QUJD"; lit "https://example.com/cat.png"].
Proof.
  exact (proj1 (X11_adapter_on_every_user_message
           {| role := lit "user";
              content :=
                Parts [TextPart (lit " look ");
                       ImagePart (lit "data:image/png;base64,QUJD");
                       ImagePart []; OtherPart (lit "audio");
                       ImagePart (lit "https://example.com/cat.png")] |}
           _ eq_refl eq_refl)).
Defined.

(** X13 at work: no key, and a key. *)
Lemma X13_witness :
  Models.OpenAI.fetchModels (L := Samples.listing) Undefined
    (Samples.listing_from [])
  = (Throw (JsError (lit "Error") (lit "Please enter an API key first")),
     Samples.listing_from []) /\
  Models.gets
    (Models.trace
       (snd (Models.OpenAI.fetchModels (L := Samples.listing)
               (Str (lit "sk-test")) (Samples.listing_from []))))
  = [Models.Get (lit "https://api.openai.com/v1/models")
       [(lit "Authorization", lit "Bearer sk-test")]].
Proof.
  split.
  - exact (proj1 (proj1 (X13_fetchModels_sends_at_most_one_request
             Scripted.platform Samples.listing Undefined
             (Samples.listing_from [])) eq_refl)).
  - exact (proj1 (proj2 (X13_fetchModels_sends_at_most_one_request
             Scripted.platform Samples.listing (Str (lit "sk-test"))
             (Samples.listing_from [])) eq_refl)).
Defined.

(** X14 at work on the listings of the two backends. *)
Lemma X14_witness :
  fst (Models.OpenAI.fetchModels (L := Samples.listing) (Str (lit "sk-test"))
         (Samples.listing_from [Scripted.reply 200 Samples.cloud_listing]))
  = Normal (Arr [Obj [(lit "id", Str (lit "gpt-4o"));
                      (lit "name", Str (lit "gpt-4o"))];
                 Obj [(lit "id", Str (lit "gpt-4o-mini"));
                      (lit "name", Str (lit "gpt-4o-mini"))]]) /\
  fst (Models.SelfHosted.fetchModels (L := Samples.listing)
         (Str (lit "http://h"))
         (Samples.listing_from [Scripted.reply 200 Samples.local_listing]))
  = Normal (Arr [Obj [(lit "id", Str (lit "llama3:8b"));
                      (lit "name", Str (lit "llama3:8b"))]]).
Proof.
  split.
  - refine (proj1 (X14_fetchModels_lists_the_models Scripted.platform
             Samples.listing (Str (lit "sk-test"))
             (Samples.listing_from [Scripted.reply 200 Samples.cloud_listing])
             (Scripted.reply 200 Samples.cloud_listing) []
             Samples.cloud_listing
             (Obj [(lit "object", Str (lit "list"));
                   (lit "data",
                    Arr [Obj [(lit "id", Str (lit "gpt-4o"))];
                         Obj [(lit "id", Str (lit "gpt-4o-mini"))]])])
             [Obj [(lit "id", Str (lit "gpt-4o"))];
              Obj [(lit "id", Str (lit "gpt-4o-mini"))]]
             eq_refl eq_refl eq_refl eq_refl _) eq_refl eq_refl).
    repeat constructor.
  - refine (proj2 (X14_fetchModels_lists_the_models Scripted.platform
             Samples.listing (Str (lit "http://h"))
             (Samples.listing_from [Scripted.reply 200 Samples.local_listing])
             (Scripted.reply 200 Samples.local_listing) []
             Samples.local_listing
             (Obj [(lit "models",
                    Arr [Obj [(lit "name", Str (lit "llama3:8b"));
                              (lit "size", Num (lit "4661224676"))]])])
             [Obj [(lit "name", Str (lit "llama3:8b"));
                   (lit "size", Num (lit "4661224676"))]]
             eq_refl eq_refl eq_refl eq_refl _) eq_refl eq_refl).
    repeat constructor.
Defined.

(** X15 at work on the listing of the cloud backend. *)
Lemma X15_witness :
  exists descriptors,
    Arr [Obj [(lit "id", Str (lit "gpt-4o"));
              (lit "name", Str (lit "gpt-4o"))];
         Obj [(lit "id", Str (lit "gpt-4o-mini"));
              (lit "name", Str (lit "gpt-4o-mini"))]]
    = Arr descriptors /\
    Forall (fun d => exists x, d = Obj [(lit "id", x); (lit "name", x)])
      descriptors.
Proof.
  exact (X15_fetchModels_returns_descriptors Scripted.platform
           Samples.listing (Str (lit "sk-test"))
           (Samples.listing_from [Scripted.reply 200 Samples.cloud_listing])
           _ (or_introl eq_refl)).
Defined.

(** X16 at work: a key that is refused, and a listing under another
    key. *)
Lemma X16_witness :
  fst (Models.OpenAI.fetchModels (L := Samples.listing) (Str (lit "sk-test"))
         (Samples.listing_from [Scripted.reply 401 (lit "Unauthorized")]))
  = Throw (JsError (lit "Error") (lit "HTTP 401")) /\
  exists e,
    fst (Models.SelfHosted.fetchModels (L := Samples.listing)
           (Str (lit "http://h"))
           (Samples.listing_from [Scripted.reply 200 Samples.cloud_listing]))
    = Throw e.
Proof.
  split.
  - exact (proj1 (proj1 (X16_fetchModels_failures Scripted.platform
             Samples.listing (Str (lit "sk-test"))
             (Samples.listing_from [Scripted.reply 401 (lit "Unauthorized")])
             (Scripted.reply 401 (lit "Unauthorized")) [] eq_refl) eq_refl)
             eq_refl).
  - refine (proj2 (proj2 (X16_fetchModels_failures Scripted.platform
             Samples.listing (Str (lit "http://h"))
             (Samples.listing_from [Scripted.reply 200 Samples.cloud_listing])
             (Scripted.reply 200 Samples.cloud_listing) [] eq_refl) eq_refl)
             Samples.cloud_listing
             (Obj [(lit "object", Str (lit "list"));
                   (lit "data",
                    Arr [Obj [(lit "id", Str (lit "gpt-4o"))];
                         Obj [(lit "id", Str (lit "gpt-4o-mini"))]])])
             eq_refl eq_refl eq_refl _).
    intros items H. discriminate H.
Defined.

(** X17 at work: a conversation in which the user spoke twice, one in
    which the user did not speak, and one that ends in [null]. *)
Lemma X17_witness :
  Server.attach (Some Samples.upload) Samples.conversation
  = (Normal
       (Obj [(lit "model", Str (lit "llava"));
             (lit "messages",
              Arr [Samples.said "user" "hello"; Samples.said "assistant" "hi";
                   Obj [(lit "role", Str (lit "user"));
                        (lit "content",
                         Server.with_image (Str (lit "what is this?"))
                           (lit "data:image/png;base64,QUJD"))];
                   Samples.said "assistant" "..."])]),
     [Server.ImageDetected]) /\
  Server.attach (Some Samples.upload)
    (Obj [(lit "messages", Arr [Samples.said "system" "be brief"])])
  = (Normal (Obj [(lit "messages", Arr [Samples.said "system" "be brief"])]),
     [Server.ImageDetected; Server.NoUserMessage]) /\
  Server.attach (Some Samples.upload)
    (Obj [(lit "messages", Arr [Samples.said "user" "hello"; Null])])
  = (Throw TypeError, [Server.ImageDetected]).
Proof.
  split; [|split].
  - refine (proj1 (proj2 (X17_image_goes_to_the_last_user_message
              Samples.upload Samples.conversation))
              [Samples.said "user" "hello"; Samples.said "assistant" "hi"]
              (Samples.said "user" "what is this?")
              [Samples.said "assistant" "..."] eq_refl eq_refl _).
    repeat constructor.
  - refine (proj1 (proj2 (proj2 (X17_image_goes_to_the_last_user_message
              Samples.upload
              (Obj [(lit "messages", Arr [Samples.said "system" "be brief"])]))))
              [Samples.said "system" "be brief"] eq_refl _).
    repeat constructor.
  - refine (proj2 (proj2 (proj2 (X17_image_goes_to_the_last_user_message
              Samples.upload
              (Obj [(lit "messages",
                     Arr [Samples.said "user" "hello"; Null])]))))
              [Samples.said "user" "hello"] Null [] eq_refl eq_refl _).
    constructor.
Defined.

(** X18 at work on the last message of the user. *)
Lemma X18_witness :
  SelfHostedProvider.process_message
    {| role := lit "user";
       content := Parts [TextPart (lit "what is this?");
                         ImagePart (Server.imageData Samples.upload)] |}
  = WithImages (lit "user") (lit "what is this?") [lit "QUJD"].
Proof.
  refine (proj2 (X18_attached_image_reaches_the_backend_as_base64
            Samples.upload (Samples.said "user" "what is this?")
            (lit "what is this?") eq_refl _)).
  vm_compute. intuition discriminate.
Defined.

(** X21 at work on the body of the scenario, with a late line after the
    done line. *)
Lemma X21_witness :
  exists st',
    _streamNDJSON (P := Scripted.platform) SelfHostedProvider._parseStreamLine
      (Scripted.request_of [] false) Scripted.streamed_in_two
      (Scripted.start [])
    = (Normal tt, st') /\
    callback_calls (trace st')
    = [OnContent (lit "a"); OnContent (lit "b"); OnDone].
Proof.
  exact (proj2 (X21_calls_are_a_function_of_the_text Scripted.platform
                  (Scripted.request_of [] false) Scripted.streamed_in_two
                  (Scripted.start [])
                  (fun _ _ => eq_refl) (fun _ _ => eq_refl)
                  (fun _ => eq_refl))).
Defined.

